(** * TerrariaMonitorTool: the console buffer engine and the menu state machine

    A shallow embedding of [Console::OutputBuffer], [Console::MenuOptionList]
    and [Console::waitForSelection] (src/Console.cpp, src/Console.h), and the
    properties of the specification checked against it.

    Conventions.
    - A C++ integer of width w is a [Z] kept in range by an explicit
      conversion ([to_short], [to_ushort], [to_DWORD], [to_size_t]) at every
      place the source stores into a variable of that type.
    - A [wchar_t] is the [Z] of its code unit; a [std::wstring] is a [list] of
      them; a [std::vector] is a [list] (front = index 0).
    - An operation that the C++ standard leaves undefined, or that throws, is
      a [Raise] in the [Result] monad.
    - The Windows console itself is not part of the repository: it is the
      type class [WinConsole], and every statement holds for all its
      instances.  [Terminal] is one small instance used to run the code. *)

From Stdlib Require Import Strings.String Strings.Ascii DecimalString.
From Stdlib Require Import ZArith List Bool Lia.
Import ListNotations.
Local Open Scope Z_scope.


(* ================================================================== *)
(** * Machine integers and characters *)

(** [short] / [SHORT]: 16 bits, two's complement. *)
Definition to_short (x : Z) : Z := (x + 32768) mod 65536 - 32768.
(** [unsigned short] / [WORD]. *)
Definition to_ushort (x : Z) : Z := x mod 65536.
(** [DWORD]. *)
Definition to_DWORD (x : Z) : Z := x mod 4294967296.
(** [size_t] / [unsigned long long] on the 64-bit target. *)
Definition to_size_t (x : Z) : Z := x mod 18446744073709551616.

Definition SHRT_MAX : Z := 32767.
Definition SIZE_MAX : Z := 18446744073709551615.

Definition wchar_t := Z.
Definition wstring := list wchar_t.

Definition wc (a : ascii) : wchar_t := Z.of_N (N_of_ascii a).

(** [L"..."] for the ASCII part of a wide literal. *)
Fixpoint L (s : string) : wstring :=
  match s with
  | EmptyString => []
  | String a s' => wc a :: L s'
  end.

Definition NUL : wchar_t := 0.
Definition NEWLINE : wchar_t := 10.
Definition SPACE : wchar_t := 32.
(** Console.h:105 [VIRTUAL_TERMINAL_SEQUENCE_ESCAPE = L'\x1B']. *)
Definition VIRTUAL_TERMINAL_SEQUENCE_ESCAPE : wchar_t := 27.

(** The characters a [const wchar_t*] denotes: everything before the first
    [L'\0']. *)
Fixpoint c_str (s : wstring) : wstring :=
  match s with
  | [] => []
  | c :: s' => if c =? NUL then [] else c :: c_str s'
  end.

(** Console.h:1085 [getVirtualTerminalSequence]. *)
Definition getVirtualTerminalSequence (sequence : wstring) : wstring :=
  VIRTUAL_TERMINAL_SEQUENCE_ESCAPE :: sequence.

(** [WinConsoleCursorCoordinates] is the Windows [COORD]: two [SHORT]s. *)
Record COORD : Type := mkCOORD { X : Z; Y : Z }.

Definition COORD_eqb (a b : COORD) : bool := (X a =? X b) && (Y a =? Y b).

(* ================================================================== *)
(** * Failure *)

Inductive Failure : Type :=
| OutOfBounds        (* operator[] past the end of a vector or string *)
| OutOfRangeThrown   (* std::out_of_range from basic_string::erase *)
| BadAlloc           (* a growth loop whose bound is a negative value seen as size_t *)
| EmptyOptional      (* operator* on an empty std::optional *)
| BoundUsedUp.       (* the iteration bound of a modelled loop; never reached *)

Inductive Result (A : Type) : Type :=
| Ok (a : A)
| Raise (f : Failure).
Arguments Ok {A} a.
Arguments Raise {A} f.

Definition bind {A B : Type} (r : Result A) (k : A -> Result B) : Result B :=
  match r with
  | Ok a => k a
  | Raise f => Raise f
  end.

Notation "x <- e ;; k" := (bind e (fun x => k))
  (at level 61, e at next level, right associativity).
Notation "' p <- e ;; k" := (bind e (fun x => match x with p => k end))
  (at level 61, p pattern, e at next level, right associativity).

Definition is_Ok {A : Type} (r : Result A) : bool :=
  match r with Ok _ => true | Raise _ => false end.

(** [v[i]] on a [std::vector] (no bounds check in the source). *)
Definition vec_get {A : Type} (v : list A) (i : Z) : Result A :=
  if (0 <=? i) && (i <? Z.of_nat (length v)) then
    match nth_error v (Z.to_nat i) with
    | Some a => Ok a
    | None => Raise OutOfBounds
    end
  else Raise OutOfBounds.

Fixpoint list_set {A : Type} (v : list A) (n : nat) (a : A) : list A :=
  match v, n with
  | [], _ => []
  | _ :: v', O => a :: v'
  | b :: v', S n' => b :: list_set v' n' a
  end.

(** [v[i] = a]. *)
Definition vec_set {A : Type} (v : list A) (i : Z) (a : A) : Result (list A) :=
  if (0 <=? i) && (i <? Z.of_nat (length v)) then Ok (list_set v (Z.to_nat i) a)
  else Raise OutOfBounds.

Definition vec_size {A : Type} (v : list A) : Z := Z.of_nat (length v).

(** [v.back()] of a non-empty vector. *)
Definition vec_back {A : Type} (v : list A) : Result A :=
  match rev v with
  | a :: _ => Ok a
  | [] => Raise OutOfBounds
  end.

(** [s.erase(pos, count)]: throws when [pos > size()], otherwise removes
    [min(count, size() - pos)] characters. *)
Definition wstring_erase (s : wstring) (pos count : Z) : Result wstring :=
  if pos >? vec_size s then Raise OutOfRangeThrown
  else Ok (firstn (Z.to_nat pos) s
           ++ skipn (Z.to_nat (pos + Z.min count (vec_size s - pos))) s).

(** [s.erase(pos)], that is [s.erase(pos, npos)]. *)
Definition wstring_erase_from (s : wstring) (pos : Z) : Result wstring :=
  if pos >? vec_size s then Raise OutOfRangeThrown
  else Ok (firstn (Z.to_nat pos) s).

(* ================================================================== *)
(** * The escape-sequence scanner (Console.cpp:289-295) *)

Module Regex.

(** The fragment of ECMAScript regular expressions the pattern uses.  A
    character class is the list of the code-unit ranges it accepts. *)
Inductive regex : Type :=
| Void
| Eps
| Chr (c : wchar_t)
| Cls (ranges : list (Z * Z))
| Seq (r1 r2 : regex)
| Alt (r1 r2 : regex)
| Rep (ranges : list (Z * Z)) (lo hi : nat).

Definition in_ranges (ranges : list (Z * Z)) (c : wchar_t) : bool :=
  existsb (fun r => (fst r <=? c) && (c <=? snd r)) ranges.

(** Greedy bounded repetition [cls{lo,hi}], backtracking into [k]. *)
Fixpoint rep (ranges : list (Z * Z)) (lo hi : nat) (s : wstring)
  (k : wstring -> option wstring) {struct hi} : option wstring :=
  let stop := match lo with O => k s | S _ => None end in
  match hi with
  | O => stop
  | S hi' =>
      match s with
      | c :: s' =>
          if in_ranges ranges c then
            match rep ranges (pred lo) hi' s' k with
            | Some r => Some r
            | None => stop
            end
          else stop
      | [] => stop
      end
  end.

(** Backtracking matcher with ordered alternation: [rmatch r s k] is what is
    left of [s] after the first way of matching [r] that [k] accepts. *)
Fixpoint rmatch (r : regex) (s : wstring) (k : wstring -> option wstring)
  : option wstring :=
  match r with
  | Void => None
  | Eps => k s
  | Chr c =>
      match s with
      | x :: s' => if x =? c then k s' else None
      | [] => None
      end
  | Cls ranges =>
      match s with
      | x :: s' => if in_ranges ranges x then k s' else None
      | [] => None
      end
  | Seq r1 r2 => rmatch r1 s (fun s' => rmatch r2 s' k)
  | Alt r1 r2 =>
      match rmatch r1 s k with
      | Some rest => Some rest
      | None => rmatch r2 s k
      end
  | Rep ranges lo hi => rep ranges lo hi s k
  end.

(** No character that [r] can consume is [c]. *)
Fixpoint avoids (c : wchar_t) (r : regex) : bool :=
  match r with
  | Void | Eps => true
  | Chr x => negb (x =? c)
  | Cls ranges | Rep ranges _ _ => negb (in_ranges ranges c)
  | Seq r1 r2 | Alt r1 r2 => avoids c r1 && avoids c r2
  end.

(** [r] consumes at least one character. *)
Fixpoint consumes (r : regex) : bool :=
  match r with
  | Void | Chr _ | Cls _ => true
  | Eps => false
  | Seq r1 r2 => consumes r1 || consumes r2
  | Alt r1 r2 => consumes r1 && consumes r2
  | Rep _ lo _ => match lo with O => false | S _ => true end
  end.

Definition Seqs (rs : list regex) : regex := fold_right Seq Eps rs.
Definition Alts (rs : list regex) : regex := fold_right Alt Void rs.
Definition lit (s : string) : regex := Seqs (map Chr (L s)).

(** [\d], [\w] and [[a-zA-Z]] on the code units of the "C" locale. *)
Definition digit : list (Z * Z) := [(48, 57)].
Definition word : list (Z * Z) := [(48, 57); (65, 90); (95, 95); (97, 122)].
Definition alpha : list (Z * Z) := [(97, 122); (65, 90)].
Definition one (a : ascii) : Z * Z := (wc a, wc a).

End Regex.

Import Regex.

(** [TERMINAL_SEQUENCE_REGEX]:
    [^\x1B(?:[\w=>]|\([0B]|(?:\[(?:!p|(?:\??\d{0,4} ?[a-zA-Z])|(?:\d{1,3};\d{1,3}[fH])|(?:[34]8;[25];\d{1,3};\d{1,3};\d{1,3})))|(?:\]4;\d{1,3};rgb;\d{1,3};\d{1,3};\d{1,3}\x07))] *)
Definition TERMINAL_SEQUENCE_TAIL : regex :=
  Alts [
    Cls (word ++ [one "="; one ">"]);
    Seqs [Chr (wc "("); Cls [one "0"; one "B"]];
    Seqs [Chr (wc "[");
          Alts [
            lit "!p";
            Seqs [Rep [one "?"] 0 1; Rep digit 0 4; Rep [one " "] 0 1; Cls alpha];
            Seqs [Rep digit 1 3; Chr (wc ";"); Rep digit 1 3; Cls [one "f"; one "H"]];
            Seqs [Cls [one "3"; one "4"]; Chr (wc "8"); Chr (wc ";");
                  Cls [one "2"; one "5"]; Chr (wc ";");
                  Rep digit 1 3; Chr (wc ";"); Rep digit 1 3; Chr (wc ";");
                  Rep digit 1 3]]];
    Seqs [lit "]4;"; Rep digit 1 3; lit ";rgb;"; Rep digit 1 3; Chr (wc ";");
          Rep digit 1 3; Chr (wc ";"); Rep digit 1 3; Chr 7]
  ].

Definition TERMINAL_SEQUENCE_REGEX : regex :=
  Seq (Chr VIRTUAL_TERMINAL_SEQUENCE_ESCAPE) TERMINAL_SEQUENCE_TAIL.

(** [std::regex_search(&str[strPos], matches, TERMINAL_SEQUENCE_REGEX)] and
    [matches.length()]: the pattern is anchored by [^], so the only candidate
    is the match that starts at the first character.  [^] has the meaning the
    ECMAScript grammar of the C++ standard gives it (start of the searched
    text only), and [\w] and [\d] are the classes of the "C" locale. *)
Definition regex_search (s : wstring) : option Z :=
  match rmatch TERMINAL_SEQUENCE_REGEX s (fun rest => Some rest) with
  | Some rest => Some (vec_size s - vec_size rest)
  | None => None
  end.


(* ================================================================== *)
(** * The Windows console, as the engine sees it *)

Definition HANDLE := Z.
Definition NULL : HANDLE := 0.
Definition INVALID_HANDLE_VALUE : HANDLE := -1.

(** The calls of the Windows API the engine makes.  [host] is the state of
    the real console; nothing is assumed about what a write does to it. *)
Class WinConsole (host : Type) : Type := {
  (** [GetConsoleScreenBufferInfo(h, &info); info.dwCursorPosition] *)
  GetCursorPosition : host -> HANDLE -> COORD;
  (** [GetConsoleScreenBufferInfo(h, &info); info.dwMaximumWindowSize.X] *)
  GetMaximumWindowSizeX : host -> HANDLE -> Z;
  SetConsoleCursorPosition : host -> HANDLE -> COORD -> host * bool;
  WriteConsoleW : host -> HANDLE -> wstring -> host;
  CreateConsoleScreenBuffer : host -> host * HANDLE;
  SetConsoleActiveScreenBuffer : host -> HANDLE -> host;
  CloseHandle : host -> HANDLE -> host
}.

(** framework.h:111 *)
Record ProgramSettings : Type := mkProgramSettings {
  useCustomBufferBehavior : bool
}.

(* ================================================================== *)
(** * Console::OutputBuffer *)

Module OutputBuffer.

(** Console.h:1534 [BufferDataStruct]. *)
Record BufferData : Type := mkBufferData {
  handle : HANDLE;
  contents : list wstring;
  contentsCursorData : list (list Z);
  savedCursors : list COORD;          (* a vector: [back()] is the last element *)
  cursorStartPos : COORD;
  cursorScrollOffset : Z;             (* short *)
  cursorIsVisible : bool
}.

(** [BufferData { .handle = h }] with the default member initialisers. *)
Definition newBufferData (h : HANDLE) : BufferData :=
  mkBufferData h [] [] [] (mkCOORD 0 0) 0 true.

Definition set_lines (bd : BufferData) (c : list wstring) (d : list (list Z)) : BufferData :=
  mkBufferData (handle bd) c d (savedCursors bd) (cursorStartPos bd)
    (cursorScrollOffset bd) (cursorIsVisible bd).
Definition set_savedCursors (bd : BufferData) (s : list COORD) : BufferData :=
  mkBufferData (handle bd) (contents bd) (contentsCursorData bd) s (cursorStartPos bd)
    (cursorScrollOffset bd) (cursorIsVisible bd).
Definition set_cursorStartPos (bd : BufferData) (p : COORD) : BufferData :=
  mkBufferData (handle bd) (contents bd) (contentsCursorData bd) (savedCursors bd) p
    (cursorScrollOffset bd) (cursorIsVisible bd).
Definition set_cursorScrollOffset (bd : BufferData) (o : Z) : BufferData :=
  mkBufferData (handle bd) (contents bd) (contentsCursorData bd) (savedCursors bd)
    (cursorStartPos bd) o (cursorIsVisible bd).
Definition set_cursorIsVisible (bd : BufferData) (v : bool) : BufferData :=
  mkBufferData (handle bd) (contents bd) (contentsCursorData bd) (savedCursors bd)
    (cursorStartPos bd) (cursorScrollOffset bd) v.

(** The local variables of [print] (Console.cpp:298-306). *)
Record Locals : Type := mkLocals {
  newlineCount : Z;                   (* short *)
  strLength : Z;                      (* DWORD *)
  strPos : Z;                         (* size_t; bounded by the length of [str] *)
  currentCursorPos : COORD;
  termSeqLength : Z;                  (* size_t *)
  isDetectedTerminalSequence : bool;
  termSeqEndPos : Z;                  (* size_t; a position inside [str] *)
  atEndOfBuffer : option bool
}.

Definition initLocals (cursor : COORD) : Locals :=
  mkLocals 0 0 0 cursor 0 false 0 None.

(** Console.cpp:332-343: leave a sequence that has ended, then try to match a
    new one at an escape character.  Returns the new
    [isDetectedTerminalSequence] and [termSeqEndPos]. *)
Definition scan_sequence (currentChar : wchar_t) (suffix : wstring) (loc : Locals)
  : bool * Z :=
  let detected :=
    if isDetectedTerminalSequence loc && (strPos loc >? termSeqEndPos loc)
    then false else isDetectedTerminalSequence loc in
  if currentChar =? VIRTUAL_TERMINAL_SEQUENCE_ESCAPE then
    match regex_search suffix with
    | Some len => (true, strPos loc + len - 1)
    | None => (detected, termSeqEndPos loc)
    end
  else (detected, termSeqEndPos loc).

(** Console.cpp:350-353: [while ((size_t) cursorYPos >= contents.size())].
    A negative [cursorYPos] is a huge [size_t]: the loop cannot end. *)
Definition grow_rows (bd : BufferData) (cursorYPos : Z) : Result BufferData :=
  if cursorYPos <? 0 then Raise BadAlloc
  else
    let n := Z.to_nat (cursorYPos + 1 - vec_size (contents bd)) in
    Ok (set_lines bd (contents bd ++ repeat [] n)
                     (contentsCursorData bd ++ repeat [] n)).

(** Console.cpp:365-368, [n] iterations. *)
Fixpoint pad_line (n : nat) (line : wstring) (cp : list Z) : wstring * list Z :=
  match n with
  | O => (line, cp)
  | S n' => pad_line n' (line ++ [SPACE]) (cp ++ [vec_size line])
  end.

(** Console.cpp:370-376, [n] iterations. *)
Fixpoint pad_cursor (n : nat) (cp : list Z) : list Z :=
  match n with
  | O => cp
  | S n' =>
      pad_cursor n' (cp ++ [match cp with
                            | [] => 0
                            | _ => to_size_t (last cp 0 + 1)
                            end])
  end.

Definition pad_columns (line : wstring) (cp : list Z) (x : Z)
  : Result (wstring * list Z) :=
  if x <? 0 then Raise BadAlloc
  else
    let '(line1, cp1) := pad_line (Z.to_nat (x - vec_size line)) line cp in
    Ok (line1, pad_cursor (Z.to_nat (x - vec_size cp1)) cp1).

(** Console.cpp:380-387. *)
Definition append_char (line : wstring) (cp : list Z) (detected : bool)
  (currentChar : wchar_t) : wstring * list Z :=
  let cp1 := if detected then cp else cp ++ [vec_size line] in
  let line1 := if currentChar =? NEWLINE then line else line ++ [currentChar] in
  (line1, cp1).

(** Console.cpp:407-409:
    [for (size_t j = startPos; j < size(); j++) cp[j] -= sequenceLength;] *)
Definition shift_from (cp : list Z) (startPos sequenceLength : Z) : list Z :=
  firstn (Z.to_nat startPos) cp
  ++ map (fun v => to_size_t (v - sequenceLength)) (skipn (Z.to_nat startPos) cp).

(** [s[i] = c] on a [std::wstring]; [i = size()] is the terminator, which may
    not be given another value. *)
Definition wstring_set (s : wstring) (i : Z) (c : wchar_t) : Result wstring :=
  vec_set s i c.

(** Console.cpp:390-421. *)
Definition overwrite_char (line : wstring) (cp : list Z) (x : Z)
  (termSeqLength : Z) (currentChar : wchar_t) : Result (wstring * list Z) :=
  currentCharCursorPos <- vec_get cp x ;;
  startPos <- (if x =? 0 then Ok 0 else vec_get cp (x - 1)) ;;
  let sequenceLength := to_size_t (currentCharCursorPos - startPos) in
  ' (line1, cp1) <-
    (if sequenceLength >? 1 then
       line' <- wstring_erase line startPos sequenceLength ;;
       Ok (line', shift_from cp startPos sequenceLength)
     else if x =? to_size_t (vec_size cp - 1) then
       back <- vec_back cp ;;
       if vec_size line >? back then
         line' <- wstring_erase_from line (to_size_t (back + 1)) ;;
         Ok (line', cp)
       else Ok (line, cp)
     else Ok (line, cp)) ;;
  if currentChar =? NEWLINE then Ok (line1, cp1)
  else
    (* [currentCharCursorPos] is a reference into [cp]: read it again *)
    currentCharCursorPos' <- vec_get cp1 x ;;
    line2 <- wstring_set line1 (to_size_t (currentCharCursorPos' + termSeqLength)) currentChar ;;
    Ok (line2, cp1).

(** Console.cpp:345-421: record [currentChar] in the line store. *)
Definition store_char (startY : Z) (currentChar : wchar_t) (detected : bool)
  (loc : Locals) (bd : BufferData) : Result (BufferData * bool) :=
  let cur := currentCursorPos loc in
  let cursorYPos := to_short (Y cur - startY) in
  bd1 <- grow_rows bd cursorYPos ;;
  line <- vec_get (contents bd1) cursorYPos ;;
  cp <- vec_get (contentsCursorData bd1) cursorYPos ;;
  let atEnd :=
    match atEndOfBuffer loc with
    | Some b => b
    | None => vec_size cp <=? to_size_t (X cur + 1)
    end in
  ' (line1, cp1) <- pad_columns line cp (X cur) ;;
  ' (line2, cp2) <-
    (if atEnd then Ok (append_char line1 cp1 detected currentChar)
     else overwrite_char line1 cp1 (X cur) (termSeqLength loc) currentChar) ;;
  contents' <- vec_set (contents bd1) cursorYPos line2 ;;
  cursorData' <- vec_set (contentsCursorData bd1) cursorYPos cp2 ;;
  Ok (set_lines bd1 contents' cursorData', atEnd).

(** Console.cpp:423-441: move the simulated cursor.  Returns the cursor and
    [termSeqLength]. *)
Definition advance_cursor (maxWindowX : Z) (currentChar : wchar_t)
  (detected : bool) (cur : COORD) (termSeqLength : Z) : COORD * Z :=
  if currentChar =? NEWLINE then (mkCOORD 0 (to_short (Y cur + 1)), 0)
  else if detected then (cur, to_size_t (termSeqLength + 1))
  else
    let x := to_short (X cur + 1) in
    if x =? maxWindowX then (mkCOORD 0 (to_short (Y cur + 1)), 0)
    else (mkCOORD x (Y cur), 0).

(** One iteration of the loop at Console.cpp:331-449.  [suffix] is
    [&str[strPos]], whose first character is [currentChar]. *)
Definition print_char (addToBuffer : bool) (startY maxWindowX : Z)
  (currentChar : wchar_t) (suffix : wstring) (acc : BufferData * Locals)
  : Result (BufferData * Locals) :=
  let '(bd, loc) := acc in
  let '(detected, endPos) := scan_sequence currentChar suffix loc in
  ' (bd1, cur1, seqLen1, atEnd1) <-
    (if addToBuffer then
       ' (bd', atEnd) <- store_char startY currentChar detected loc bd ;;
       let '(cur', seqLen') :=
         advance_cursor maxWindowX currentChar detected
           (currentCursorPos loc) (termSeqLength loc) in
       Ok (bd', cur', seqLen', Some atEnd)
     else Ok (bd, currentCursorPos loc, termSeqLength loc, atEndOfBuffer loc)) ;;
  Ok (bd1,
      mkLocals
        (if currentChar =? NEWLINE then to_short (newlineCount loc + 1)
         else newlineCount loc)
        (to_DWORD (strLength loc + 1))
        (strPos loc + 1)
        cur1 seqLen1 detected endPos atEnd1).

(** While a detected sequence lasts, no character ahead is an escape. *)
Definition quiet_ahead (loc : Locals) (remaining : wstring) : Prop :=
  isDetectedTerminalSequence loc = true ->
  Forall (fun c => c <> VIRTUAL_TERMINAL_SEQUENCE_ESCAPE)
    (firstn (Z.to_nat (termSeqEndPos loc - strPos loc + 1)) remaining).

(** The number of line feeds in a string. *)
Fixpoint count_newlines (s : wstring) : Z :=
  match s with
  | [] => 0
  | c :: s' => (if c =? NEWLINE then 1 else 0) + count_newlines s'
  end.

(** The first iterations of the loop: those over [pre], when [pre ++ rest]
    is what is left of [str]. *)
Fixpoint print_prefix (addToBuffer : bool) (startY maxWindowX : Z)
  (pre rest : wstring) (acc : BufferData * Locals) : Result (BufferData * Locals) :=
  match pre with
  | [] => Ok acc
  | currentChar :: pre' =>
      acc' <- print_char addToBuffer startY maxWindowX currentChar (pre ++ rest) acc ;;
      print_prefix addToBuffer startY maxWindowX pre' rest acc'
  end.

Fixpoint print_loop (addToBuffer : bool) (startY maxWindowX : Z)
  (s : wstring) (acc : BufferData * Locals) : Result (BufferData * Locals) :=
  match s with
  | [] => Ok acc
  | currentChar :: rest =>
      acc' <- print_char addToBuffer startY maxWindowX currentChar s acc ;;
      print_loop addToBuffer startY maxWindowX rest acc'
  end.

Definition decrease_row (scrolledLines : Z) (c : COORD) : COORD :=
  mkCOORD (X c) (Z.max (to_short (Y c - scrolledLines)) 0).

Section WithConsole.

Context {host : Type} {win : WinConsole host}.
Variable programSettings : ProgramSettings.

(** The engine: the two data members of Console.h:1582-1583 and the console
    they are a view of. *)
Record t : Type := mk {
  mainBufferData : BufferData;
  altBufferData : list BufferData;    (* a std::stack: the head is [top()] *)
  console : host
}.

Definition set_console (st : t) (h : host) : t :=
  mk (mainBufferData st) (altBufferData st) h.

(** Console.cpp:502-513. *)
Definition getCurrentBufferData (st : t) (currentHandleBuffer : bool) : BufferData :=
  if useCustomBufferBehavior programSettings && currentHandleBuffer
  then mainBufferData st
  else
    match altBufferData st with
    | [] => mainBufferData st
    | top :: _ => top
    end.

(** A write through the reference [getCurrentBufferData()] returns. *)
Definition update_current (f : BufferData -> BufferData) (st : t) : t :=
  match altBufferData st with
  | [] => mk (f (mainBufferData st)) [] (console st)
  | top :: rest => mk (mainBufferData st) (f top :: rest) (console st)
  end.

(** A write through [this->mainBufferData]. *)
Definition update_main (f : BufferData -> BufferData) (st : t) : t :=
  mk (f (mainBufferData st)) (altBufferData st) (console st).

(** Console.cpp:494-498. *)
Definition getBufferHandle (st : t) : HANDLE :=
  handle (getCurrentBufferData st true).

(** Console.cpp:150-154. *)
Definition getCurrentBufferNum (st : t) : Z := vec_size (altBufferData st).

(** Console.cpp:191-199. *)
Definition getCursorPos (st : t) : COORD :=
  let p := GetCursorPosition (console st) (getBufferHandle st) in
  mkCOORD (to_short (X p)) (to_short (Y p)).

(** Console.cpp:201-205. *)
Definition getCursorScrollOffset (st : t) : Z :=
  cursorScrollOffset (getCurrentBufferData st false).

(** Console.cpp:207-211. *)
Definition setCursorPos (st : t) (cursorPos : COORD) : t * bool :=
  let '(h, ok) := SetConsoleCursorPosition (console st) (getBufferHandle st) cursorPos in
  (set_console st h, ok).

(** Console.cpp:218-227. *)
Definition saveCursorPosAt (st : t) (cursorPos : COORD) : t * bool :=
  (update_current (fun bd => set_savedCursors bd (savedCursors bd ++ [cursorPos])) st,
   true).

(** Console.cpp:213-217. *)
Definition saveCursorPos (st : t) : t * bool :=
  saveCursorPosAt st (getCursorPos st).

(** Console.cpp:229-243. *)
Definition restoreSavedCursorPos (st : t) : t * option COORD :=
  let bufferData := getCurrentBufferData st false in
  match savedCursors bufferData with
  | [] => (st, None)
  | c :: cs =>
      let restoredCursorPos := last cs c in
      let st1 := update_current
                   (fun bd => set_savedCursors bd (removelast (savedCursors bd))) st in
      (fst (setCursorPos st1 restoredCursorPos), Some restoredCursorPos)
  end.

(** The lambda [writeToConsole] (Console.cpp:314-327). *)
Definition writeToConsole (st : t) (str : wstring) (strLength : Z) : t :=
  if strLength =? 0 then st
  else set_console st
         (WriteConsoleW (console st) (getBufferHandle st)
            (firstn (Z.to_nat strLength) str)).

(** Console.cpp:461-474, once [scrolledLines > 0] and the start row is > 0. *)
Definition scroll_bookkeeping (st : t) (scrolledLines : Z) : t :=
  let st1 :=
    update_current
      (fun bd => set_cursorScrollOffset bd
                   (to_short (cursorScrollOffset bd + scrolledLines))) st in
  let st2 :=
    if useCustomBufferBehavior programSettings then
      update_main
        (fun bd => set_cursorStartPos bd (decrease_row scrolledLines (cursorStartPos bd)))
        st1
    else st1 in
  update_current
    (fun bd => set_savedCursors bd (map (decrease_row scrolledLines) (savedCursors bd)))
    st2.

(** Console.cpp:451-480. *)
Definition write_and_track_scroll (st : t) (str : wstring) (loc : Locals) : t :=
  if newlineCount loc >? 0 then
    let initialCursorPos := getCursorPos st in
    let st1 := writeToConsole st str (strLength loc) in
    let finalCursorPos := getCursorPos st1 in
    let scrolledLines :=
      to_short (newlineCount loc - (Y finalCursorPos - Y initialCursorPos)) in
    if (scrolledLines >? 0) && (Y (cursorStartPos (getCurrentBufferData st1 true)) >? 0)
    then scroll_bookkeeping st1 scrolledLines
    else st1
  else writeToConsole st str (strLength loc).

(** Console.cpp:283-484 [print(const wchar_t* str, bool addToBuffer)]. *)
Definition print (st : t) (str : wstring) (addToBuffer : bool) : Result t :=
  let bufferData := getCurrentBufferData st false in
  let currentCursorPos := getCursorPos st in
  let maxWindowX := to_short (GetMaximumWindowSizeX (console st) (handle bufferData)) in
  let startY := Y (cursorStartPos (getCurrentBufferData st true)) in
  ' (bd, loc) <- print_loop addToBuffer startY maxWindowX (c_str str)
                   (bufferData, initLocals currentCursorPos) ;;
  Ok (write_and_track_scroll (update_current (fun _ => bd) st) (c_str str) loc).

(** Console.h:391 [println(bool addToBuffer)]. *)
Definition println (st : t) (addToBuffer : bool) : Result t :=
  print st [NEWLINE; NUL] addToBuffer.

(** Console.cpp:515-520. *)
Definition synchronizeCursorVisibility (st : t) (visible addToBuffer : bool) : Result t :=
  print st (getVirtualTerminalSequence (if visible then L "[?25h" else L "[?25l"))
    addToBuffer.

(** Console.cpp:250-259. *)
Definition toggleCursorVisibilityTo (st : t) (visible : bool) : Result t :=
  if Bool.eqb visible (cursorIsVisible (getCurrentBufferData st false)) then Ok st
  else
    st1 <- synchronizeCursorVisibility st visible true ;;
    Ok (update_current (fun bd => set_cursorIsVisible bd visible) st1).

(** Console.cpp:245-249. *)
Definition toggleCursorVisibility (st : t) : Result t :=
  toggleCursorVisibilityTo st (negb (cursorIsVisible (getCurrentBufferData st false))).

(** Console.cpp:263-281. *)
Definition clear (st : t) (clearBuffer resetCursorPos : bool) : Result t :=
  let st1 := if clearBuffer then update_current (fun bd => set_lines bd [] []) st else st in
  let st2 :=
    if resetCursorPos then
      fst (setCursorPos st1
             (if useCustomBufferBehavior programSettings
              then cursorStartPos (getCurrentBufferData st1 true)
              else mkCOORD 0 0))
    else st1 in
  print st2 (getVirtualTerminalSequence (L "[0J")) false.

(** Console.cpp:117-148. *)
Definition createAltBuffer (st : t) : Result (t * option Z) :=
  let '(h, newHandle) := CreateConsoleScreenBuffer (console st) in
  let st0 := set_console st h in
  if negb (newHandle =? NULL) && negb (newHandle =? INVALID_HANDLE_VALUE) then
    st1 <-
      (if useCustomBufferBehavior programSettings then
         st' <- clear st0 false true ;;
         if negb (cursorIsVisible (getCurrentBufferData st' false))
         then synchronizeCursorVisibility st' true false
         else Ok st'
       else Ok (set_console st0 (SetConsoleActiveScreenBuffer (console st0) newHandle))) ;;
    Ok (mk (mainBufferData st1) (newBufferData newHandle :: altBufferData st1) (console st1),
        Some (getCurrentBufferNum st1))
  else Ok (st0, None).

(** Console.cpp:167-172: print the stored lines again. *)
Fixpoint replay (lines : list wstring) (st : t) : Result t :=
  match lines with
  | [] => Ok st
  | line :: rest =>
      st1 <- print st line false ;;
      st2 <- (match rest with
              | [] => Ok st1
              | _ :: _ => println st1 false
              end) ;;
      replay rest st2
  end.

(** Console.cpp:156-187. *)
Definition restorePreviousBuffer (st : t) : Result (t * Z) :=
  match altBufferData st with
  | [] => Ok (st, getCurrentBufferNum st)
  | top :: rest =>
      st' <-
        (if useCustomBufferBehavior programSettings then
           let prevBufferCursorVisibility :=
             cursorIsVisible (getCurrentBufferData st false) in
           st1 <- clear st true true ;;
           let st2 := mk (mainBufferData st1) (tl (altBufferData st1)) (console st1) in
           st3 <- replay (contents (getCurrentBufferData st2 false)) st2 ;;
           let bufferData := getCurrentBufferData st3 false in
           if Bool.eqb prevBufferCursorVisibility (cursorIsVisible bufferData)
           then Ok st3
           else synchronizeCursorVisibility st3 (cursorIsVisible bufferData) false
         else
           let h1 := CloseHandle (console st) (handle top) in
           let st1 := mk (mainBufferData st) rest h1 in
           Ok (set_console st1
                 (SetConsoleActiveScreenBuffer (console st1) (getBufferHandle st1)))) ;;
      Ok (st', getCurrentBufferNum st')
  end.

(** The operations of the engine's public interface. *)
Inductive Operation : Type :=
| Print (str : wstring) (addToBuffer : bool)
| Println (addToBuffer : bool)
| Clear (clearBuffer resetCursorPos : bool)
| SetCursorPos (cursorPos : COORD)
| SaveCursorPos
| SaveCursorPosAt (cursorPos : COORD)
| RestoreSavedCursorPos
| ToggleCursorVisibility
| ToggleCursorVisibilityTo (visible : bool)
| CreateAltBuffer
| RestorePreviousBuffer.

Definition perform (op : Operation) (st : t) : Result t :=
  match op with
  | Print str addToBuffer => print st str addToBuffer
  | Println addToBuffer => println st addToBuffer
  | Clear clearBuffer resetCursorPos => clear st clearBuffer resetCursorPos
  | SetCursorPos cursorPos => Ok (fst (setCursorPos st cursorPos))
  | SaveCursorPos => Ok (fst (saveCursorPos st))
  | SaveCursorPosAt cursorPos => Ok (fst (saveCursorPosAt st cursorPos))
  | RestoreSavedCursorPos => Ok (fst (restoreSavedCursorPos st))
  | ToggleCursorVisibility => toggleCursorVisibility st
  | ToggleCursorVisibilityTo visible => toggleCursorVisibilityTo st visible
  | CreateAltBuffer => r <- createAltBuffer st ;; Ok (fst r)
  | RestorePreviousBuffer => r <- restorePreviousBuffer st ;; Ok (fst r)
  end.

(** [replay], keeping the state after each of its writes. *)
Fixpoint replay_states (lines : list wstring) (st : t) : Result (list t) :=
  match lines with
  | [] => Ok []
  | line :: rest =>
      st1 <- print st line false ;;
      match rest with
      | [] => Ok [st1]
      | _ :: _ =>
          st2 <- println st1 false ;;
          states <- replay_states rest st2 ;;
          Ok (st1 :: st2 :: states)
      end
  end.

(** The states an operation goes through, one after each write to the
    console it makes; the last one is the state it returns.  Only
    [restorePreviousBuffer] makes more than one write that can scroll. *)
Definition states_of (op : Operation) (st : t) : Result (list t) :=
  match op with
  | RestorePreviousBuffer =>
      match altBufferData st with
      | [] => Ok [st]
      | _ :: _ =>
          if useCustomBufferBehavior programSettings then
            st1 <- clear st true true ;;
            let st2 := mk (mainBufferData st1) (tl (altBufferData st1)) (console st1) in
            states <- replay_states (contents (getCurrentBufferData st2 false)) st2 ;;
            st' <- perform op st ;;
            Ok (st1 :: st2 :: states ++ [st'])
          else st' <- perform op st ;; Ok [st']
      end
  | _ => st' <- perform op st ;; Ok [st']
  end.

(** The states a sequence of operations goes through. *)
Fixpoint run (ops : list Operation) (st : t) : Result (list t) :=
  match ops with
  | [] => Ok []
  | op :: rest =>
      states <- states_of op st ;;
      later <- run rest (last states st) ;;
      Ok (states ++ later)
  end.

(** The screens of the engine, the primary one first and the current one
    last. *)
Definition screens (st : t) : list BufferData :=
  mainBufferData st :: rev (altBufferData st).

(** Their scroll offsets. *)
Definition offsets (st : t) : list Z := map cursorScrollOffset (screens st).

(** The scroll offset of screen number [i], if there is one. *)
Definition scroll_offset_of (i : nat) (st : t) : option Z :=
  nth_error (offsets st) i.

(** From [st] to [st'] no scroll offset that fits a [short] has fallen,
    unless it wrapped around to a negative number. *)
Definition no_drop (st st' : t) : Prop :=
  forall i x y,
    scroll_offset_of i st = Some x -> scroll_offset_of i st' = Some y ->
    0 <= x <= SHRT_MAX -> 0 <= y -> x <= y.

(** [R] relates each state of [st :: l] to the next. *)
Fixpoint chain (R : t -> t -> Prop) (st : t) (l : list t) : Prop :=
  match l with
  | [] => True
  | s :: l' => R st s /\ chain R s l'
  end.

(** [bd'] is [bd] with other lines. *)
Definition only_lines_differ (bd bd' : BufferData) : Prop :=
  bd' = set_lines bd (contents bd') (contentsCursorData bd').

(** What the scroll bookkeeping of [print] keeps up to date in a screen. *)
Definition bookkeeping (bd : BufferData) : Z * COORD * list COORD :=
  (cursorScrollOffset bd, cursorStartPos bd, savedCursors bd).

(** What a screen records of what is shown: the lines, their column
    indices and the visibility of the cursor. *)
Definition recorded (bd : BufferData) : list wstring * list (list Z) * bool :=
  (contents bd, contentsCursorData bd, cursorIsVisible bd).

(** The records of all the screens. *)
Definition records (st : t) : (list wstring * list (list Z) * bool)
                              * list (list wstring * list (list Z) * bool) :=
  (recorded (mainBufferData st), map recorded (altBufferData st)).

(** Console.cpp:92-100, the constructor. *)
Definition construct (iBufferHandle : HANDLE) (h : host) : t :=
  let st := mk (newBufferData iBufferHandle) [] h in
  update_main (fun bd => set_cursorStartPos bd (getCursorPos st)) st.

End WithConsole.

End OutputBuffer.

(* ================================================================== *)
(** * A small terminal, to run the engine on *)

Module Terminal.

(** A window of [width] x [height] cells over one screen.  A line feed in the
    last row scrolls the window instead of moving the cursor; a recognised
    escape sequence moves nothing. *)
Record state : Type := mk {
  cursor : COORD;
  width : Z;
  height : Z;
  nextHandle : HANDLE
}.

Definition line_feed (s : state) (c : COORD) : COORD :=
  mkCOORD 0 (if Y c + 1 <? height s then Y c + 1 else Y c).

Definition put_glyph (s : state) (c : COORD) : COORD :=
  if X c + 1 <? width s then mkCOORD (X c + 1) (Y c) else line_feed s c.

Fixpoint put (s : state) (skip : nat) (str : wstring) (c : COORD) : COORD :=
  match str with
  | [] => c
  | ch :: rest =>
      match skip with
      | S skip' => put s skip' rest c
      | O =>
          if ch =? NEWLINE then put s O rest (line_feed s c)
          else if ch =? VIRTUAL_TERMINAL_SEQUENCE_ESCAPE then
            match regex_search str with
            | Some len => put s (Z.to_nat (len - 1)) rest c
            | None => put s O rest (put_glyph s c)
            end
          else put s O rest (put_glyph s c)
      end
  end.

#[global] Instance terminal : WinConsole state := {
  GetCursorPosition s _ := cursor s;
  GetMaximumWindowSizeX s _ := width s;
  SetConsoleCursorPosition s _ c := (mk c (width s) (height s) (nextHandle s), true);
  WriteConsoleW s _ str := mk (put s O str (cursor s)) (width s) (height s) (nextHandle s);
  CreateConsoleScreenBuffer s := (mk (cursor s) (width s) (height s) (nextHandle s + 1),
                                  nextHandle s);
  SetConsoleActiveScreenBuffer s _ := s;
  CloseHandle s _ := s
}.

(** An 80 x 25 window with the cursor at [c]. *)
Definition at_cursor (c : COORD) : state := mk c 80 25 100.

End Terminal.

(* ================================================================== *)
(** * The console, as the menu code sees it *)

(** [KEY_EVENT_RECORD], the two members the menu code reads. *)
Record WinConsoleInputKey : Type := mkKey {
  wVirtualKeyCode : Z;                (* WORD *)
  UnicodeChar : wchar_t
}.

(** Virtual-key codes of <winuser.h>. *)
Definition VK_RETURN : Z := 13.
Definition VK_ESCAPE : Z := 27.
Definition VK_UP : Z := 38.
Definition VK_DOWN : Z := 40.

(** The members of [Console] the menu code calls, over an abstract console:
    what they draw is the business of [OutputBuffer]; the menu code only
    threads the console through them and reads back the cursor, the scroll
    offset, the keys and the clock. *)
Class ConsoleIO (C : Type) : Type := {
  con_getCursorPos : C -> COORD;
  con_getCursorScrollOffset : C -> Z;
  con_setCursorPos : C -> COORD -> C;
  con_saveCursorPos : C -> C;
  con_restoreSavedCursorPos : C -> C;
  con_print : C -> wstring -> bool -> C;
  con_clear : C -> bool -> bool -> C;
  (** [waitForInput(flushBuffer, maxWaitTime)]: a key, or nothing on a timeout *)
  con_waitForInput : C -> bool -> Z -> C * option WinConsoleInputKey;
  (** [std::time(&t)] *)
  con_time : C -> C * Z
}.

(** [std::towlower] in the "C" locale. *)
Definition towlower (c : wchar_t) : wchar_t :=
  if (65 <=? c) && (c <=? 90) then c + 32 else c.

(** [{:<{}}]: left-aligned in a field of [w] characters. *)
Definition pad_right (s : wstring) (w : Z) : wstring :=
  s ++ repeat SPACE (Z.to_nat (w - vec_size s)).

(** Console.h:97-99. *)
Definition ARROW_UP : wchar_t := 8593.
Definition ARROW_DOWN : wchar_t := 8595.
(** Console.h:115. *)
Definition MAX_MENU_OPTION_LINES : Z := 9.

(* ================================================================== *)
(** * Console::MenuOption and Console::MenuOptionList *)

Module MenuOptionPadding.
Record t : Type := mk { top : bool; left : bool; right : bool; bottom : bool }.
Definition none : t := mk false false false false.
End MenuOptionPadding.

Module MenuOption.

Record t : Type := mk {
  optionText : wstring;               (* the member [option] *)
  hotkey : option wchar_t;
  disabled : bool;
  padding : MenuOptionPadding.t
}.

(** Console.cpp:61-68. *)
Definition getLowercaseHotkey (hotkey : option wchar_t) : option wchar_t :=
  match hotkey with
  | None => None
  | Some c => Some (towlower c)
  end.

(** Console.cpp:652-661, the constructor. *)
Definition construct (iOption : wstring) (iHotkey : option wchar_t) (iDisabled : bool)
  (iPadding : MenuOptionPadding.t) : t :=
  mk iOption (getLowercaseHotkey iHotkey) iDisabled iPadding.

(** Console.cpp:665-673. *)
Definition getTotalLineCount (o : t) : Z :=
  to_ushort (1 + Z.b2z (MenuOptionPadding.top (padding o))
               + Z.b2z (MenuOptionPadding.bottom (padding o))).

Definition has_hotkey (o : t) : bool :=
  match hotkey o with Some _ => true | None => false end.

End MenuOption.

Module MenuOptionList.

(** The vector of options and the data members of Console.h:2127-2179.  The
    action callbacks take the list itself as an argument, so they are kept
    beside it (see [Console.Action]); [instructions] are their texts. *)
Record t : Type := mk {
  options : list MenuOption.t;
  instructions : list (list wstring);
  prefix : wstring;
  suffix : wstring;
  separator : wstring;
  width : Z;                          (* unsigned short *)
  maxMenuOptionLines : Z;             (* unsigned short *)
  cursorStartPos : option COORD;
  selectedOptionNum : option Z;
  topMenuOptionNum : Z;               (* size_t *)
  bottomMenuOptionNum : Z;            (* size_t *)
  statusMessage : wstring;
  statusMessageIssueTime : Z          (* std::time_t; 0 = no message issued *)
}.

(** Console.h:2121. *)
Definition STATUS_MESSAGE_LIFETIME : Z := 5.

Definition size (m : t) : Z := vec_size (options m).

Definition set_cursorStartPos (m : t) (p : option COORD) : t :=
  mk (options m) (instructions m) (prefix m) (suffix m) (separator m) (width m)
    (maxMenuOptionLines m) p (selectedOptionNum m) (topMenuOptionNum m)
    (bottomMenuOptionNum m) (statusMessage m) (statusMessageIssueTime m).
Definition set_selectedOptionNum (m : t) (s : option Z) : t :=
  mk (options m) (instructions m) (prefix m) (suffix m) (separator m) (width m)
    (maxMenuOptionLines m) (cursorStartPos m) s (topMenuOptionNum m)
    (bottomMenuOptionNum m) (statusMessage m) (statusMessageIssueTime m).
Definition set_topMenuOptionNum (m : t) (n : Z) : t :=
  mk (options m) (instructions m) (prefix m) (suffix m) (separator m) (width m)
    (maxMenuOptionLines m) (cursorStartPos m) (selectedOptionNum m) n
    (bottomMenuOptionNum m) (statusMessage m) (statusMessageIssueTime m).
Definition set_bottomMenuOptionNum (m : t) (n : Z) : t :=
  mk (options m) (instructions m) (prefix m) (suffix m) (separator m) (width m)
    (maxMenuOptionLines m) (cursorStartPos m) (selectedOptionNum m) (topMenuOptionNum m)
    n (statusMessage m) (statusMessageIssueTime m).
Definition set_status (m : t) (message : wstring) (issueTime : Z) : t :=
  mk (options m) (instructions m) (prefix m) (suffix m) (separator m) (width m)
    (maxMenuOptionLines m) (cursorStartPos m) (selectedOptionNum m) (topMenuOptionNum m)
    (bottomMenuOptionNum m) message issueTime.

(** Console.cpp:1138-1142. *)
Definition isValidOption (m : t) (menuOptionNum : Z) : bool :=
  menuOptionNum <? size m.

(** Console.cpp:986-991. *)
Definition setCursorStartPos (m : t) (p : COORD) : t := set_cursorStartPos m (Some p).

(** Console.cpp:1011-1034. *)
Definition setSelectedOption (m : t) (menuOptionNum : Z) : t :=
  if isValidOption m menuOptionNum then set_selectedOptionNum m (Some menuOptionNum) else m.
Definition setTopMenuOptionNum (m : t) (menuOptionNum : Z) : t :=
  if isValidOption m menuOptionNum then set_topMenuOptionNum m menuOptionNum else m.
Definition setBottomMenuOptionNum (m : t) (menuOptionNum : Z) : t :=
  if isValidOption m menuOptionNum then set_bottomMenuOptionNum m menuOptionNum else m.

(** Console.cpp:1036-1040. *)
Definition hasActiveStatusMessage (m : t) : bool := statusMessageIssueTime m >? 0.

(** Console.cpp:1041-1057.  [currentTime] is what [std::time] returns.
    [std::difftime] of two timestamps is their difference (exactly, for
    timestamps below 2^53), compared with the lifetime as a [double]. *)
Definition hasExpiredStatusMessage (m : t) (currentTime : Z) : bool * t :=
  if statusMessageIssueTime m >? 0 then
    let result := currentTime - statusMessageIssueTime m >? STATUS_MESSAGE_LIFETIME in
    if result then (true, set_status m (statusMessage m) 0) else (false, m)
  else (false, m).

(** Console.cpp:1058-1063. *)
Definition setStatusMessage (m : t) (message : wstring) : t :=
  set_status m message (statusMessageIssueTime m).

(** Console.cpp:1064-1075.  [currentTime] is what [std::time] stores. *)
Definition issueStatusMessage (m : t) (currentTime : Z) : bool * t :=
  match statusMessage m with
  | [] => (false, m)
  | _ :: _ => (true, set_status m [] currentTime)
  end.

(** The options [first, last) of the list. *)
Definition slice (m : t) (first last : Z) : list MenuOption.t :=
  firstn (Z.to_nat (last - first)) (skipn (Z.to_nat first) (options m)).

(** Console.cpp:1079-1111. *)
Definition getCursorPos (m : t) (menuOptionNum : Z) : Result (option COORD) :=
  match cursorStartPos m with
  | None => Ok None
  | Some start =>
      if menuOptionNum <? size m then
        menuOption <- vec_get (options m) menuOptionNum ;;
        let y1 := fold_left (fun y o => to_short (y + MenuOption.getTotalLineCount o))
                    (slice m (topMenuOptionNum m) menuOptionNum) (Y start) in
        let y2 := if topMenuOptionNum m >? 0 then to_short (y1 + 1) else y1 in
        let y3 := if MenuOptionPadding.top (MenuOption.padding menuOption)
                  then to_short (y2 + 1) else y2 in
        topOption <- vec_get (options m) (topMenuOptionNum m) ;;
        let y4 := if MenuOptionPadding.top (MenuOption.padding topOption)
                  then to_short (y3 - 1) else y3 in
        let x1 := if MenuOptionPadding.left (MenuOption.padding menuOption)
                  then to_short (X start + 3) else X start in
        Ok (Some (mkCOORD x1 y4))
      else Ok None
  end.



(** Console.cpp:954-964. *)
Definition getSpace (m : t) : wstring :=
  prefix m ++ pad_right [] (width m) ++ suffix m.

(** Console.cpp:1113-1134. *)
Definition getInstructionString (m : t) : wstring :=
  separator m ++ [NEWLINE]
  ++ concat (map (fun instruction =>
                    prefix m ++ L " - " ++ pad_right instruction (to_ushort (width m - 4))
                    ++ L " " ++ suffix m ++ [NEWLINE])
               (concat (instructions m)))
  ++ separator m.

End MenuOptionList.

(* ================================================================== *)
(** * Console: drawing a menu, the default actions, the selection loop *)

Module Console.

Import MenuOptionList.

(** [std::to_wstring] of an unsigned number. *)
Definition to_wstring (n : Z) : wstring :=
  L (DecimalString.NilZero.string_of_uint (N.to_uint (Z.to_N n))).

(** [InputProcessingResult]: (stop processing this key, stop processing the list). *)
Definition InputProcessingResult : Type := (bool * bool)%type.

Section WithConsole.

Context {C : Type} {io : ConsoleIO C}.

(** [print(wchar_t ch)] (Console.h:272). *)
Definition print_wchar (con : C) (ch : wchar_t) : C := con_print con [ch; NUL] true.
(** [println()] and [printsp()] (Console.h:391, 523). *)
Definition println (con : C) : C := print_wchar con NEWLINE.
Definition printsp (con : C) : C := print_wchar con SPACE.

(** Console.cpp:1218-1240. *)
Definition printMenuOption (con : C) (menuOption : MenuOption.t) (optionNum width : Z) : C :=
  let con1 := if MenuOption.disabled menuOption
              then con_print con (getVirtualTerminalSequence (L "[90m")) true else con in
  let key := match MenuOption.hotkey menuOption with
             | Some h => [h]
             | None => to_wstring optionNum
             end in
  let con2 := con_print con1
                (pad_right (pad_right key 1 ++ L ") " ++ MenuOption.optionText menuOption)
                   width) true in
  if MenuOption.disabled menuOption
  then con_print con2 (getVirtualTerminalSequence (L "[39m")) true else con2.

(** The state of the loop at Console.cpp:1290-1325. *)
Record Drawing : Type := mkDrawing {
  dr_console : C;
  menuOptionLines : Z;                (* unsigned short *)
  currentOptionHotkeyNum : Z;         (* unsigned short *)
  dr_bottomMenuOptionNum : Z          (* size_t *)
}.

(** One iteration of that loop, for the option [menuOption] at index [i]. *)
Definition draw_option (m : MenuOptionList.t) (suffix' : wstring)
  (selectedOptionNum maxMenuLines i : Z) (menuOption : MenuOption.t) (d : Drawing)
  : Drawing :=
  let width := width m in
  let top := topMenuOptionNum m in
  let d1 :=
    if MenuOptionPadding.top (MenuOption.padding menuOption) && (i >? top)
       && (menuOptionLines d <? maxMenuLines)
    then mkDrawing (println (con_print (dr_console d) (getSpace m) true))
           (to_ushort (menuOptionLines d + 1)) (currentOptionHotkeyNum d)
           (dr_bottomMenuOptionNum d)
    else d in
  let d2 :=
    if menuOptionLines d1 <? maxMenuLines then
      let con1 := con_print (dr_console d1) (prefix m) true in
      let con2 := printsp (print_wchar con1
                             (if i =? selectedOptionNum then wc ">" else SPACE)) in
      let con3 := printMenuOption con2 menuOption (currentOptionHotkeyNum d1)
                    (to_ushort (width - 2)) in
      let con4 := con_print con3 suffix' true in
      mkDrawing con4 (to_ushort (menuOptionLines d1 + 1))
        (if MenuOption.has_hotkey menuOption then currentOptionHotkeyNum d1
         else to_ushort (currentOptionHotkeyNum d1 + 1))
        (if i =? top then dr_bottomMenuOptionNum d1
         else to_size_t (dr_bottomMenuOptionNum d1 + 1))
    else d1 in
  if MenuOptionPadding.bottom (MenuOption.padding menuOption)
     && (menuOptionLines d2 <? maxMenuLines)
  then mkDrawing (println (con_print (dr_console d2) (getSpace m) true))
         (to_ushort (menuOptionLines d2 + 1)) (currentOptionHotkeyNum d2)
         (dr_bottomMenuOptionNum d2)
  else d2.

(** Console.cpp:1290-1325, over the options from index [i] on. *)
Fixpoint draw_options (m : MenuOptionList.t) (suffix' : wstring)
  (selectedOptionNum maxMenuLines : Z) (opts : list MenuOption.t) (i : Z) (d : Drawing)
  : Drawing :=
  match opts with
  | [] => d
  | menuOption :: rest =>
      if menuOptionLines d >=? maxMenuLines then d
      else draw_options m suffix' selectedOptionNum maxMenuLines rest (i + 1)
             (draw_option m suffix' selectedOptionNum maxMenuLines i menuOption d)
  end.

Definition ends_with_newline (s : wstring) : bool :=
  match rev s with
  | c :: _ => c =? NEWLINE
  | [] => false
  end.

(** [  {:<{}}] with an arrow: Console.cpp:1283-1285 and 1332-1334. *)
Definition print_arrow (con : C) (m : MenuOptionList.t) (suffix' : wstring)
  (arrow : wchar_t) : C :=
  con_print
    (con_print (con_print con (prefix m) true)
       (L "  " ++ pad_right [arrow] (to_DWORD (width m - 2))) true)
    suffix' true.

(** Console.cpp:1343-1352 and 1394-1399: follow the console when it scrolled. *)
Definition follow_scroll (start : COORD) (initialScrollOffset finalScrollOffset : Z)
  : COORD :=
  mkCOORD (X start)
    (Z.max (to_short (Y start - (finalScrollOffset - initialScrollOffset))) 0).

(** Console.cpp:1242-1356. *)
Definition printMenuOptions (con : C) (m : MenuOptionList.t) (printInstructions : bool)
  : C * MenuOptionList.t :=
  let top := topMenuOptionNum m in
  let selectedOptionNum := match selectedOptionNum m with Some s => s | None => 0 end in
  let initialScrollOffset := con_getCursorScrollOffset con in
  let maxMenuLines :=
    if selectedOptionNum <? to_size_t (size m - 1)
    then to_ushort (maxMenuOptionLines m - 1) else maxMenuOptionLines m in
  let m1 :=
    match cursorStartPos m with
    | Some _ => m
    | None =>
        let p := con_getCursorPos con in
        setCursorStartPos m (mkCOORD (to_short (X p + 2)) (Y p))
    end in
  let suffix' := if ends_with_newline (suffix m) then suffix m
                 else suffix m ++ [NEWLINE] in
  let d0 :=
    if top >? 0 then mkDrawing (print_arrow con m1 suffix' ARROW_UP) 1 1 top
    else mkDrawing con 0 1 top in
  let d := draw_options m1 suffix' selectedOptionNum maxMenuLines
             (skipn (Z.to_nat top) (options m1)) top d0 in
  let m2 := setBottomMenuOptionNum m1 (dr_bottomMenuOptionNum d) in
  let con1 :=
    if dr_bottomMenuOptionNum d <? to_size_t (size m2 - 1)
    then print_arrow (dr_console d) m2 suffix' ARROW_DOWN else dr_console d in
  let con2 := if printInstructions then con_print con1 (getInstructionString m2) true
              else con1 in
  let finalScrollOffset := con_getCursorScrollOffset con2 in
  if finalScrollOffset >? initialScrollOffset then
    match cursorStartPos m2 with
    | Some start =>
        (con2, setCursorStartPos m2 (follow_scroll start initialScrollOffset finalScrollOffset))
    | None => (con2, m2)
    end
  else (con2, m2).

(** Console.cpp:715-733: the do-while of the arrow keys.  An iteration that
    goes round again has moved strictly inside the list, so [fuel] no smaller
    than the list is never used up. *)
Fixpoint arrow_loop (fuel : nat) (down : bool) (m : MenuOptionList.t)
  (newSelectionNum : Z) (stop : InputProcessingResult)
  : Result (Z * InputProcessingResult) :=
  let last := to_size_t (size m - 1) in
  let '(new1, stop1) :=
    if down then
      if newSelectionNum <? last
      then (to_size_t (newSelectionNum + 1), (true, false)) else (newSelectionNum, stop)
    else
      if newSelectionNum >? 0
      then (to_size_t (newSelectionNum - 1), (true, false)) else (newSelectionNum, stop) in
  o <- vec_get (options m) new1 ;;
  if MenuOption.disabled o && (new1 >? 0) && (new1 <? last) then
    match fuel with
    | O => Raise BoundUsedUp
    | S fuel' => arrow_loop fuel' down m new1 stop1
    end
  else Ok (new1, stop1).

(** Console.cpp:744-753: [n] is the number of iterations left,
    [numberKey - i]. *)
Fixpoint number_loop (n : nat) (m : MenuOptionList.t) (newSelectionNum : Z) : Result Z :=
  match n with
  | O => Ok newSelectionNum
  | S n' =>
      if newSelectionNum <? size m then
        o <- vec_get (options m) newSelectionNum ;;
        if MenuOption.has_hotkey o then number_loop n' m newSelectionNum   (* continue *)
        else number_loop n' m (to_size_t (newSelectionNum + 1))
      else Ok newSelectionNum
  end.

(** Console.cpp:766-776: the first enabled option with this hotkey. *)
Fixpoint hotkey_loop (opts : list MenuOption.t) (i : Z) (keyChar : wchar_t) : option Z :=
  match opts with
  | [] => None
  | menuOption :: rest =>
      match MenuOption.hotkey menuOption with
      | Some h =>
          if (h =? keyChar) && negb (MenuOption.disabled menuOption) then Some i
          else hotkey_loop rest (i + 1) keyChar
      | None => hotkey_loop rest (i + 1) keyChar
      end
  end.

(** Console.cpp:701-777: the option a key selects and the handler's result. *)
Definition select_by_key (key : WinConsoleInputKey) (m : MenuOptionList.t)
  (prevSelectionNum : Z) : Result (Z * InputProcessingResult) :=
  let vk := wVirtualKeyCode key in
  if (vk =? VK_DOWN) || (vk =? VK_UP) then
    arrow_loop (length (options m)) (vk =? VK_DOWN) m prevSelectionNum (false, false)
  else if (49 <=? vk) && (vk <=? 57) then
    let numberKey := vk - 48 in
    newSelectionNum <- number_loop (Z.to_nat (numberKey - 1)) m (topMenuOptionNum m) ;;
    Ok (newSelectionNum,
        if newSelectionNum <? size m then (true, true) else (false, false))
  else if negb (UnicodeChar key =? NUL) then
    match hotkey_loop (options m) 0 (towlower (UnicodeChar key)) with
    | Some i => Ok (i, (true, true))
    | None => Ok (prevSelectionNum, (false, false))
    end
  else Ok (prevSelectionNum, (false, false)).

(** Console.cpp:821-831: the inner [for], from [i] on, [n] options left to
    look at.  Returns the final [i] and [lineCount]. *)
Fixpoint count_lines (n : nat) (m : MenuOptionList.t) (newTop newSelectionNum i lineCount : Z)
  : Result (Z * Z) :=
  match n with
  | O => Ok (i, lineCount)
  | S n' =>
      if i <=? newSelectionNum then
        o <- vec_get (options m) i ;;
        let c1 := to_ushort (lineCount + MenuOption.getTotalLineCount o) in
        let c2 :=
          if (i =? newTop) && MenuOptionPadding.top (MenuOption.padding o)
          then to_ushort (c1 - 1)
          else if (i =? newSelectionNum) && MenuOptionPadding.bottom (MenuOption.padding o)
          then to_ushort (c1 - 1)
          else c1 in
        if c2 >=? MAX_MENU_OPTION_LINES then Ok (i, c2)
        else count_lines n' m newTop newSelectionNum (i + 1) c2
      else Ok (i, lineCount)
  end.

(** Console.cpp:815-837: the [while (true)]; [fuel] top candidates left. *)
Fixpoint scroll_down_top (fuel : nat) (m : MenuOptionList.t)
  (newSelectionNum newTopMenuOptionNum : Z) : Result Z :=
  let newTop := to_size_t (newTopMenuOptionNum + 1) in
  ' (i, lineCount) <-
    count_lines (Z.to_nat (newSelectionNum - newTop + 1)) m newTop newSelectionNum newTop 0 ;;
  stop <- (if i >? newSelectionNum then Ok true
           else
             o <- vec_get (options m) i ;;
             Ok ((lineCount <? MAX_MENU_OPTION_LINES)
                 && negb (MenuOptionPadding.top (MenuOption.padding o)))) ;;
  if (stop : bool) then Ok newTop
  else
    match fuel with
    | O => Raise BoundUsedUp
    | S fuel' => scroll_down_top fuel' m newSelectionNum newTop
    end.

(** Console.cpp:779-862: show the new selection. *)
Definition show_selection (m : MenuOptionList.t) (con : C)
  (prevSelectionNum newSelectionNum : Z) : Result (MenuOptionList.t * C) :=
  let topMenuOptionNum := topMenuOptionNum m in
  let bottomMenuOptionNum := bottomMenuOptionNum m in
  let m1 := setSelectedOption m newSelectionNum in
  if (newSelectionNum <? topMenuOptionNum) || (bottomMenuOptionNum <? newSelectionNum) then
    match cursorStartPos m1 with
    | None => Raise EmptyOptional
    | Some start =>
        let menuStartPos := mkCOORD (to_short (X start - 2)) (Y start) in
        let con1 := con_setCursorPos (con_saveCursorPos con) menuStartPos in
        m2 <-
          (if newSelectionNum <? topMenuOptionNum then
             if topMenuOptionNum >? 0 then
               let diff := to_size_t (prevSelectionNum - newSelectionNum) in
               Ok (setTopMenuOptionNum m1 (to_size_t (topMenuOptionNum - diff)))
             else Ok m1
           else
             let lastMenuOptionNum := to_size_t (size m1 - 1) in
             if bottomMenuOptionNum <? lastMenuOptionNum then
               newTop <- scroll_down_top (length (options m1)) m1 newSelectionNum
                           topMenuOptionNum ;;
               Ok (setTopMenuOptionNum m1 newTop)
             else Ok m1) ;;
        let '(con2, m3) := printMenuOptions con1 m2 false in
        Ok (m3, con_restoreSavedCursorPos con2)
    end
  else
    prev <- getCursorPos m1 prevSelectionNum ;;
    new <- getCursorPos m1 newSelectionNum ;;
    match prev, new with
    | Some prevCursorPos, Some newCursorPos =>
        let con1 := con_setCursorPos (con_saveCursorPos con) prevCursorPos in
        let con2 := con_print con1 (L " ") true in
        let con3 := con_print (con_setCursorPos con2 newCursorPos) (L ">") true in
        Ok (m1, con_restoreSavedCursorPos con3)
    | _, _ => Raise EmptyOptional
    end.

(** What an action callback sees and returns: the list, the console and the
    current selection, then its [InputProcessingResult]. *)
Definition ActionResult : Type :=
  (MenuOptionList.t * C * option Z * InputProcessingResult)%type.
Definition Action : Type :=
  WinConsoleInputKey -> MenuOptionList.t -> C -> option Z -> Result ActionResult.

(** Console.cpp:692-869. *)
Definition DEFAULT_NAVIGATION_ACTIONS : Action :=
  fun key menuOptions console currentSelectionNum =>
    let prevSelectionNum := match currentSelectionNum with Some n => n | None => 1 end in
    ' (newSelectionNum, stopProcessingInput) <-
      select_by_key key menuOptions prevSelectionNum ;;
    if newSelectionNum =? prevSelectionNum then
      Ok (menuOptions, console, currentSelectionNum, stopProcessingInput)
    else
      ' (m, con) <- show_selection menuOptions console prevSelectionNum newSelectionNum ;;
      Ok (m, con, Some newSelectionNum, stopProcessingInput).


(** Console.cpp:871-890. *)
Definition DEFAULT_ESCAPE_ACTION : Action :=
  fun key menuOptions console currentSelectionNum =>
    if wVirtualKeyCode key =? VK_ESCAPE
    then Ok (menuOptions, console, None, (true, true))
    else Ok (menuOptions, console, currentSelectionNum, (false, false)).

(** Console.cpp:892-895. *)
Definition DEFAULT_ACTIONS : list Action :=
  [DEFAULT_NAVIGATION_ACTIONS; DEFAULT_ESCAPE_ACTION].

(** Console.cpp:1381-1408, the lambda [printMenuOptionStatusMessage]. *)
Definition printMenuOptionStatusMessage (m : MenuOptionList.t) (con : C)
  : Result (MenuOptionList.t * C * bool) :=
  match statusMessage m with
  | [] => Ok (m, con, false)
  | _ :: _ =>
      let initialScrollOffset := con_getCursorScrollOffset con in
      let con1 := if statusMessageIssueTime m >? 0 then con_clear con false false else con in
      let con2 := con_saveCursorPos con1 in
      let con3 := con_print (con_print con2 [NEWLINE; NUL] false) (statusMessage m) false in
      let finalScrollOffset := con_getCursorScrollOffset con3 in
      m1 <-
        (if finalScrollOffset >? initialScrollOffset then
           match cursorStartPos m with
           | None => Raise EmptyOptional
           | Some start =>
               Ok (setCursorStartPos m
                     (follow_scroll start initialScrollOffset finalScrollOffset))
           end
         else Ok m) ;;
      let con4 := con_restoreSavedCursorPos con3 in
      let '(con5, now) := con_time con4 in
      Ok (snd (issueStatusMessage m1 now), con5, true)
  end.

(** Console.cpp:1419-1423, the lambda [waitForValidInput]. *)
Definition waitForValidInput (m : MenuOptionList.t) (con : C) (maxWaitTime : Z)
  (flushBuffer : bool) : C * option WinConsoleInputKey :=
  con_waitForInput con flushBuffer
    (if hasActiveStatusMessage m then 1 else maxWaitTime).

(** Console.cpp:1432-1437: the actions, in order, until one asks to stop. *)
Fixpoint run_actions (actions : list Action) (key : WinConsoleInputKey)
  (m : MenuOptionList.t) (con : C) (currentSelectionNum : option Z)
  (stop : InputProcessingResult) : Result ActionResult :=
  match actions with
  | [] => Ok (m, con, currentSelectionNum, stop)
  | action :: rest =>
      ' (m1, con1, sel1, stop1) <- action key m con currentSelectionNum ;;
      if fst stop1 || snd stop1 then Ok (m1, con1, sel1, stop1)
      else run_actions rest key m1 con1 sel1 stop1
  end.

(** The condition of the [while] at Console.cpp:1428. *)
Definition keep_waiting (m : MenuOptionList.t) (key : option WinConsoleInputKey)
  (stop : InputProcessingResult) : bool :=
  negb (snd stop)
  && match key with
     | Some k => negb (wVirtualKeyCode k =? VK_RETURN)
     | None => hasActiveStatusMessage m
     end.

(** Console.cpp:1428-1448.  The loop runs for as long as the user keeps
    pressing keys: [fuel] bounds the number of iterations, and [None] means
    that it was used up. *)
Fixpoint selection_loop (fuel : nat) (actions : list Action) (maxWaitTime : Z)
  (m : MenuOptionList.t) (con : C) (currentSelectionNum : option Z)
  (key : option WinConsoleInputKey) (stop : InputProcessingResult)
  : option (Result (MenuOptionList.t * C * option Z)) :=
  if keep_waiting m key stop then
    match fuel with
    | O => None
    | S fuel' =>
        let handled :=
          match key with
          | Some k => run_actions actions k m con currentSelectionNum stop
          | None => Ok (m, con, currentSelectionNum, stop)
          end in
        match handled with
        | Raise f => Some (Raise f)
        | Ok (m1, con1, sel1, stop1) =>
            match printMenuOptionStatusMessage m1 con1 with
            | Raise f => Some (Raise f)
            | Ok (m2, con2, printed) =>
                let '(m3, con3) :=
                  if printed then (m2, con2)
                  else if hasActiveStatusMessage m2 then
                    let '(con', now) := con_time con2 in
                    let '(expired, m') := hasExpiredStatusMessage m2 now in
                    (m', if expired then con_clear con' false false else con')
                  else (m2, con2) in
                let '(con4, key') :=
                  if snd stop1 then (con3, key)
                  else waitForValidInput m3 con3 maxWaitTime false in
                selection_loop fuel' actions maxWaitTime m3 con4 sel1 key' stop1
            end
        end
    end
  else Some (Ok (m, con, currentSelectionNum)).

(** Console.cpp:1358-1450. *)
Definition waitForSelection (fuel : nat) (actions : list Action)
  (menuOptions : MenuOptionList.t) (con : C) (maxWaitTime : Z)
  : option (Result (MenuOptionList.t * C * option Z)) :=
  let currentSelectionNum :=
    Some (match selectedOptionNum menuOptions with Some s => s | None => 0 end) in
  match printMenuOptionStatusMessage menuOptions con with
  | Raise f => Some (Raise f)
  | Ok (m1, con1, _) =>
      let '(con2, key) := waitForValidInput m1 con1 maxWaitTime true in
      selection_loop fuel actions maxWaitTime m1 con2 currentSelectionNum key (false, false)
  end.

End WithConsole.

End Console.

(** A console with no screen: nothing is drawn, no key ever arrives and the
    clock stands still.  Enough to run the menu code. *)
#[global] Instance blind_console : ConsoleIO unit := {
  con_getCursorPos _ := mkCOORD 0 0;
  con_getCursorScrollOffset _ := 0;
  con_setCursorPos c _ := c;
  con_saveCursorPos c := c;
  con_restoreSavedCursorPos c := c;
  con_print c _ _ := c;
  con_clear c _ _ := c;
  con_waitForInput c _ _ := (c, None);
  con_time c := (c, 0)
}.

(* ================================================================== *)
(** * Sample inputs *)

Module Samples.

Definition ESC : wchar_t := VIRTUAL_TERMINAL_SEQUENCE_ESCAPE.

(** The default settings: virtualized alternate buffers. *)
Definition settings : ProgramSettings := mkProgramSettings true.

(** A fresh engine on an 80 x 25 terminal with the cursor at [c]. *)
Definition engine_at (c : COORD) : OutputBuffer.t :=
  OutputBuffer.construct settings 7 (Terminal.at_cursor c).

(** [AB], the sequence [ESC[90m], then [CD], written on the first row. *)
Definition grey_line : Result OutputBuffer.t :=
  OutputBuffer.print settings (engine_at (mkCOORD 0 0))
    (L "AB" ++ [ESC] ++ L "[90mCD") true.

(** Move the cursor to a column of the first row and write [Z] there. *)
Definition overwrite_at (x : Z) (st : OutputBuffer.t) : Result OutputBuffer.t :=
  OutputBuffer.print settings
    (fst (OutputBuffer.setCursorPos settings st (mkCOORD x 0))) (L "Z") true.

(** An engine whose screen starts at row 5, with the cursor on the last row
    of the window. *)
Definition bottom_row_engine : OutputBuffer.t :=
  fst (OutputBuffer.setCursorPos settings (engine_at (mkCOORD 0 5)) (mkCOORD 0 24)).

Definition or_else {A : Type} (r : Result A) (a : A) : A :=
  match r with Ok a' => a' | Raise _ => a end.

(** ... after one line feed, which scrolls the window. *)
Definition after_line_feed : OutputBuffer.t :=
  or_else (OutputBuffer.println settings bottom_row_engine false) bottom_row_engine.

(** ... and then after [createAltBuffer]. *)
Definition after_line_feed_and_push : OutputBuffer.t :=
  match OutputBuffer.createAltBuffer settings after_line_feed with
  | Ok (st, _) => st
  | Raise _ => after_line_feed
  end.

(** ... and after a second line feed. *)
Definition after_two_line_feeds : OutputBuffer.t :=
  or_else (OutputBuffer.println settings after_line_feed false) after_line_feed.

(** The settings of the command-line switch for native alternate buffers. *)
Definition native_settings : ProgramSettings := mkProgramSettings false.

(** 20000 line feeds. *)
Definition page_of_line_feeds : wstring := repeat NEWLINE (Z.to_nat 20000).

(** With native buffers: [bottom_row_engine] after 20000 line feeds, and
    after 20000 more. *)
Definition after_one_page : OutputBuffer.t :=
  or_else (OutputBuffer.print native_settings bottom_row_engine page_of_line_feeds false)
    bottom_row_engine.
Definition after_two_pages : OutputBuffer.t :=
  or_else (OutputBuffer.print native_settings after_one_page page_of_line_feeds false)
    after_one_page.

(** 32768 line feeds. *)
Definition many_line_feeds : wstring := repeat NEWLINE (Z.to_nat 32768).

(** An engine with [AB] on its first row and the cursor back at the start. *)
Definition cursor_moved_back : OutputBuffer.t :=
  fst (OutputBuffer.setCursorPos settings
         (or_else (OutputBuffer.print settings (engine_at (mkCOORD 0 0)) (L "AB") true)
            (engine_at (mkCOORD 0 0)))
         (mkCOORD 0 0)).

Definition plain (s : string) (hotkey : option wchar_t) : MenuOption.t :=
  MenuOption.construct (L s) hotkey false MenuOptionPadding.none.

(** A drawn menu of the given options: origin set, everything visible. *)
Definition drawn_menu (options : list MenuOption.t) (selected : option Z)
  : MenuOptionList.t :=
  MenuOptionList.mk options [] [] [] [] 20 9 (Some (mkCOORD 2 0)) selected 0
    (vec_size options - 1) [] 0.

(** [1) One], [q) Quit], [2) Two]. *)
Definition one_quit_two : MenuOptionList.t :=
  drawn_menu [plain "One" None; plain "Quit" (Some (wc "Q")); plain "Two" None] (Some 0).

Definition number_key (d : Z) : WinConsoleInputKey := mkKey (48 + d) (48 + d).
Definition up_key : WinConsoleInputKey := mkKey VK_UP 0.

(** A menu with a staged status message. *)
Definition with_message : MenuOptionList.t :=
  MenuOptionList.setStatusMessage one_quit_two (L "Saved.").

End Samples.

(* ================================================================== *)
(** * More of the buffer engine *)

(** The buffers of an engine, without its console. *)
Definition buffers {host : Type} (st : @OutputBuffer.t host)
  : OutputBuffer.BufferData * list OutputBuffer.BufferData :=
  (OutputBuffer.mainBufferData st, OutputBuffer.altBufferData st).

(** The column index of a line of [n] characters with no escape sequence:
    column [i] is character [i]. *)
Definition columns (n : Z) : list Z := map Z.of_nat (seq 0 (Z.to_nat n)).

(** A character that is neither the terminator, a line feed nor an escape. *)
Definition ordinary (c : wchar_t) : Prop :=
  c <> NUL /\ c <> NEWLINE /\ c <> VIRTUAL_TERMINAL_SEQUENCE_ESCAPE.

(** Console.cpp:360-361: whether the characters of this call of [print] go to
    the end of their line: decided at the first character that is tracked. *)
Definition at_end_of_buffer (startY : Z) (loc : OutputBuffer.Locals)
  (bd : OutputBuffer.BufferData) : bool :=
  match OutputBuffer.atEndOfBuffer loc with
  | Some b => b
  | None =>
      vec_size (nth (Z.to_nat (to_short (Y (OutputBuffer.currentCursorPos loc) - startY)))
                  (OutputBuffer.contentsCursorData bd) [])
      <=? to_size_t (X (OutputBuffer.currentCursorPos loc) + 1)
  end.

Section EngineDestructor.

Context {host : Type} {win : WinConsole host}.
Variable programSettings : ProgramSettings.

(** Console.cpp:106-108: [while (!altBufferData.empty()) restorePreviousBuffer()];
    [fuel] bounds the number of iterations, [None] means that it was used up. *)
Fixpoint restore_all (fuel : nat) (st : @OutputBuffer.t host)
  : option (Result OutputBuffer.t) :=
  match OutputBuffer.altBufferData st with
  | [] => Some (Ok st)
  | _ :: _ =>
      match fuel with
      | O => None
      | S fuel' =>
          match OutputBuffer.restorePreviousBuffer programSettings st with
          | Raise f => Some (Raise f)
          | Ok (st', _) => restore_all fuel' st'
          end
      end
  end.

(** Console.cpp:102-113, the destructor. *)
Definition destructor (fuel : nat) (st : @OutputBuffer.t host)
  : option (Result OutputBuffer.t) :=
  match (if negb (useCustomBufferBehavior programSettings)
         then restore_all fuel st else Some (Ok st)) with
  | Some (Ok st1) => Some (OutputBuffer.toggleCursorVisibilityTo programSettings st1 true)
  | stopped => stopped
  end.

End EngineDestructor.

Section ExitHandler.

Context {host : Type} {win : WinConsole host}.
Variable programSettings : ProgramSettings.

(** TerrariaMonitorTool.cpp:479-481, in [programExitHandler]:
    [while (console->getCurrentBufferNum() > 0) console->restorePreviousBuffer()],
    where [getCurrentBufferNum] returns a [buffer_number_t], an
    [unsigned short] (Console.cpp:152).  [fuel] bounds the number of
    iterations, [None] means that it was used up. *)
Fixpoint clear_alternate_buffers (fuel : nat) (st : @OutputBuffer.t host)
  : option (Result OutputBuffer.t) :=
  if to_ushort (OutputBuffer.getCurrentBufferNum st) >? 0 then
    match fuel with
    | O => None
    | S fuel' =>
        match OutputBuffer.restorePreviousBuffer programSettings st with
        | Raise f => Some (Raise f)
        | Ok (st', _) => clear_alternate_buffers fuel' st'
        end
    end
  else Some (Ok st).

End ExitHandler.

(* ================================================================== *)
(** * More of the menu code *)

(** Console.cpp:769: the option has the hotkey [keyChar] and is not disabled. *)
Definition answers_to (keyChar : wchar_t) (menuOption : MenuOption.t) : bool :=
  match MenuOption.hotkey menuOption with
  | Some h => (h =? keyChar) && negb (MenuOption.disabled menuOption)
  | None => false
  end.

(** Console.cpp:713, 736: the key is neither an arrow nor a digit from 1 to 9. *)
Definition is_character_key (key : WinConsoleInputKey) : bool :=
  negb ((wVirtualKeyCode key =? VK_DOWN) || (wVirtualKeyCode key =? VK_UP))
  && negb ((49 <=? wVirtualKeyCode key) && (wVirtualKeyCode key <=? 57)).


(** A console with no screen whose keyboard delivers the keys of a list, one
    for each wait, and then times out. *)
#[global] Instance scripted_console : ConsoleIO (list WinConsoleInputKey) := {
  con_getCursorPos _ := mkCOORD 0 0;
  con_getCursorScrollOffset _ := 0;
  con_setCursorPos c _ := c;
  con_saveCursorPos c := c;
  con_restoreSavedCursorPos c := c;
  con_print c _ _ := c;
  con_clear c _ _ := c;
  con_waitForInput c _ _ :=
    match c with
    | [] => ([], None)
    | key :: rest => (rest, Some key)
    end;
  con_time c := (c, 0)
}.

(* ================================================================== *)
(** * Console::InputBuffer *)

Module InputBuffer.

(** [INPUT_RECORD]: its type, and for a key event the [KEY_EVENT_RECORD],
    whose member [bKeyDown] is kept beside the two that the menu code reads. *)
Record WinConsoleInput : Type := mkInput {
  EventType : Z;                      (* WORD *)
  bKeyDown : bool;
  KeyEvent : WinConsoleInputKey
}.

(** <wincon.h>. *)
Definition KEY_EVENT : Z := 1.

(** Console.cpp:526. *)
Definition MAX_INPUT_EVENT_BUFFER_SIZE : Z := 10.

(** The calls of the Windows API [waitForInput] makes on the input handle. *)
Class WinConsoleInputQueue (host : Type) : Type := {
  FlushConsoleInputBuffer : host -> host;
  (** [GetNumberOfConsoleInputEvents(h, &n); n] *)
  GetNumberOfConsoleInputEvents : host -> Z;
  (** [ReadConsoleInputW(h, buffer, nLength, &read)]: the records read *)
  ReadConsoleInputW : host -> Z -> host * list WinConsoleInput;
  (** [WaitForSingleObject(h, ms) == WAIT_TIMEOUT] *)
  WaitForSingleObject : host -> Z -> host * bool
}.

(** The function's [static] variables (Console.cpp:536-539). *)
Record Statics : Type := mkStatics {
  inputBuf : list WinConsoleInput;    (* an array of MAX_INPUT_EVENT_BUFFER_SIZE records *)
  inputBufSize : Z;                   (* DWORD *)
  inputBufPos : Z;                    (* DWORD *)
  inputBufIsEmpty : bool
}.

(** Their values before the first call. *)
Definition initialStatics : Statics :=
  mkStatics (repeat (mkInput 0 false (mkKey 0 0)) (Z.to_nat MAX_INPUT_EVENT_BUFFER_SIZE))
    0 0 true.

Definition set_inputBufPos (s : Statics) (pos : Z) : Statics :=
  mkStatics (inputBuf s) (inputBufSize s) pos (inputBufIsEmpty s).
Definition set_inputBufIsEmpty (s : Statics) (b : bool) : Statics :=
  mkStatics (inputBuf s) (inputBufSize s) (inputBufPos s) b.

(** Console.cpp:559: only key input records and key down events are valid. *)
Definition is_key_press (input : WinConsoleInput) : bool :=
  (EventType input =? KEY_EVENT) && bKeyDown input.

(** Console.cpp:554-563: the [for] over the records not yet looked at; [n]
    bounds the iterations left. *)
Fixpoint next_key (n : nat) (s : Statics) : Result (Statics * option WinConsoleInputKey) :=
  if inputBufPos s <? inputBufSize s then
    input <- vec_get (inputBuf s) (inputBufPos s) ;;
    if is_key_press input then
      Ok (set_inputBufPos s (to_DWORD (inputBufPos s + 1)), Some (KeyEvent input))
    else
      match n with
      | O => Raise BoundUsedUp
      | S n' => next_key n' (set_inputBufPos s (to_DWORD (inputBufPos s + 1)))
      end
  else Ok (s, None).

(** What [ReadConsoleInputW] leaves in the array: the records read, at most
    as many as asked for, over the first entries. *)
Definition store_records (buffer : list WinConsoleInput) (nLength : Z)
  (records : list WinConsoleInput) : list WinConsoleInput :=
  let read := firstn (Z.to_nat nLength) records in
  read ++ skipn (length read) buffer.

Section WithQueue.

Context {host : Type} {queue : WinConsoleInputQueue host}.

(** Console.cpp:549-590, the [while (true)].  It goes round for as long as
    events that are no key presses keep arriving: [fuel] bounds the number of
    rounds, and [None] means that it was used up. *)
Fixpoint wait_loop (fuel : nat) (maxWaitTime : Z) (s : Statics) (h : host)
  : option (Result (Statics * host * option WinConsoleInputKey)) :=
  match fuel with
  | O => None
  | S fuel' =>
      if negb (inputBufIsEmpty s) then
        match next_key (Z.to_nat (inputBufSize s - inputBufPos s)) s with
        | Raise f => Some (Raise f)
        | Ok (s1, Some key) => Some (Ok (s1, h, Some key))
        | Ok (s1, None) => wait_loop fuel' maxWaitTime (set_inputBufIsEmpty s1 true) h
        end
      else
        let inputRecordsAvailable := GetNumberOfConsoleInputEvents h in
        if inputRecordsAvailable >? 0 then
          let '(h1, records) := ReadConsoleInputW h MAX_INPUT_EVENT_BUFFER_SIZE in
          let read := firstn (Z.to_nat MAX_INPUT_EVENT_BUFFER_SIZE) records in
          wait_loop fuel' maxWaitTime
            (mkStatics (store_records (inputBuf s) MAX_INPUT_EVENT_BUFFER_SIZE records)
               (vec_size read) 0 (vec_size read =? 0))
            h1
        else
          let '(h1, timedOut) := WaitForSingleObject h maxWaitTime in
          if timedOut then Some (Ok (s, h1, None))
          else wait_loop fuel' maxWaitTime s h1
  end.

(** Console.cpp:534-592. *)
Definition waitForInput (fuel : nat) (flushBuffer : bool) (maxWaitTime : Z)
  (s : Statics) (h : host)
  : option (Result (Statics * host * option WinConsoleInputKey)) :=
  if flushBuffer
  then wait_loop fuel maxWaitTime (set_inputBufIsEmpty s true) (FlushConsoleInputBuffer h)
  else wait_loop fuel maxWaitTime s h.

End WithQueue.

(** The array has its ten records, and the counters lie inside it. *)
Definition well_formed (s : Statics) : Prop :=
  vec_size (inputBuf s) = MAX_INPUT_EVENT_BUFFER_SIZE
  /\ 0 <= inputBufPos s
  /\ inputBufSize s <= MAX_INPUT_EVENT_BUFFER_SIZE.

End InputBuffer.


(** A console input queue that holds the records still to be read; no new
    record ever arrives, so a wait on the empty queue times out. *)
#[global] Instance pending_events
  : InputBuffer.WinConsoleInputQueue (list InputBuffer.WinConsoleInput) := {
  InputBuffer.FlushConsoleInputBuffer _ := [];
  InputBuffer.GetNumberOfConsoleInputEvents h := vec_size h;
  InputBuffer.ReadConsoleInputW h nLength :=
    (skipn (Z.to_nat nLength) h, firstn (Z.to_nat nLength) h);
  InputBuffer.WaitForSingleObject h _ :=
    (h, match h with [] => true | _ :: _ => false end)
}.

(* ================================================================== *)
(** * Utils: the string helpers of framework.cpp *)

(** [==] on two [std::wstring]s. *)
Fixpoint wstring_eqb (a b : wstring) : bool :=
  match a, b with
  | [], [] => true
  | x :: a', y :: b' => (x =? y) && wstring_eqb a' b'
  | _, _ => false
  end.

Module Utils.

(** [std::towupper] in the "C" locale. *)
Definition towupper (c : wchar_t) : wchar_t :=
  if (97 <=? c) && (c <=? 122) then c - 32 else c.

(** framework.cpp:18-27. *)
Definition stringToLowercase (str : wstring) : wstring := map towlower str.

(** framework.cpp:28-37. *)
Definition stringToUppercase (str : wstring) : wstring := map towupper str.

(** [str.substr(0, count)]. *)
Definition wstring_prefix (str : wstring) (count : Z) : wstring :=
  firstn (Z.to_nat count) str.

(** framework.cpp:48-58.  [maxLength] is a [size_t]. *)
Definition truncateString (str : wstring) (maxLength : Z) : wstring :=
  if vec_size str <=? maxLength then str
  else wstring_prefix str (to_size_t (maxLength - 3)) ++ L "...".

(** [L'\\'] or [L'/']. *)
Definition is_separator (c : wchar_t) : bool := (c =? 92) || (c =? 47).

(** framework.cpp:69-71: the index where the first [while] stops. *)
Fixpoint first_segment_length (s : wstring) : Z :=
  match s with
  | [] => 0
  | c :: s' => if is_separator c then 0 else 1 + first_segment_length s'
  end.

(** framework.cpp:77-82.  [truncStr] is [pre ++ rest], where [pre] is its
    first [index] characters, which the loop leaves alone; the result is what
    is left of [rest]. *)
Fixpoint erase_until_fits (pre rest : wstring) (maxLength : Z) : wstring :=
  match rest with
  | [] => []
  | _ :: rest' =>                          (* truncStr.erase(index, 1) *)
      let atIndex := hd NUL rest' in       (* truncStr[index]; L'\0' at the end *)
      if is_separator atIndex
         && (vec_size (pre ++ rest') <=? to_size_t (maxLength - 3))
      then rest'
      else erase_until_fits pre rest' maxLength
  end.

(** framework.cpp:96-97: the characters of [str] from the last one backwards,
    up to a separator.  [backwards] is what is left to read; when nothing is
    left [index] has wrapped around and [str[index]] lies outside [str]. *)
Fixpoint name_after_last_separator (backwards name : wstring) : Result wstring :=
  match backwards with
  | [] => Raise OutOfBounds
  | currentChar :: before =>
      if is_separator currentChar then Ok name
      else name_after_last_separator before (currentChar :: name)
  end.

(** framework.cpp:59-102.  [maxLength] is a [size_t]. *)
Definition truncatePathString (str : wstring) (maxLength : Z) : Result wstring :=
  if vec_size str <=? maxLength then Ok str
  else
    let index := first_segment_length str + 1 in
    let pre := firstn (Z.to_nat index) str in
    let rest := erase_until_fits pre (skipn (Z.to_nat index) str) maxLength in
    let truncStr := pre ++ rest in
    if index <? vec_size truncStr then Ok (pre ++ L "..." ++ rest)
    else
      name <- name_after_last_separator (rev str) [] ;;
      Ok (L "..." ++ name).

(** A string with no path separator in it. *)
Definition no_separator (s : wstring) : Prop :=
  Forall (fun c => is_separator c = false) s.

End Utils.

(* ================================================================== *)
(** * The command line (TerrariaMonitorTool.cpp, wmain) *)

Module CommandLine.

(** framework.h:45-108, all the members. *)
Record ProgramSettingsStruct : Type := mkSettings {
  dryRun : bool;
  statelessMode : bool;
  autoConfirmPrompts : bool;
  useCustomBufferBehavior : bool;
  debugMode : bool
}.

(** The default member initialisers. *)
Definition defaultSettings : ProgramSettingsStruct :=
  mkSettings false false false true false.

(** What the buffer engine reads of the settings. *)
Definition engine_settings (s : ProgramSettingsStruct) : ProgramSettings :=
  mkProgramSettings (useCustomBufferBehavior s).

(** TerrariaMonitorTool.cpp:523-530. *)
Record ProgramFlagsStruct : Type := mkFlags {
  helpMode : bool;
  versionMode : bool;
  clearProgramDataAtStart : bool
}.

Definition noFlags : ProgramFlagsStruct := mkFlags false false false.

Definition is_help (arg lcArg : wstring) : bool :=
  wstring_eqb arg (L "/?") || wstring_eqb lcArg (L "--help")
  || wstring_eqb lcArg (L "--usage").

Definition is_version (arg lcArg : wstring) : bool :=
  wstring_eqb arg (L "-v") || wstring_eqb lcArg (L "--version").

(** TerrariaMonitorTool.cpp:556-579: the chain of [if]s on one argument. *)
Definition apply_argument (arg lcArg : wstring)
  (acc : ProgramFlagsStruct * ProgramSettingsStruct)
  : ProgramFlagsStruct * ProgramSettingsStruct :=
  let '(flags, s) := acc in
  if wstring_eqb arg (L "-d") || wstring_eqb lcArg (L "--dry-run") then
    (flags, mkSettings true (statelessMode s) (autoConfirmPrompts s)
              (useCustomBufferBehavior s) (debugMode s))
  else if wstring_eqb arg (L "-s") || wstring_eqb lcArg (L "--stateless") then
    (flags, mkSettings (dryRun s) true (autoConfirmPrompts s)
              (useCustomBufferBehavior s) (debugMode s))
  else if wstring_eqb arg (L "-y") || wstring_eqb lcArg (L "--yes") then
    (flags, mkSettings (dryRun s) (statelessMode s) true
              (useCustomBufferBehavior s) (debugMode s))
  else if wstring_eqb arg (L "-b")
          || wstring_eqb lcArg (L "--disable-custom-buffer-behavior") then
    (flags, mkSettings (dryRun s) (statelessMode s) (autoConfirmPrompts s)
              false (debugMode s))
  else if wstring_eqb lcArg (L "--clear-program-data") then
    (mkFlags (helpMode flags) (versionMode flags) true, s)
  else if wstring_eqb lcArg (L "--debug") then
    (flags, mkSettings (dryRun s) (statelessMode s) (autoConfirmPrompts s)
              (useCustomBufferBehavior s) true)
  else acc.

(** TerrariaMonitorTool.cpp:538-580: the loop over [argv[i]], [i >= 1];
    [args] are the arguments from [argv[i]] on. *)
Fixpoint process_arguments (i : Z) (args : list wstring)
  (acc : ProgramFlagsStruct * ProgramSettingsStruct)
  : ProgramFlagsStruct * ProgramSettingsStruct :=
  match args with
  | [] => acc
  | arg :: rest =>
      let lcArg := Utils.stringToLowercase arg in
      if (i =? 1) && is_help arg lcArg then
        (mkFlags true (versionMode (fst acc)) (clearProgramDataAtStart (fst acc)),
         snd acc)                                              (* break *)
      else if (i =? 1) && is_version arg lcArg then
        (mkFlags (helpMode (fst acc)) true (clearProgramDataAtStart (fst acc)),
         snd acc)                                              (* break *)
      else process_arguments (i + 1) rest (apply_argument arg lcArg acc)
  end.

(** The flags and settings [wmain] works with, from [argv[1]], ...,
    [argv[argc - 1]]. *)
Definition parse_command_line (args : list wstring)
  : ProgramFlagsStruct * ProgramSettingsStruct :=
  process_arguments 1 args (noFlags, defaultSettings).

(** An argument names the option with the short form [short] (matched as
    written) and the long form [long] (matched whatever the case). *)
Definition names_option (short long : string) (arg : wstring) : bool :=
  wstring_eqb arg (L short) || wstring_eqb (Utils.stringToLowercase arg) (L long).

(** An argument is the long form [long], whatever the case. *)
Definition names_long_option (long : string) (arg : wstring) : bool :=
  wstring_eqb (Utils.stringToLowercase arg) (L long).

End CommandLine.


(* ================================================================== *)
(** * The map of changed values (TerrariaMonitorTool.cpp) *)

Module ChangedValues.

(** TerrariaMonitorTool.cpp:32: a map from a property name to its old and its
    new value; each key at most once. *)
Definition ChangedValuesMap : Type := list (wstring * (wstring * wstring)).

(** [find(key)]. *)
Fixpoint find (m : ChangedValuesMap) (key : wstring) : option (wstring * wstring) :=
  match m with
  | [] => None
  | (k, v) :: m' => if wstring_eqb k key then Some v else find m' key
  end.

(** [contains(key)]. *)
Definition contains (m : ChangedValuesMap) (key : wstring) : bool :=
  match find m key with Some _ => true | None => false end.

(** [emplace(key, value)]: nothing is stored when the key is there already. *)
Definition emplace (m : ChangedValuesMap) (key : wstring) (value : wstring * wstring)
  : ChangedValuesMap :=
  if contains m key then m else (key, value) :: m.

(** [m[key].second = newValue] for a key of the map. *)
Fixpoint set_second (m : ChangedValuesMap) (key newValue : wstring) : ChangedValuesMap :=
  match m with
  | [] => []
  | (k, v) :: m' =>
      if wstring_eqb k key then (k, (fst v, newValue)) :: m'
      else (k, v) :: set_second m' key newValue
  end.

(** [erase(key)]. *)
Fixpoint erase (m : ChangedValuesMap) (key : wstring) : ChangedValuesMap :=
  match m with
  | [] => []
  | (k, v) :: m' => if wstring_eqb k key then m' else (k, v) :: erase m' key
  end.

(** [m[key]], for a key of the map. *)
Definition subscript (m : ChangedValuesMap) (key : wstring) : wstring * wstring :=
  match find m key with Some v => v | None => ([], []) end.

(** [str.empty()]. *)
Definition empty (str : wstring) : bool :=
  match str with [] => true | _ :: _ => false end.

(** TerrariaMonitorTool.cpp:377-388, in [setActiveMonitorInConfigFile]: note
    the change of the property [key] from [oldValueStr] to [newValueStr]. *)
Definition record_change (changedValues : ChangedValuesMap)
  (key oldValueStr newValueStr : wstring) : ChangedValuesMap :=
  if negb (empty newValueStr) then
    if negb (contains changedValues key) then
      emplace changedValues key (oldValueStr, newValueStr)
    else if negb (wstring_eqb (fst (subscript changedValues key)) newValueStr) then
      set_second changedValues key newValueStr
    else erase changedValues key
  else changedValues.

(** The property [key], whose value in the file is [current], is set to each
    of [values] in turn; the file is written each time, so the old value of a
    change is the new value of the one before. *)
Fixpoint record_changes (changedValues : ChangedValuesMap) (key current : wstring)
  (values : list wstring) : ChangedValuesMap :=
  match values with
  | [] => changedValues
  | value :: later =>
      record_changes (record_change changedValues key current value) key value later
  end.

(** Each of [values] is a value, and differs from the value before it. *)
Fixpoint all_changes (current : wstring) (values : list wstring) : Prop :=
  match values with
  | [] => True
  | value :: later => value <> [] /\ value <> current /\ all_changes value later
  end.

(** No key twice. *)
Fixpoint unique_keys (m : ChangedValuesMap) : Prop :=
  match m with
  | [] => True
  | (k, _) :: m' => find m' k = None /\ unique_keys m'
  end.

End ChangedValues.

(* ================================================================== *)
(** * More sample inputs *)

Module Scenarios.

(** The sequence [ESC[90m]. *)
Definition grey : wstring := VIRTUAL_TERMINAL_SEQUENCE_ESCAPE :: L "[90m".

(** [grey] written, and recorded, on an empty screen with the cursor in
    column 3 of its first row. *)
Definition after_grey : OutputBuffer.BufferData * OutputBuffer.Locals :=
  Samples.or_else
    (OutputBuffer.print_prefix true 0 80 grey []
       (OutputBuffer.newBufferData 7, OutputBuffer.initLocals (mkCOORD 3 0)))
    (OutputBuffer.newBufferData 7, OutputBuffer.initLocals (mkCOORD 3 0)).

(** An engine with two native alternate screens. *)
Definition two_alternates : OutputBuffer.t :=
  OutputBuffer.mk (OutputBuffer.newBufferData 7)
    [OutputBuffer.newBufferData 101; OutputBuffer.newBufferData 100]
    (Terminal.at_cursor (mkCOORD 0 0)).




Definition escape_key : WinConsoleInputKey := mkKey VK_ESCAPE 27.

(** A mouse event, and the keys A and B going down. *)
Definition mouse_event : InputBuffer.WinConsoleInput :=
  InputBuffer.mkInput 2 false (mkKey 0 0).
Definition key_down (vk ch : Z) : InputBuffer.WinConsoleInput :=
  InputBuffer.mkInput InputBuffer.KEY_EVENT true (mkKey vk ch).

(** The first call of [waitForInput], with a mouse event and a key waiting. *)
Definition first_key
  : Result (InputBuffer.Statics * list InputBuffer.WinConsoleInput
            * option WinConsoleInputKey) :=
  match InputBuffer.waitForInput 2 false 0 InputBuffer.initialStatics
          [mouse_event; key_down 65 97] with
  | Some r => r
  | None => Raise BoundUsedUp
  end.

(** The array after a read of three records, none of them looked at yet. *)
Definition three_buffered : InputBuffer.Statics :=
  InputBuffer.mkStatics
    ([mouse_event; key_down 65 97; key_down 66 98]
     ++ repeat (InputBuffer.mkInput 0 false (mkKey 0 0)) 7)
    3 0 false.

End Scenarios.

(* ================================================================== *)
(** * Properties *)

(** ** Machine arithmetic *)

Lemma to_short_range : forall x, -32768 <= to_short x <= 32767.
Proof.
  intro x. unfold to_short.
  pose proof (Z.mod_pos_bound (x + 32768) 65536). lia.
Qed.

Lemma to_short_id : forall x, -32768 <= x <= 32767 -> to_short x = x.
Proof.
  intros x Hx. unfold to_short. rewrite Z.mod_small; lia.
Qed.

Lemma to_short_add_l : forall a b, to_short (to_short a + b) = to_short (a + b).
Proof.
  intros a b. unfold to_short.
  replace ((a + 32768) mod 65536 - 32768 + b + 32768)
    with ((a + 32768) mod 65536 + b) by lia.
  rewrite Zplus_mod_idemp_l. f_equal. f_equal. lia.
Qed.

(** ** The saved-cursor stack *)

Section SavedCursors.

Context {host : Type} {win : WinConsole host}.
Variable programSettings : ProgramSettings.

(** C8.  With nothing on the saved-cursor stack of the current screen,
    [restoreSavedCursorPos] returns an empty optional and the engine, the
    console and its cursor included, is as it was: no call reaches the
    console and nothing fails. *)
Theorem restoreSavedCursorPos_nothing_saved :
  forall st : OutputBuffer.t,
    OutputBuffer.savedCursors (OutputBuffer.getCurrentBufferData programSettings st false) = [] ->
    OutputBuffer.restoreSavedCursorPos programSettings st = (st, None).
Proof.
  intros st Hempty. unfold OutputBuffer.restoreSavedCursorPos.
  now rewrite Hempty.
Qed.

End SavedCursors.

Lemma restoreSavedCursorPos_nothing_saved_witness :
  OutputBuffer.restoreSavedCursorPos Samples.settings (Samples.engine_at (mkCOORD 3 4))
  = (Samples.engine_at (mkCOORD 3 4), None).
Proof.
  apply (restoreSavedCursorPos_nothing_saved Samples.settings
           (Samples.engine_at (mkCOORD 3 4))).
  reflexivity.
Defined.

(** ** Status messages *)

(** A message issued at second 100 is still alive at second 105: the test is
    [difftime(now, issued) > 5]. *)
Lemma status_message_alive_at_lifetime :
  fst (MenuOptionList.hasExpiredStatusMessage
         (snd (MenuOptionList.issueStatusMessage Samples.with_message 100)) 105) = false.
Proof. reflexivity. Qed.

(** C7, amended.  A status message issued at time T > 0 is reported expired
    at every time later than T + 5, and at no time up to and including
    T + 5; the report that it expired clears the issue time, so that every
    check after it answers false. *)
Theorem status_message_expires_after_lifetime :
  forall (m0 : MenuOptionList.t) (T now : Z),
    MenuOptionList.statusMessage m0 <> [] ->
    0 < T ->
    let m := snd (MenuOptionList.issueStatusMessage m0 T) in
    (T + MenuOptionList.STATUS_MESSAGE_LIFETIME < now ->
       let r := MenuOptionList.hasExpiredStatusMessage m now in
       fst r = true /\
       MenuOptionList.statusMessageIssueTime (snd r) = 0 /\
       forall later, fst (MenuOptionList.hasExpiredStatusMessage (snd r) later) = false)
    /\
    (now <= T + MenuOptionList.STATUS_MESSAGE_LIFETIME ->
       MenuOptionList.hasExpiredStatusMessage m now = (false, m)).
Proof.
  intros m0 T now Hstaged HT m.
  assert (Hissue : MenuOptionList.statusMessageIssueTime m = T).
  { unfold m, MenuOptionList.issueStatusMessage.
    destruct (MenuOptionList.statusMessage m0); [congruence | reflexivity]. }
  unfold MenuOptionList.hasExpiredStatusMessage, MenuOptionList.STATUS_MESSAGE_LIFETIME.
  rewrite Hissue.
  assert (Hactive : (T >? 0) = true) by (apply Z.gtb_lt; lia).
  rewrite Hactive. split.
  - intro Hlate.
    assert (H : (now - T >? 5) = true) by (apply Z.gtb_lt; lia).
    rewrite H. cbn. repeat split; reflexivity.
  - intro Hearly.
    assert (H : (now - T >? 5) = false).
    { destruct (now - T >? 5) eqn:E; [apply Z.gtb_lt in E; lia | reflexivity]. }
    now rewrite H.
Qed.

Lemma status_message_expires_after_lifetime_witness :
  fst (MenuOptionList.hasExpiredStatusMessage
         (snd (MenuOptionList.issueStatusMessage Samples.with_message 100)) 106) = true.
Proof.
  refine (proj1 (proj1 (status_message_expires_after_lifetime
                          Samples.with_message 100 106 _ _) _)).
  - discriminate.
  - lia.
  - unfold MenuOptionList.STATUS_MESSAGE_LIFETIME. lia.
Defined.

(** ** The selection loop *)

Section SelectionLoop.

Context {C : Type} {io : ConsoleIO C}.

(** C10.  On a list with no option selected and no status message staged or
    on display, when the first wait for a key times out, [waitForSelection]
    returns an optional holding index 0, whatever the iteration bound: the
    loop is not entered and no key was read. *)
Theorem waitForSelection_timeout_returns_first :
  forall (fuel : nat) (actions : list Console.Action) (m : MenuOptionList.t)
         (con : C) (maxWaitTime : Z),
    MenuOptionList.selectedOptionNum m = None ->
    MenuOptionList.statusMessage m = [] ->
    MenuOptionList.hasActiveStatusMessage m = false ->
    snd (con_waitForInput con true maxWaitTime) = None ->
    Console.waitForSelection fuel actions m con maxWaitTime
    = Some (Ok (m, fst (con_waitForInput con true maxWaitTime), Some 0)).
Proof.
  intros fuel actions m con maxWaitTime Hsel Hmsg Hactive Htimeout.
  unfold Console.waitForSelection, Console.printMenuOptionStatusMessage,
    Console.waitForValidInput.
  rewrite Hsel, Hmsg, Hactive.
  destruct (con_waitForInput con true maxWaitTime) as [con' key] eqn:Ewait.
  cbn in Htimeout. subst key. cbn [fst].
  destruct fuel; cbn; unfold Console.keep_waiting; rewrite Hactive; reflexivity.
Qed.

End SelectionLoop.

Lemma waitForSelection_timeout_returns_first_witness :
  Console.waitForSelection 0 Console.DEFAULT_ACTIONS
    (MenuOptionList.set_selectedOptionNum Samples.one_quit_two None) tt 1000
  = Some (Ok (MenuOptionList.set_selectedOptionNum Samples.one_quit_two None, tt, Some 0)).
Proof.
  exact (waitForSelection_timeout_returns_first 0 Console.DEFAULT_ACTIONS
           (MenuOptionList.set_selectedOptionNum Samples.one_quit_two None) tt 1000
           eq_refl eq_refl eq_refl eq_refl).
Defined.

(** ** Number keys *)

(** C5.  On the drawn list [1) One], [q) Quit], [2) Two], the key 2 selects
    index 1, the option with the hotkey q, and stops the list; the second
    option without a hotkey is index 2.  The loop at Console.cpp:744-753
    does not step over an option with a hotkey: [continue] leaves
    [newSelectionNum] on it while [i] goes on counting. *)
Theorem number_key_stops_on_hotkey_option :
  let m := Samples.one_quit_two in
  (exists m' con',
     Console.DEFAULT_NAVIGATION_ACTIONS (Samples.number_key 2) m tt (Some 0)
     = Ok (m', con', Some 1, (true, true))
     /\ MenuOptionList.selectedOptionNum m' = Some 1)
  /\ map MenuOption.has_hotkey (MenuOptionList.options m) = [false; true; false].
Proof.
  split; [| reflexivity].
  eexists. eexists. split.
  - vm_compute. reflexivity.
  - reflexivity.
Qed.

(** ** Overwriting after an escape sequence *)

(** C2.  The line [AB ESC[90m CD] has the column index [0; 1; 7; 8].
    Writing [Z] at column 2 erases the span [1, 7) (the glyph [B] and the
    sequence) and then subtracts 6 from the entries whose *index* is at least
    1, the character offset [startPos], instead of from the entries of columns
    2 and 3: entry 1 wraps around below zero and the index is no longer
    sorted.  A second write at the same column then makes [erase] throw. *)
Theorem overwrite_after_sequence_breaks_column_index :
  (exists st, Samples.grey_line = Ok st
     /\ OutputBuffer.contents (OutputBuffer.mainBufferData st)
        = [L "AB" ++ [Samples.ESC] ++ L "[90mCD"]
     /\ OutputBuffer.contentsCursorData (OutputBuffer.mainBufferData st) = [[0; 1; 7; 8]])
  /\ (exists st, (st0 <- Samples.grey_line ;; Samples.overwrite_at 2 st0) = Ok st
     /\ OutputBuffer.contents (OutputBuffer.mainBufferData st) = [L "AZD"]
     /\ OutputBuffer.contentsCursorData (OutputBuffer.mainBufferData st)
        = [[0; 18446744073709551611; 1; 2]])
  /\ (st0 <- Samples.grey_line ;; st1 <- Samples.overwrite_at 2 st0 ;;
      Samples.overwrite_at 2 st1) = Raise OutOfRangeThrown.
Proof.
  split; [| split].
  - eexists. split; [vm_compute; reflexivity | split; reflexivity].
  - eexists. split; [vm_compute; reflexivity | split; reflexivity].
  - vm_compute. reflexivity.
Qed.

(** ** The escape-sequence scanner *)

(** From [x <- e ;; k = Ok r]: [e] is some [Ok x]. *)
Tactic Notation "inv_bind" hyp(H) "as" simple_intropattern(x) ident(E) :=
  match type of H with
  | bind ?e _ = Ok _ =>
      destruct e as [x |] eqn:E; cbn [bind] in H; [| discriminate H]
  end.

Lemma rep_consumed :
  forall (c : wchar_t) (ranges : list (Z * Z)) (hi lo : nat) (s : wstring)
         (k : wstring -> option wstring) (rest : wstring),
    in_ranges ranges c = false ->
    Regex.rep ranges lo hi s k = Some rest ->
    exists pre s', s = pre ++ s' /\ Forall (fun x => x <> c) pre
                   /\ k s' = Some rest /\ (lo <> O -> pre <> []).
Proof.
  intros c ranges hi. induction hi as [| hi IH]; intros lo s k rest Hc H; cbn in H.
  - destruct lo; [| discriminate]. exists [], s. repeat split; auto; congruence.
  - assert (Hstop : match lo with O => k s | S _ => None end = Some rest ->
                    exists pre s', s = pre ++ s' /\ Forall (fun x => x <> c) pre
                                   /\ k s' = Some rest /\ (lo <> O -> pre <> [])).
    { intro Hs. destruct lo; [| discriminate].
      exists [], s. repeat split; auto; congruence. }
    destruct s as [| x s']; [now apply Hstop |].
    destruct (in_ranges ranges x) eqn:Ex; [| now apply Hstop].
    destruct (Regex.rep ranges (pred lo) hi s' k) eqn:Er; [| now apply Hstop].
    inversion H; subst w.
    destruct (IH _ _ _ _ Hc Er) as (pre & s'' & -> & Hpre & Hk & _).
    exists (x :: pre), s''. repeat split; auto; [| discriminate].
    constructor; [| assumption]. intros ->. congruence.
Qed.

Lemma rmatch_consumed :
  forall (c : wchar_t) (r : regex) (s : wstring) (k : wstring -> option wstring)
         (rest : wstring),
    Regex.avoids c r = true ->
    rmatch r s k = Some rest ->
    exists pre s', s = pre ++ s' /\ Forall (fun x => x <> c) pre
                   /\ k s' = Some rest /\ (Regex.consumes r = true -> pre <> []).
Proof.
  intros c r. induction r as [| | x | ranges | r1 IH1 r2 IH2 | r1 IH1 r2 IH2 | ranges lo hi];
    intros s k rest Ha H; cbn in H, Ha.
  - discriminate.
  - exists [], s. repeat split; auto. cbn. discriminate.
  - destruct s as [| y s']; [discriminate |].
    destruct (y =? x) eqn:E; [| discriminate]. apply Z.eqb_eq in E; subst y.
    exists [x], s'. repeat split; auto; [| discriminate].
    constructor; [| constructor]. intros ->. rewrite Z.eqb_refl in Ha. discriminate.
  - destruct s as [| y s']; [discriminate |].
    destruct (in_ranges ranges y) eqn:E; [| discriminate].
    exists [y], s'. repeat split; auto; [| discriminate].
    constructor; [| constructor]. intros ->. rewrite E in Ha. discriminate.
  - apply andb_true_iff in Ha as [Ha1 Ha2].
    destruct (IH1 _ _ _ Ha1 H) as (pre1 & s1 & -> & Hp1 & Hk1 & Hc1).
    destruct (IH2 _ _ _ Ha2 Hk1) as (pre2 & s2 & -> & Hp2 & Hk2 & Hc2).
    exists (pre1 ++ pre2), s2. rewrite <- app_assoc. repeat split; auto.
    + apply Forall_app; auto.
    + cbn. intros Hc Hnil. apply app_eq_nil in Hnil as [-> ->].
      apply orb_true_iff in Hc as [Hc | Hc]; [now apply Hc1 | now apply Hc2].
  - apply andb_true_iff in Ha as [Ha1 Ha2].
    destruct (rmatch r1 s k) eqn:E1.
    + inversion H; subst w.
      destruct (IH1 _ _ _ Ha1 E1) as (pre & s' & -> & Hp & Hk & Hc).
      exists pre, s'. repeat split; auto.
      cbn. intro Hb. apply andb_true_iff in Hb as [Hb _]. auto.
    + destruct (IH2 _ _ _ Ha2 H) as (pre & s' & -> & Hp & Hk & Hc).
      exists pre, s'. repeat split; auto.
      cbn. intro Hb. apply andb_true_iff in Hb as [_ Hb]. auto.
  - apply negb_true_iff in Ha.
    destruct (rep_consumed c ranges hi lo s k rest Ha H) as (pre & s' & -> & Hp & Hk & Hc).
    exists pre, s'. repeat split; auto.
    cbn. intro Hlo. apply Hc. destruct lo; [discriminate | discriminate].
Qed.

(** What a match tells: its length counts the escape and at least one more
    character, it stays inside the string, and none of the characters after
    the escape is another escape. *)
Lemma regex_search_match :
  forall (s : wstring) (len : Z),
    regex_search s = Some len ->
    exists s', s = VIRTUAL_TERMINAL_SEQUENCE_ESCAPE :: s'
               /\ 2 <= len <= vec_size s
               /\ Forall (fun x => x <> VIRTUAL_TERMINAL_SEQUENCE_ESCAPE)
                    (firstn (Z.to_nat (len - 1)) s').
Proof.
  intros s len H. unfold regex_search in H.
  destruct (rmatch TERMINAL_SEQUENCE_REGEX s (fun rest => Some rest)) as [rest |] eqn:E;
    [| discriminate].
  inversion H; subst len; clear H.
  unfold TERMINAL_SEQUENCE_REGEX in E. cbn [rmatch] in E.
  destruct s as [| x s']; [discriminate |].
  destruct (x =? VIRTUAL_TERMINAL_SEQUENCE_ESCAPE) eqn:Ex; [| discriminate].
  apply Z.eqb_eq in Ex; subst x.
  destruct (rmatch_consumed VIRTUAL_TERMINAL_SEQUENCE_ESCAPE TERMINAL_SEQUENCE_TAIL
              s' (fun rest => Some rest) rest eq_refl E)
    as (pre & s'' & -> & Hpre & Hk & Hc).
  inversion Hk; subst s''.
  assert (Hne : pre <> []) by (apply Hc; reflexivity).
  exists (pre ++ rest). split; [reflexivity |].
  unfold vec_size. cbn [length]. rewrite length_app.
  assert (Hlen : (0 < length pre)%nat) by (destruct pre; [congruence | cbn; lia]).
  split; [lia |].
  replace (Z.to_nat (Z.of_nat (S (length pre + length rest)) - Z.of_nat (length rest) - 1))
    with (length pre + 0)%nat by lia.
  rewrite firstn_app_2. cbn. now rewrite app_nil_r.
Qed.

(** ** One iteration of the loop of [print] *)

Import OutputBuffer.

(** What an iteration does to the local variables. *)
Lemma print_char_locals :
  forall addToBuffer startY maxWindowX currentChar suffix bd loc bd' loc',
    print_char addToBuffer startY maxWindowX currentChar suffix (bd, loc) = Ok (bd', loc') ->
    let scanned := scan_sequence currentChar suffix loc in
    isDetectedTerminalSequence loc' = fst scanned
    /\ termSeqEndPos loc' = snd scanned
    /\ strPos loc' = strPos loc + 1
    /\ strLength loc' = to_DWORD (strLength loc + 1)
    /\ newlineCount loc'
       = (if currentChar =? NEWLINE then to_short (newlineCount loc + 1)
          else newlineCount loc)
    /\ (if addToBuffer
        then (currentCursorPos loc', termSeqLength loc')
             = advance_cursor maxWindowX currentChar (fst scanned)
                 (currentCursorPos loc) (termSeqLength loc)
        else bd' = bd /\ currentCursorPos loc' = currentCursorPos loc
             /\ termSeqLength loc' = termSeqLength loc
             /\ atEndOfBuffer loc' = atEndOfBuffer loc).
Proof.
  intros addToBuffer startY maxWindowX currentChar suffix bd loc bd' loc' H scanned.
  unfold print_char in H. fold scanned in H.
  destruct scanned as [detected endPos] eqn:Es. destruct addToBuffer.
  - inv_bind H as [[[bd1 cur1] seqLen1] atEnd1] E.
    inv_bind E as [bd2 atEnd] E'.
    destruct (advance_cursor maxWindowX currentChar detected (currentCursorPos loc)
                (termSeqLength loc)) as [cur' seqLen'] eqn:Ea.
    inversion E; subst. inversion H; subst. cbn. rewrite Ea.
    repeat split; reflexivity.
  - cbn [bind] in H. inversion H; subst. cbn. repeat split; reflexivity.
Qed.

(** Without tracking an iteration cannot fail. *)
Lemma print_char_untracked :
  forall startY maxWindowX currentChar suffix acc,
    exists loc', print_char false startY maxWindowX currentChar suffix acc
                 = Ok (fst acc, loc').
Proof.
  intros startY maxWindowX currentChar suffix [bd loc]. unfold print_char.
  destruct (scan_sequence currentChar suffix loc) as [detected endPos].
  cbn. eexists. reflexivity.
Qed.

Lemma Forall_firstn_tail :
  forall (P : wchar_t -> Prop) (n : Z) (c : wchar_t) (s : wstring),
    Forall P (firstn (Z.to_nat n) (c :: s)) ->
    Forall P (firstn (Z.to_nat (n - 1)) s).
Proof.
  intros P n c s H.
  destruct (Z_le_gt_dec n 0) as [Hn | Hn].
  - replace (Z.to_nat (n - 1)) with O by lia. constructor.
  - replace (Z.to_nat n) with (S (Z.to_nat (n - 1))) in H by lia.
    cbn in H. now inversion H.
Qed.

(** [quiet_ahead] holds all along the loop. *)
Lemma print_char_quiet_ahead :
  forall addToBuffer startY maxWindowX currentChar rest bd loc bd' loc',
    quiet_ahead loc (currentChar :: rest) ->
    print_char addToBuffer startY maxWindowX currentChar (currentChar :: rest) (bd, loc)
    = Ok (bd', loc') ->
    quiet_ahead loc' rest.
Proof.
  intros addToBuffer startY maxWindowX c rest bd loc bd' loc' Hq H.
  apply print_char_locals in H. cbv zeta in H.
  destruct H as (Hdet & Hend & Hpos & _).
  unfold quiet_ahead. rewrite Hdet, Hend, Hpos. unfold scan_sequence.
  set (detected := if isDetectedTerminalSequence loc && (strPos loc >? termSeqEndPos loc)
                   then false else isDetectedTerminalSequence loc).
  assert (Hold : detected = true ->
                 Forall (fun x => x <> VIRTUAL_TERMINAL_SEQUENCE_ESCAPE)
                   (firstn (Z.to_nat (termSeqEndPos loc - (strPos loc + 1) + 1)) rest)).
  { unfold detected. intro Hd.
    destruct (isDetectedTerminalSequence loc) eqn:Ei; [| discriminate].
    replace (termSeqEndPos loc - (strPos loc + 1) + 1)
      with (termSeqEndPos loc - strPos loc + 1 - 1) by lia.
    apply Forall_firstn_tail with (c := c). now apply Hq. }
  destruct (c =? VIRTUAL_TERMINAL_SEQUENCE_ESCAPE) eqn:Ec; [| exact Hold].
  destruct (regex_search (c :: rest)) as [len |] eqn:Er; [| exact Hold].
  cbn [fst snd]. intros _.
  apply regex_search_match in Er. destruct Er as (s' & Hs & Hlen & Hquiet).
  inversion Hs; subst s'.
  replace (strPos loc + len - 1 - (strPos loc + 1) + 1) with (len - 1) by lia.
  exact Hquiet.
Qed.

Lemma print_prefix_quiet_ahead :
  forall addToBuffer startY maxWindowX pre rest acc acc',
    quiet_ahead (snd acc) (pre ++ rest) ->
    print_prefix addToBuffer startY maxWindowX pre rest acc = Ok acc' ->
    quiet_ahead (snd acc') rest.
Proof.
  intros addToBuffer startY maxWindowX pre. induction pre as [| c pre IH];
    intros rest acc acc' Hq H; cbn in H.
  - inversion H; subst. exact Hq.
  - inv_bind H as [bd1 loc1] E. destruct acc as [bd loc].
    apply (IH rest (bd1, loc1) acc'); [| exact H].
    cbn [snd] in *. eapply print_char_quiet_ahead; eauto.
Qed.

(** The loop is the loop over a prefix, then the loop over the rest. *)
Lemma print_loop_app :
  forall addToBuffer startY maxWindowX pre rest acc,
    print_loop addToBuffer startY maxWindowX (pre ++ rest) acc
    = (acc' <- print_prefix addToBuffer startY maxWindowX pre rest acc ;;
       print_loop addToBuffer startY maxWindowX rest acc').
Proof.
  intros addToBuffer startY maxWindowX pre. induction pre as [| c pre IH];
    intros rest acc; cbn; [reflexivity |].
  destruct (print_char addToBuffer startY maxWindowX c (c :: pre ++ rest) acc);
    cbn; [apply IH | reflexivity].
Qed.

(** C9.  The scanner answers for every string, with no match or with a
    length that lies inside the string.  When the loop of [print] reaches an
    escape character at which the scanner finds no match, the character is
    not taken for a sequence ([isDetectedTerminalSequence] is false after the
    scan), and the iteration, when the text is tracked, moves the simulated
    cursor by exactly one column: one to the right, or to the start of the
    next row at the window width.  Without tracking the iteration cannot
    fail. *)
Theorem unmatched_escape_takes_one_column :
  (forall s : wstring,
      regex_search s = None
      \/ exists len, regex_search s = Some len /\ 2 <= len <= vec_size s)
  /\
  (forall addToBuffer startY maxWindowX pre rest bd0 cursor bd loc,
      regex_search (VIRTUAL_TERMINAL_SEQUENCE_ESCAPE :: rest) = None ->
      print_prefix addToBuffer startY maxWindowX pre
        (VIRTUAL_TERMINAL_SEQUENCE_ESCAPE :: rest) (bd0, initLocals cursor)
      = Ok (bd, loc) ->
      let step := print_char addToBuffer startY maxWindowX VIRTUAL_TERMINAL_SEQUENCE_ESCAPE
                    (VIRTUAL_TERMINAL_SEQUENCE_ESCAPE :: rest) (bd, loc) in
      fst (scan_sequence VIRTUAL_TERMINAL_SEQUENCE_ESCAPE
             (VIRTUAL_TERMINAL_SEQUENCE_ESCAPE :: rest) loc) = false
      /\ (addToBuffer = false -> exists loc', step = Ok (bd, loc'))
      /\ (forall bd' loc',
             addToBuffer = true -> step = Ok (bd', loc') ->
             isDetectedTerminalSequence loc' = false
             /\ termSeqLength loc' = 0
             /\ currentCursorPos loc'
                = (let x := to_short (X (currentCursorPos loc) + 1) in
                   if x =? maxWindowX
                   then mkCOORD 0 (to_short (Y (currentCursorPos loc) + 1))
                   else mkCOORD x (Y (currentCursorPos loc))))).
Proof.
  split.
  - intro s. destruct (regex_search s) as [len |] eqn:E; [| now left].
    right. exists len. split; [reflexivity |].
    apply regex_search_match in E. destruct E as (s' & _ & Hlen & _). exact Hlen.
  - intros addToBuffer startY maxWindowX pre rest bd0 cursor bd loc Hnone Hpre step.
    assert (Hq : quiet_ahead loc (VIRTUAL_TERMINAL_SEQUENCE_ESCAPE :: rest)).
    { apply (print_prefix_quiet_ahead addToBuffer startY maxWindowX pre
               (VIRTUAL_TERMINAL_SEQUENCE_ESCAPE :: rest) (bd0, initLocals cursor)
               (bd, loc)); [| exact Hpre].
      cbn. intro Hd. discriminate. }
    assert (Hscan : fst (scan_sequence VIRTUAL_TERMINAL_SEQUENCE_ESCAPE
                           (VIRTUAL_TERMINAL_SEQUENCE_ESCAPE :: rest) loc) = false).
    { unfold scan_sequence. rewrite Z.eqb_refl, Hnone. cbn [fst].
      destruct (isDetectedTerminalSequence loc) eqn:Ei; [| reflexivity].
      cbn [andb]. destruct (strPos loc >? termSeqEndPos loc) eqn:Ep; [reflexivity |].
      exfalso. specialize (Hq Ei).
      assert (Hle : strPos loc <= termSeqEndPos loc).
      { destruct (Z_le_gt_dec (strPos loc) (termSeqEndPos loc)) as [Hle | Hgt];
          [exact Hle |].
        assert (Hb : (strPos loc >? termSeqEndPos loc) = true)
          by (apply Z.gtb_lt; lia).
        congruence. }
      replace (Z.to_nat (termSeqEndPos loc - strPos loc + 1))
        with (S (Z.to_nat (termSeqEndPos loc - strPos loc))) in Hq by lia.
      cbn in Hq. inversion Hq. congruence. }
    split; [exact Hscan | split].
    + intros ->. destruct (print_char_untracked startY maxWindowX
                             VIRTUAL_TERMINAL_SEQUENCE_ESCAPE
                             (VIRTUAL_TERMINAL_SEQUENCE_ESCAPE :: rest) (bd, loc))
        as [loc' Hok]. exists loc'. exact Hok.
    + intros bd' loc' -> Hstep. apply print_char_locals in Hstep. cbv zeta in Hstep.
      destruct Hstep as (Hdet & _ & _ & _ & _ & Hadv).
      rewrite Hscan in Hdet, Hadv. unfold advance_cursor in Hadv.
      change (VIRTUAL_TERMINAL_SEQUENCE_ESCAPE =? NEWLINE) with false in Hadv.
      cbv zeta in Hadv. repeat split; [exact Hdet | |].
      * destruct (to_short (X (currentCursorPos loc) + 1) =? maxWindowX);
          inversion Hadv; reflexivity.
      * cbv zeta. destruct (to_short (X (currentCursorPos loc) + 1) =? maxWindowX);
          inversion Hadv; reflexivity.
Qed.

Lemma unmatched_escape_takes_one_column_witness :
  fst (scan_sequence Samples.ESC [Samples.ESC; 10]
         (initLocals (mkCOORD 0 0))) = false.
Proof.
  exact (proj1 (proj2 unmatched_escape_takes_one_column true 0 80 [] [10]
                  (newBufferData 7) (mkCOORD 0 0) (newBufferData 7)
                  (initLocals (mkCOORD 0 0)) eq_refl eq_refl)).
Defined.

(** ** The loop of [print] as a whole *)

Lemma only_lines_differ_refl : forall bd, only_lines_differ bd bd.
Proof. intros []. reflexivity. Qed.

Lemma only_lines_differ_trans :
  forall a b c, only_lines_differ a b -> only_lines_differ b c -> only_lines_differ a c.
Proof.
  unfold only_lines_differ. intros a b c Hab Hbc. rewrite Hbc at 1. rewrite Hab at 1.
  destruct a. reflexivity.
Qed.

Lemma store_char_frame :
  forall startY currentChar detected loc bd bd' atEnd,
    store_char startY currentChar detected loc bd = Ok (bd', atEnd) ->
    only_lines_differ bd bd'.
Proof.
  intros startY currentChar detected loc bd bd' atEnd H. unfold store_char in H.
  inv_bind H as bd1 E1. inv_bind H as line E2. inv_bind H as cp E3.
  inv_bind H as [line1 cp1] E4. inv_bind H as [line2 cp2] E5.
  inv_bind H as contents' E6. inv_bind H as cursorData' E7.
  inversion H; subst. unfold grow_rows in E1.
  destruct (to_short (Y (currentCursorPos loc) - startY) <? 0); [discriminate |].
  inversion E1; subst. destruct bd. reflexivity.
Qed.

Lemma print_char_frame :
  forall addToBuffer startY maxWindowX currentChar suffix bd loc bd' loc',
    print_char addToBuffer startY maxWindowX currentChar suffix (bd, loc) = Ok (bd', loc') ->
    only_lines_differ bd bd'.
Proof.
  intros addToBuffer startY maxWindowX currentChar suffix bd loc bd' loc' H.
  unfold print_char in H.
  destruct (scan_sequence currentChar suffix loc) as [detected endPos].
  destruct addToBuffer.
  - inv_bind H as [[[bd1 cur1] seqLen1] atEnd1] E.
    inv_bind E as [bd2 atEnd] E'.
    destruct (advance_cursor maxWindowX currentChar detected (currentCursorPos loc)
                (termSeqLength loc)).
    inversion E; subst. inversion H; subst. eapply store_char_frame; eauto.
  - cbn [bind] in H. inversion H; subst. apply only_lines_differ_refl.
Qed.

(** The loop changes nothing of the screen but its lines, and counts the
    line feeds in 16 bits. *)
Lemma print_loop_result :
  forall addToBuffer startY maxWindowX s bd loc bd' loc',
    -32768 <= newlineCount loc <= 32767 ->
    print_loop addToBuffer startY maxWindowX s (bd, loc) = Ok (bd', loc') ->
    only_lines_differ bd bd'
    /\ newlineCount loc' = to_short (newlineCount loc + count_newlines s)
    /\ (addToBuffer = false -> bd' = bd).
Proof.
  intros addToBuffer startY maxWindowX s. induction s as [| c s IH];
    intros bd loc bd' loc' Hrange H; cbn in H.
  - inversion H; subst. split; [apply only_lines_differ_refl |].
    cbn. rewrite Z.add_0_r, to_short_id by lia. auto.
  - inv_bind H as [bd1 loc1] E.
    pose proof (print_char_frame _ _ _ _ _ _ _ _ _ E) as Hf1.
    apply print_char_locals in E. cbv zeta in E.
    destruct E as (_ & _ & _ & _ & Hnl & Hadd).
    assert (Hrange1 : -32768 <= newlineCount loc1 <= 32767).
    { rewrite Hnl. destruct (c =? NEWLINE); [apply to_short_range | exact Hrange]. }
    destruct (IH _ _ _ _ Hrange1 H) as (Hf2 & Hn & Hsame).
    split; [eapply only_lines_differ_trans; eauto |]. split.
    + rewrite Hn, Hnl. cbn [count_newlines].
      destruct (c =? NEWLINE).
      * rewrite to_short_add_l. f_equal. lia.
      * reflexivity.
    + intros ->. destruct Hadd as (-> & _). now apply Hsame.
Qed.

(** Without tracking the loop cannot fail. *)
Lemma print_loop_untracked :
  forall startY maxWindowX s acc,
    exists loc', print_loop false startY maxWindowX s acc = Ok (fst acc, loc').
Proof.
  intros startY maxWindowX s. induction s as [| c s IH]; intros [bd loc];
    cbn [print_loop fst].
  - eexists. reflexivity.
  - destruct (print_char_untracked startY maxWindowX c (c :: s) (bd, loc)) as [loc1 ->].
    cbn [bind fst]. apply (IH (bd, loc1)).
Qed.

(** ** Scroll bookkeeping *)

Section ScrollBookkeeping.

Context {host : Type} {win : WinConsole host}.
Variable programSettings : ProgramSettings.

Local Abbreviation current st := (getCurrentBufferData programSettings st false).

(** What [print] comes to: the loop gives the current screen other lines and
    counts the line feeds, then the text is written and the scroll tracked. *)
Lemma print_inv :
  forall st str addToBuffer st',
    print programSettings st str addToBuffer = Ok st' ->
    exists lines cursorData loc,
      newlineCount loc = to_short (count_newlines (c_str str))
      /\ (addToBuffer = false ->
          lines = contents (current st) /\ cursorData = contentsCursorData (current st))
      /\ st' = write_and_track_scroll programSettings
                 (update_current (fun bd => set_lines bd lines cursorData) st)
                 (c_str str) loc.
Proof.
  intros st str addToBuffer st' H. unfold print in H.
  inv_bind H as [bd loc] E. inversion H; subst st'; clear H.
  apply print_loop_result in E; [| cbn; lia].
  destruct E as (Hf & Hn & Hsame).
  exists (contents bd), (contentsCursorData bd), loc. split; [exact Hn |]. split.
  - intros Hadd. rewrite (Hsame Hadd). auto.
  - f_equal. unfold only_lines_differ in Hf. unfold update_current.
    unfold getCurrentBufferData in Hf. cbn [andb] in Hf.
    rewrite andb_false_r in Hf.
    destruct (altBufferData st); rewrite <- Hf; reflexivity.
Qed.

(** Without tracking [print] cannot fail. *)
Lemma print_untracked :
  forall st str, exists st', print programSettings st str false = Ok st'.
Proof.
  intros st str. unfold print.
  destruct (print_loop_untracked
              (Y (cursorStartPos (getCurrentBufferData programSettings st true)))
              (to_short (GetMaximumWindowSizeX (console st) (handle (current st))))
              (c_str str) (current st, initLocals (getCursorPos programSettings st)))
    as [loc ->].
  cbn. eexists. reflexivity.
Qed.

(** Giving the current screen other lines moves no bookkeeping. *)
Lemma set_lines_bookkeeping :
  forall (st : @t host) lines cursorData,
    let st1 := update_current (fun bd => set_lines bd lines cursorData) st in
    map bookkeeping (screens st1) = map bookkeeping (screens st)
    /\ console st1 = console st
    /\ getBufferHandle programSettings st1 = getBufferHandle programSettings st
    /\ bookkeeping (current st1) = bookkeeping (current st)
    /\ cursorStartPos (getCurrentBufferData programSettings st1 true)
       = cursorStartPos (getCurrentBufferData programSettings st true).
Proof.
  intros [main alt con] lines cursorData.
  unfold update_current, getBufferHandle, getCurrentBufferData, screens.
  destruct (useCustomBufferBehavior programSettings), alt as [| top rest]; cbn;
    repeat split; try reflexivity.
  all: rewrite !map_app; reflexivity.
Qed.

(** Nor does the write to the console. *)
Lemma writeToConsole_buffers :
  forall (st : @t host) str strLength,
    let st1 := writeToConsole programSettings st str strLength in
    mainBufferData st1 = mainBufferData st /\ altBufferData st1 = altBufferData st.
Proof.
  intros st str strLength. unfold writeToConsole.
  destruct (strLength =? 0); split; reflexivity.
Qed.

(** What the bookkeeping does, and that it leaves the console alone. *)
Lemma scroll_bookkeeping_effect :
  forall (st : @t host) (scrolledLines : Z),
    let st' := scroll_bookkeeping programSettings st scrolledLines in
    getCursorPos programSettings st' = getCursorPos programSettings st
    /\ cursorScrollOffset (current st')
       = to_short (cursorScrollOffset (current st) + scrolledLines)
    /\ cursorStartPos (mainBufferData st')
       = (if useCustomBufferBehavior programSettings
          then decrease_row scrolledLines (cursorStartPos (mainBufferData st))
          else cursorStartPos (mainBufferData st))
    /\ savedCursors (current st')
       = map (decrease_row scrolledLines) (savedCursors (current st)).
Proof.
  intros [main alt con] scrolledLines.
  unfold scroll_bookkeeping, getCursorPos, getBufferHandle, getCurrentBufferData,
    update_current, update_main.
  destruct (useCustomBufferBehavior programSettings), alt as [| top rest]; cbn;
    repeat split; reflexivity.
Qed.

(** C1, amended.  A call of [print] on a string with at least one and at
    most 32767 line feeds reads the row of the cursor before and after the
    write, sets scrolled = newlines - (rowAfter - rowBefore) in 16-bit
    arithmetic, and, exactly when scrolled > 0 and the start row of the screen
    whose handle is in use is > 0, adds scrolled to the scroll offset of the
    current screen, lowers the start row of the primary screen by scrolled,
    not below 0, in virtualized mode (and leaves it alone otherwise), and
    lowers the row of every saved cursor of the current screen by scrolled,
    not below 0.  Otherwise, and on a string without a line feed, the scroll
    offset, start position and saved cursors of every screen stay as they
    were. *)
Theorem print_scroll_bookkeeping :
  forall st str addToBuffer st',
    print programSettings st str addToBuffer = Ok st' ->
    let newlines := count_newlines (c_str str) in
    (0 < newlines <= SHRT_MAX ->
     let rowBefore := Y (getCursorPos programSettings st) in
     let rowAfter := Y (getCursorPos programSettings st') in
     let scrolled := to_short (newlines - (rowAfter - rowBefore)) in
     if (scrolled >? 0)
        && (Y (cursorStartPos (getCurrentBufferData programSettings st true)) >? 0)
     then
       cursorScrollOffset (current st')
       = to_short (cursorScrollOffset (current st) + scrolled)
       /\ cursorStartPos (mainBufferData st')
          = (if useCustomBufferBehavior programSettings
             then mkCOORD (X (cursorStartPos (mainBufferData st)))
                    (Z.max (to_short (Y (cursorStartPos (mainBufferData st)) - scrolled)) 0)
             else cursorStartPos (mainBufferData st))
       /\ savedCursors (current st')
          = map (fun c => mkCOORD (X c) (Z.max (to_short (Y c - scrolled)) 0))
              (savedCursors (current st))
     else map bookkeeping (screens st') = map bookkeeping (screens st))
    /\ (newlines = 0 -> map bookkeeping (screens st') = map bookkeeping (screens st)).
Proof.
  intros st str addToBuffer st' H newlines.
  apply print_inv in H. destruct H as (lines & cursorData & loc & Hn & _ & ->).
  fold newlines in Hn.
  pose proof (set_lines_bookkeeping st lines cursorData) as Hst1. cbv zeta in Hst1.
  set (st1 := update_current (fun bd => set_lines bd lines cursorData) st) in *.
  destruct Hst1 as (Hscreens & Hcon & Hhandle & Hcur & Hstart).
  assert (Hpos : getCursorPos programSettings st1 = getCursorPos programSettings st).
  { unfold getCursorPos. now rewrite Hcon, Hhandle. }
  unfold write_and_track_scroll. split.
  - intros Hrange. unfold SHRT_MAX in Hrange. rewrite to_short_id in Hn by lia.
    assert (Hgt : (newlineCount loc >? 0) = true) by (apply Z.gtb_lt; lia).
    rewrite Hgt, Hn, Hpos.
    set (st2 := writeToConsole programSettings st1 (c_str str) (strLength loc)).
    destruct (writeToConsole_buffers st1 (c_str str) (strLength loc)) as [Hmain Halt].
    fold st2 in Hmain, Halt.
    assert (Hstart2 : cursorStartPos (getCurrentBufferData programSettings st2 true)
                      = cursorStartPos (getCurrentBufferData programSettings st true)).
    { rewrite <- Hstart. unfold getCurrentBufferData. now rewrite Hmain, Halt. }
    assert (Hcur2 : current st2 = current st1).
    { unfold getCurrentBufferData. now rewrite Hmain, Halt. }
    rewrite Hstart2.
    set (k := to_short (newlines - (Y (getCursorPos programSettings st2)
                                    - Y (getCursorPos programSettings st)))).
    destruct (scroll_bookkeeping_effect st2 k) as (Hpos3 & Hoff & Hsp & Hsaved).
    cbv zeta.
    destruct ((k >? 0)
              && (Y (cursorStartPos (getCurrentBufferData programSettings st true)) >? 0))
      eqn:Econd.
    + rewrite Hpos3. fold k. rewrite Econd.
      rewrite Hoff, Hsp, Hsaved, Hcur2, Hmain.
      unfold bookkeeping in Hcur. inversion Hcur as [[Ho Hs Hc]].
      rewrite Ho, Hc. unfold decrease_row.
      assert (Hm : cursorStartPos (mainBufferData st1) = cursorStartPos (mainBufferData st)).
      { unfold screens in Hscreens. cbn [map] in Hscreens.
        inversion Hscreens as [[Hb _]]. unfold bookkeeping in Hb.
        now inversion Hb. }
      rewrite Hm. repeat split; reflexivity.
    + fold k. rewrite Econd. unfold screens in *. rewrite Hmain, Halt. exact Hscreens.
  - intros Hzero. rewrite Hzero in Hn. cbn in Hn. rewrite Hn. cbn.
    destruct (writeToConsole_buffers st1 (c_str str) (strLength loc)) as [Hmain Halt].
    unfold screens in *. rewrite Hmain, Halt. exact Hscreens.
Qed.

End ScrollBookkeeping.

(** On the last row of the window, with the screen starting at row 5, 32768
    line feeds scroll the window and leave the cursor on its row, so that
    newlines - (rowAfter - rowBefore) = 32768 > 0; but the 16-bit counter
    [newlineCount] has wrapped around to -32768, [print] takes the branch of a
    string without a line feed, and the scroll offset stays at 0. *)
Lemma print_32768_line_feeds_untracked :
  exists st',
    print Samples.settings Samples.bottom_row_engine Samples.many_line_feeds false = Ok st'
    /\ count_newlines (c_str Samples.many_line_feeds) = 32768
    /\ Y (getCursorPos Samples.settings st')
       = Y (getCursorPos Samples.settings Samples.bottom_row_engine)
    /\ Y (cursorStartPos
            (getCurrentBufferData Samples.settings Samples.bottom_row_engine true)) = 5
    /\ getCursorScrollOffset Samples.settings Samples.bottom_row_engine = 0
    /\ getCursorScrollOffset Samples.settings st' = 0.
Proof.
  eexists. split; [vm_compute; reflexivity |].
  split; [vm_compute; reflexivity |]. split; [vm_compute; reflexivity |].
  split; [vm_compute; reflexivity |]. split; vm_compute; reflexivity.
Qed.

Lemma print_scroll_bookkeeping_witness :
  cursorScrollOffset (getCurrentBufferData Samples.settings Samples.after_line_feed false)
  = 1.
Proof.
  assert (Hp : print Samples.settings Samples.bottom_row_engine [NEWLINE; NUL] false
               = Ok Samples.after_line_feed) by (vm_compute; reflexivity).
  pose proof (print_scroll_bookkeeping Samples.settings Samples.bottom_row_engine
                [NEWLINE; NUL] false Samples.after_line_feed Hp) as H.
  destruct H as [H _].
  assert (Hr : 0 < count_newlines (c_str [NEWLINE; NUL]) <= SHRT_MAX)
    by (cbn; unfold SHRT_MAX; lia).
  specialize (H Hr). vm_compute in H. vm_compute. exact (proj1 H).
Defined.

(** ** Alternate buffers *)

Section AlternateBuffers.

Context {host : Type} {win : WinConsole host}.
Variable programSettings : ProgramSettings.

Lemma cons_eq_inv :
  forall (A : Type) (a b : A) (l l' : list A), a :: l = b :: l' -> a = b /\ l = l'.
Proof. intros A a b l l' H. inversion H. auto. Qed.

Lemma records_eq_inv :
  forall (s s' : @t host),
    records s = records s' ->
    recorded (mainBufferData s) = recorded (mainBufferData s')
    /\ map recorded (altBufferData s) = map recorded (altBufferData s').
Proof. intros s s' H. unfold records in H. now apply pair_equal_spec in H. Qed.

Lemma scroll_bookkeeping_records :
  forall (st : @t host) (scrolledLines : Z),
    records (scroll_bookkeeping programSettings st scrolledLines) = records st.
Proof.
  intros [main alt con] scrolledLines.
  unfold scroll_bookkeeping, update_current, update_main, records.
  destruct (useCustomBufferBehavior programSettings), alt as [| top rest]; reflexivity.
Qed.

Lemma write_and_track_scroll_records :
  forall (st : @t host) str loc,
    records (write_and_track_scroll programSettings st str loc) = records st.
Proof.
  intros st str loc. unfold write_and_track_scroll.
  assert (Hw : records (writeToConsole programSettings st str (strLength loc)) = records st).
  { unfold writeToConsole. destruct (strLength loc =? 0); reflexivity. }
  destruct (newlineCount loc >? 0); [| exact Hw].
  match goal with |- records (if ?c then _ else _) = _ => destruct c end;
    [rewrite scroll_bookkeeping_records |]; exact Hw.
Qed.

(** A write that is not tracked succeeds and leaves every record alone. *)
Lemma print_untracked_records :
  forall (st : @t host) str,
    exists st', print programSettings st str false = Ok st' /\ records st' = records st.
Proof.
  intros st str. destruct (print_untracked programSettings st str) as [st' H].
  exists st'. split; [exact H |].
  apply print_inv in H. destruct H as (lines & cursorData & loc & _ & Hsame & ->).
  destruct (Hsame eq_refl) as [-> ->].
  rewrite write_and_track_scroll_records.
  destruct st as [main alt con]. unfold update_current, getCurrentBufferData, records.
  rewrite andb_false_r. cbn.
  destruct alt as [| top rest]; cbn; [destruct main | destruct top]; reflexivity.
Qed.

Lemma setCursorPos_records :
  forall (st : @t host) (c : COORD),
    records (fst (setCursorPos programSettings st c)) = records st.
Proof.
  intros st c. unfold setCursorPos.
  destruct (SetConsoleCursorPosition (console st) (getBufferHandle programSettings st) c).
  reflexivity.
Qed.

Lemma clear_keep_records :
  forall (st : @t host) (resetCursorPos : bool),
    exists st', clear programSettings st false resetCursorPos = Ok st'
                /\ records st' = records st.
Proof.
  intros st resetCursorPos. unfold clear.
  match goal with |- exists st', print _ ?s _ _ = _ /\ _ =>
    destruct (print_untracked_records s (getVirtualTerminalSequence (L "[0J")))
      as (st' & Hp & Hr)
  end.
  exists st'. split; [exact Hp |]. rewrite Hr.
  destruct resetCursorPos; [apply setCursorPos_records | reflexivity].
Qed.

(** [clear(true)] on an alternate screen empties that screen only. *)
Lemma clear_top_records :
  forall (st : @t host) top rest,
    altBufferData st = top :: rest ->
    exists st' top' rest',
      clear programSettings st true true = Ok st'
      /\ altBufferData st' = top' :: rest'
      /\ recorded (mainBufferData st') = recorded (mainBufferData st)
      /\ map recorded rest' = map recorded rest.
Proof.
  intros st top rest Halt. unfold clear.
  set (st1 := update_current (fun bd => set_lines bd [] []) st).
  assert (H1 : records st1 = (recorded (mainBufferData st),
                              recorded (set_lines top [] []) :: map recorded rest)).
  { unfold st1, update_current, records. rewrite Halt. reflexivity. }
  match goal with |- exists st' top' rest', print _ ?s _ _ = _ /\ _ =>
    destruct (print_untracked_records s (getVirtualTerminalSequence (L "[0J")))
      as (st' & Hp & Hr)
  end.
  rewrite setCursorPos_records, H1 in Hr. unfold records in Hr.
  apply pair_equal_spec in Hr as [Hm Ha].
  destruct (altBufferData st') as [| top' rest'] eqn:E; [discriminate |].
  cbn [map] in Ha. apply cons_eq_inv in Ha as [_ Ha].
  exists st', top', rest'. repeat split; auto.
Qed.

Lemma replay_records :
  forall lines (st : @t host),
    exists st', replay programSettings lines st = Ok st' /\ records st' = records st.
Proof.
  induction lines as [| line rest IH]; intro st; cbn [replay].
  - exists st. split; reflexivity.
  - destruct (print_untracked_records st line) as (st1 & -> & H1). cbn [bind].
    destruct rest as [| line' rest'].
    + cbn [bind replay]. exists st1. split; [reflexivity | exact H1].
    + unfold println.
      destruct (print_untracked_records st1 [NEWLINE; NUL]) as (st2 & -> & H2).
      cbn [bind]. destruct (IH st2) as (st3 & -> & H3).
      exists st3. split; [reflexivity |]. congruence.
Qed.

Lemma synchronizeCursorVisibility_records :
  forall (st : @t host) visible,
    exists st', synchronizeCursorVisibility programSettings st visible false = Ok st'
                /\ records st' = records st.
Proof.
  intros st visible. unfold synchronizeCursorVisibility. apply print_untracked_records.
Qed.

(** C4, amended.  In virtualized mode [createAltBuffer] followed at once by
    [restorePreviousBuffer] both succeed and leave what the primary screen
    records (its lines, their column indices and the visibility of its
    cursor) exactly as it was; when the alternate buffer was created, the same
    holds of every alternate screen that was there before.  Nothing is said
    of the position of the cursor. *)
Theorem alt_buffer_round_trip_keeps_records :
  forall st : @t host,
    useCustomBufferBehavior programSettings = true ->
    exists st1 number st2 depth,
      createAltBuffer programSettings st = Ok (st1, number)
      /\ restorePreviousBuffer programSettings st1 = Ok (st2, depth)
      /\ recorded (mainBufferData st2) = recorded (mainBufferData st)
      /\ (number <> None -> records st2 = records st).
Proof.
  intros st Hcustom.
  assert (Hrestore : forall s : @t host, forall top rest,
            altBufferData s = top :: rest ->
            exists s' depth,
              restorePreviousBuffer programSettings s = Ok (s', depth)
              /\ recorded (mainBufferData s') = recorded (mainBufferData s)
              /\ map recorded (altBufferData s') = map recorded rest).
  { intros s top rest Halt. unfold restorePreviousBuffer. rewrite Halt, Hcustom.
    destruct (clear_top_records s top rest Halt)
      as (s1 & top1 & rest1 & -> & Halt1 & Hm1 & Hr1).
    cbn [bind]. rewrite Halt1. cbn [tl].
    set (s2 := mk (mainBufferData s1) rest1 (console s1)).
    destruct (replay_records
                (contents (getCurrentBufferData programSettings s2 false)) s2)
      as (s3 & -> & H3).
    cbn [bind].
    assert (Hs3 : recorded (mainBufferData s3) = recorded (mainBufferData s)
                  /\ map recorded (altBufferData s3) = map recorded rest).
    { apply records_eq_inv in H3 as [Hm Ha]. cbn in Hm, Ha.
      rewrite Hm, Ha. split; [exact Hm1 | exact Hr1]. }
    match goal with |- context [if ?c then _ else _] => destruct c end.
    - cbn [bind]. eexists. eexists. split; [reflexivity |]. exact Hs3.
    - destruct (synchronizeCursorVisibility_records s3
                  (cursorIsVisible (getCurrentBufferData programSettings s3 false)))
        as (s4 & -> & H4).
      cbn [bind]. eexists. eexists. split; [reflexivity |].
      apply records_eq_inv in H4 as [Hm Ha]. rewrite Hm, Ha. exact Hs3. }
  unfold createAltBuffer. rewrite Hcustom.
  destruct (CreateConsoleScreenBuffer (console st)) as [h newHandle].
  set (st0 := set_console st h).
  assert (H0 : records st0 = records st) by reflexivity.
  destruct (negb (newHandle =? NULL) && negb (newHandle =? INVALID_HANDLE_VALUE)).
  - destruct (clear_keep_records st0 true) as (sc & -> & Hc). cbn [bind].
    assert (Hpushed : exists s1, (if negb (cursorIsVisible
                                             (getCurrentBufferData programSettings sc false))
                                  then synchronizeCursorVisibility programSettings sc true false
                                  else Ok sc) = Ok s1
                                 /\ records s1 = records st).
    { destruct (negb (cursorIsVisible (getCurrentBufferData programSettings sc false))).
      - destruct (synchronizeCursorVisibility_records sc true) as (s1 & -> & H1).
        exists s1. split; [reflexivity | congruence].
      - exists sc. split; [reflexivity | congruence]. }
    destruct Hpushed as (s1 & -> & H1). cbn [bind].
    set (pushed := mk (mainBufferData s1) (newBufferData newHandle :: altBufferData s1)
                     (console s1)).
    destruct (Hrestore pushed (newBufferData newHandle) (altBufferData s1) eq_refl)
      as (s2 & depth & Hr & Hm & Ha).
    exists pushed, (Some (getCurrentBufferNum s1)), s2, depth.
    apply records_eq_inv in H1 as [Hm1 Ha1].
    split; [reflexivity |]. split; [exact Hr |]. split.
    + rewrite Hm. exact Hm1.
    + intros _. unfold records. rewrite Hm, Ha. cbn. now rewrite Hm1, Ha1.
  - destruct (altBufferData st0) as [| top rest] eqn:Halt.
    + exists st0, None, st0, (getCurrentBufferNum st0).
      split; [reflexivity |]. split.
      * unfold restorePreviousBuffer. rewrite Halt. reflexivity.
      * split; [reflexivity | congruence].
    + destruct (Hrestore st0 top rest Halt) as (s2 & depth & Hr & Hm & _).
      exists st0, None, s2, depth.
      split; [reflexivity |]. split; [exact Hr |]. split; [exact Hm | congruence].
Qed.

End AlternateBuffers.

Lemma alt_buffer_round_trip_keeps_records_witness :
  exists st1 number st2 depth,
    createAltBuffer Samples.settings Samples.cursor_moved_back = Ok (st1, number)
    /\ restorePreviousBuffer Samples.settings st1 = Ok (st2, depth)
    /\ recorded (mainBufferData st2) = recorded (mainBufferData Samples.cursor_moved_back)
    /\ (number <> None -> records st2 = records Samples.cursor_moved_back).
Proof.
  exact (alt_buffer_round_trip_keeps_records Samples.settings Samples.cursor_moved_back
           eq_refl).
Defined.

(** With [AB] on the first row and the cursor moved back to its start,
    [createAltBuffer] and [restorePreviousBuffer] print [AB] again and leave
    the cursor after it, in column 2. *)
Lemma alt_buffer_round_trip_moves_cursor :
  exists st1 number st2 depth,
    createAltBuffer Samples.settings Samples.cursor_moved_back = Ok (st1, number)
    /\ restorePreviousBuffer Samples.settings st1 = Ok (st2, depth)
    /\ contents (mainBufferData Samples.cursor_moved_back) = [L "AB"]
    /\ getCursorPos Samples.settings Samples.cursor_moved_back = mkCOORD 0 0
    /\ getCursorPos Samples.settings st2 = mkCOORD 2 0.
Proof.
  do 4 eexists. split; [vm_compute; reflexivity |].
  split; [vm_compute; reflexivity |]. split; [vm_compute; reflexivity |].
  split; vm_compute; reflexivity.
Qed.

(** ** The scroll offset of a screen *)

Lemma to_short_grows :
  forall x k,
    0 <= x <= SHRT_MAX -> 0 < k <= 32767 -> 0 <= to_short (x + k) ->
    x <= to_short (x + k).
Proof.
  unfold SHRT_MAX, to_short. intros x k Hx Hk Hy.
  destruct (Z_le_gt_dec (x + k) 32767) as [Hs | Hl].
  - rewrite Z.mod_small in * by lia. lia.
  - exfalso. replace (x + k + 32768) with (x + k - 32768 + 1 * 65536) in Hy by lia.
    rewrite Z_mod_plus_full, Z.mod_small in Hy by lia. lia.
Qed.

Section ScrollOffsets.

Context {host : Type} {win : WinConsole host}.
Variable programSettings : ProgramSettings.

Lemma offsets_of_bookkeeping :
  forall a b : @t host,
    map bookkeeping (screens a) = map bookkeeping (screens b) -> offsets a = offsets b.
Proof.
  intros a b H. unfold offsets.
  assert (Hm : forall l, map cursorScrollOffset l
                         = map (fun p => fst (fst p)) (map bookkeeping l)).
  { intro l. rewrite map_map. reflexivity. }
  now rewrite !Hm, H.
Qed.

Lemma same_offsets_no_drop :
  forall a b : @t host, offsets b = offsets a -> no_drop a b.
Proof.
  intros a b H i x y Hx Hy _ _. unfold scroll_offset_of in *. rewrite H in Hy.
  rewrite Hx in Hy. inversion Hy. lia.
Qed.

Lemma no_drop_then_same :
  forall a b c : @t host, no_drop a b -> offsets c = offsets b -> no_drop a c.
Proof.
  intros a b c Hab H i x y Hx Hy. apply (Hab i x y Hx).
  unfold scroll_offset_of in *. now rewrite <- H.
Qed.

Lemma same_then_no_drop :
  forall a b c : @t host, offsets b = offsets a -> no_drop b c -> no_drop a c.
Proof.
  intros a b c H Hbc i x y Hx Hy. apply (Hbc i x y); [| exact Hy].
  unfold scroll_offset_of in *. now rewrite H.
Qed.

(** A pushed screen, and a popped one, leave the others alone. *)
Lemma longer_no_drop :
  forall (a b : @t host) more, offsets b = offsets a ++ more -> no_drop a b.
Proof.
  intros a b more H i x y Hx Hy _ _. unfold scroll_offset_of in *.
  rewrite H, nth_error_app1 in Hy by (apply nth_error_Some; congruence).
  rewrite Hx in Hy. inversion Hy. lia.
Qed.

Lemma shorter_no_drop :
  forall (a b : @t host) more, offsets a = offsets b ++ more -> no_drop a b.
Proof.
  intros a b more H i x y Hx Hy _ _. unfold scroll_offset_of in *.
  rewrite H, nth_error_app1 in Hx by (apply nth_error_Some; congruence).
  rewrite Hx in Hy. inversion Hy. lia.
Qed.

Lemma scroll_bookkeeping_no_drop :
  forall (st : @t host) (k : Z),
    0 < k <= 32767 -> no_drop st (scroll_bookkeeping programSettings st k).
Proof.
  intros [main alt con] k Hk i x y.
  unfold scroll_offset_of, offsets, screens, scroll_bookkeeping, update_current,
    update_main.
  destruct alt as [| top rest].
  - destruct (useCustomBufferBehavior programSettings); cbn;
      (destruct i as [| i]; cbn; [| destruct i; discriminate]);
      intros Hx Hy Hrx Hry; inversion Hx; inversion Hy; subst;
      apply to_short_grows; assumption.
  - assert (Hgoal :
      forall m m' top',
        cursorScrollOffset m' = cursorScrollOffset m ->
        cursorScrollOffset top' = to_short (cursorScrollOffset top + k) ->
        nth_error (map cursorScrollOffset (m :: rev (top :: rest))) i = Some x ->
        nth_error (map cursorScrollOffset (m' :: rev (top' :: rest))) i = Some y ->
        0 <= x <= SHRT_MAX -> 0 <= y -> x <= y).
    { intros m m' top' Hm Ht Hx Hy Hrx Hry.
      destruct i as [| i]; cbn in Hx, Hy.
      - inversion Hx; inversion Hy; subst. lia.
      - rewrite map_app in Hx, Hy. cbn [map] in Hx, Hy.
        destruct (Nat.lt_ge_cases i (length (map cursorScrollOffset (rev rest))))
          as [Hlt | Hge].
        + rewrite nth_error_app1 in Hx, Hy by exact Hlt.
          rewrite Hx in Hy. inversion Hy. lia.
        + rewrite nth_error_app2 in Hx, Hy by exact Hge.
          destruct (i - length (map cursorScrollOffset (rev rest)))%nat as [| n];
            cbn in Hx, Hy; [| destruct n; discriminate].
          inversion Hx; inversion Hy; subst. rewrite Ht in *.
          apply to_short_grows; assumption. }
    destruct (useCustomBufferBehavior programSettings); cbn [altBufferData mainBufferData];
      apply Hgoal; reflexivity.
Qed.

Lemma writeToConsole_offsets :
  forall (st : @t host) str strLength,
    offsets (writeToConsole programSettings st str strLength) = offsets st.
Proof.
  intros st str strLength. unfold writeToConsole.
  destruct (strLength =? 0); reflexivity.
Qed.

Lemma write_and_track_scroll_no_drop :
  forall (st : @t host) str loc,
    no_drop st (write_and_track_scroll programSettings st str loc).
Proof.
  intros st str loc. unfold write_and_track_scroll.
  destruct (newlineCount loc >? 0);
    [| apply same_offsets_no_drop, writeToConsole_offsets].
  match goal with |- no_drop _ (if (?k >? 0) && ?c then _ else _) =>
    destruct (k >? 0) eqn:Ek; cbn [andb];
    [destruct c; [| apply same_offsets_no_drop, writeToConsole_offsets]
    | apply same_offsets_no_drop, writeToConsole_offsets];
    apply (same_then_no_drop _ (writeToConsole programSettings st str (strLength loc)));
    [apply writeToConsole_offsets |];
    apply scroll_bookkeeping_no_drop;
    pose proof (to_short_range
                  (newlineCount loc
                   - (Y (getCursorPos programSettings
                           (writeToConsole programSettings st str (strLength loc)))
                      - Y (getCursorPos programSettings st))));
    apply Z.gtb_lt in Ek; lia
  end.
Qed.

Lemma write_and_track_scroll_without_line_feed :
  forall (st : @t host) str loc,
    newlineCount loc = 0 ->
    map bookkeeping (screens (write_and_track_scroll programSettings st str loc))
    = map bookkeeping (screens st).
Proof.
  intros st str loc H. unfold write_and_track_scroll. rewrite H. cbn.
  unfold writeToConsole. destruct (strLength loc =? 0); reflexivity.
Qed.

(** A write never lets a scroll offset fall. *)
Lemma print_no_drop :
  forall (st : @t host) str addToBuffer st',
    print programSettings st str addToBuffer = Ok st' -> no_drop st st'.
Proof.
  intros st str addToBuffer st' H.
  apply print_inv in H. destruct H as (lines & cursorData & loc & _ & _ & ->).
  eapply same_then_no_drop; [| apply write_and_track_scroll_no_drop].
  apply offsets_of_bookkeeping.
  exact (proj1 (set_lines_bookkeeping programSettings st lines cursorData)).
Qed.

(** A write without a line feed moves no bookkeeping. *)
Lemma print_without_line_feed :
  forall (st : @t host) str addToBuffer st',
    count_newlines (c_str str) = 0 ->
    print programSettings st str addToBuffer = Ok st' ->
    map bookkeeping (screens st') = map bookkeeping (screens st).
Proof.
  intros st str addToBuffer st' Hzero H.
  apply print_inv in H. destruct H as (lines & cursorData & loc & Hn & _ & ->).
  rewrite write_and_track_scroll_without_line_feed
    by (rewrite Hn, Hzero; reflexivity).
  exact (proj1 (set_lines_bookkeeping programSettings st lines cursorData)).
Qed.

End ScrollOffsets.

Section Operations.

Context {host : Type} {win : WinConsole host}.
Variable programSettings : ProgramSettings.

Lemma update_current_offsets :
  forall (f : BufferData -> BufferData) (st : @t host),
    (forall bd, cursorScrollOffset (f bd) = cursorScrollOffset bd) ->
    offsets (update_current f st) = offsets st.
Proof.
  intros f [main alt con] Hf. unfold offsets, screens, update_current.
  destruct alt as [| top rest]; cbn.
  - now rewrite Hf.
  - rewrite !map_app. cbn. now rewrite Hf.
Qed.

Lemma setCursorPos_offsets :
  forall (st : @t host) c, offsets (fst (setCursorPos programSettings st c)) = offsets st.
Proof.
  intros st c. unfold setCursorPos.
  destruct (SetConsoleCursorPosition (console st) (getBufferHandle programSettings st) c).
  reflexivity.
Qed.

Lemma clear_offsets :
  forall (st : @t host) clearBuffer resetCursorPos st',
    clear programSettings st clearBuffer resetCursorPos = Ok st' ->
    offsets st' = offsets st.
Proof.
  intros st clearBuffer resetCursorPos st' H. unfold clear in H.
  apply print_without_line_feed in H; [| reflexivity].
  apply offsets_of_bookkeeping in H. rewrite H.
  assert (H1 : offsets (if clearBuffer
                        then update_current (fun bd => set_lines bd [] []) st else st)
               = offsets st).
  { destruct clearBuffer; [| reflexivity]. now apply update_current_offsets. }
  destruct resetCursorPos; [rewrite setCursorPos_offsets |]; exact H1.
Qed.

Lemma synchronizeCursorVisibility_offsets :
  forall (st : @t host) visible addToBuffer st',
    synchronizeCursorVisibility programSettings st visible addToBuffer = Ok st' ->
    offsets st' = offsets st.
Proof.
  intros st visible addToBuffer st' H. unfold synchronizeCursorVisibility in H.
  apply print_without_line_feed in H; [| destruct visible; reflexivity].
  now apply offsets_of_bookkeeping.
Qed.

Lemma toggleCursorVisibilityTo_offsets :
  forall (st : @t host) visible st',
    toggleCursorVisibilityTo programSettings st visible = Ok st' ->
    offsets st' = offsets st.
Proof.
  intros st visible st' H. unfold toggleCursorVisibilityTo in H.
  destruct (Bool.eqb visible
              (cursorIsVisible (getCurrentBufferData programSettings st false))).
  - now inversion H.
  - inv_bind H as st1 E. inversion H; subst.
    rewrite update_current_offsets by reflexivity.
    eapply synchronizeCursorVisibility_offsets; eauto.
Qed.

Lemma restoreSavedCursorPos_offsets :
  forall st : @t host,
    offsets (fst (restoreSavedCursorPos programSettings st)) = offsets st.
Proof.
  intro st. unfold restoreSavedCursorPos.
  destruct (savedCursors (getCurrentBufferData programSettings st false));
    [reflexivity |].
  cbn [fst]. rewrite setCursorPos_offsets. now apply update_current_offsets.
Qed.

Lemma createAltBuffer_offsets :
  forall (st : @t host) st' number,
    createAltBuffer programSettings st = Ok (st', number) ->
    offsets st' = offsets st \/ offsets st' = offsets st ++ [0].
Proof.
  intros st st' number H. unfold createAltBuffer in H.
  destruct (CreateConsoleScreenBuffer (console st)) as [h newHandle].
  destruct (negb (newHandle =? NULL) && negb (newHandle =? INVALID_HANDLE_VALUE)).
  - right. inv_bind H as st1 E. inversion H; subst; clear H.
    assert (H1 : offsets st1 = offsets st).
    { destruct (useCustomBufferBehavior programSettings).
      - inv_bind E as sc Ec. apply clear_offsets in Ec.
        destruct (negb (cursorIsVisible (getCurrentBufferData programSettings sc false))).
        + apply synchronizeCursorVisibility_offsets in E. rewrite E, Ec. reflexivity.
        + inversion E; subst. rewrite Ec. reflexivity.
      - inversion E; subst. reflexivity. }
    unfold offsets, screens in *. cbn [mainBufferData altBufferData rev].
    rewrite app_comm_cons, map_app. rewrite H1. reflexivity.
  - left. inversion H; subst. reflexivity.
Qed.

Lemma last_cons_default :
  forall (A : Type) (l : list A) (a d d' : A), last (a :: l) d = last (a :: l) d'.
Proof.
  intros A l. induction l as [| b l IH]; intros a d d'; [reflexivity |].
  change (last (b :: l) d = last (b :: l) d'). apply IH.
Qed.

Lemma chain_app :
  forall (R : @t host -> @t host -> Prop) l1 l2 st,
    chain R st l1 -> chain R (last l1 st) l2 -> chain R st (l1 ++ l2).
Proof.
  intros R l1. induction l1 as [| s l1 IH]; intros l2 st H1 H2; cbn in *.
  - exact H2.
  - destruct H1 as [Hs H1]. split; [exact Hs |]. apply IH; [exact H1 |].
    destruct l1 as [| s' l1]; [exact H2 |].
    rewrite (last_cons_default _ l1 s' s st). exact H2.
Qed.

(** [replay_states] follows [replay], one write at a time. *)
Lemma replay_states_spec :
  forall lines (st : @t host) states,
    replay_states programSettings lines st = Ok states ->
    replay programSettings lines st = Ok (last states st)
    /\ chain no_drop st states.
Proof.
  induction lines as [| line rest IH]; intros st states H; cbn [replay_states] in H.
  - inversion H; subst. split; [reflexivity | exact I].
  - inv_bind H as st1 E1.
    pose proof (print_no_drop programSettings st line false st1 E1) as Hd1.
    destruct rest as [| line' rest'].
    + inversion H; subst. cbn [replay]. rewrite E1. cbn.
      split; [reflexivity | split; [exact Hd1 | exact I]].
    + inv_bind H as st2 E2. inv_bind H as later E3. inversion H; subst; clear H.
      change (replay programSettings (line :: line' :: rest') st)
        with (s1 <- print programSettings st line false ;;
              s2 <- println programSettings s1 false ;;
              replay programSettings (line' :: rest') s2).
      rewrite E1. cbn [bind]. rewrite E2. cbn [bind].
      pose proof (print_no_drop programSettings st1 [NEWLINE; NUL] false st2 E2) as Hd2.
      destruct (IH st2 later E3) as [Hr Hc]. split.
      * rewrite Hr. f_equal. destruct later as [| s later]; [reflexivity |].
        change (last (s :: later) st2 = last (s :: later) st).
        apply last_cons_default.
      * cbn [chain]. auto.
Qed.

(** Every write of an operation leaves the scroll offsets no lower. *)
Lemma states_of_chain :
  forall op (st : @t host) states,
    states_of programSettings op st = Ok states -> chain no_drop st states.
Proof.
  intros op st states H.
  assert (Hone : forall st', perform programSettings op st = Ok st' ->
                             op <> RestorePreviousBuffer -> no_drop st st').
  { intros st' Hp Hop. destruct op; cbn [perform] in Hp.
    - eapply print_no_drop; eauto.
    - eapply print_no_drop; eauto.
    - apply same_offsets_no_drop. eapply clear_offsets; eauto.
    - inversion Hp; subst. apply same_offsets_no_drop, setCursorPos_offsets.
    - inversion Hp; subst. apply same_offsets_no_drop.
      unfold saveCursorPos, saveCursorPosAt. cbn [fst].
      now apply update_current_offsets.
    - inversion Hp; subst. apply same_offsets_no_drop.
      unfold saveCursorPosAt. cbn [fst]. now apply update_current_offsets.
    - inversion Hp; subst. apply same_offsets_no_drop, restoreSavedCursorPos_offsets.
    - apply same_offsets_no_drop. eapply toggleCursorVisibilityTo_offsets; eauto.
    - apply same_offsets_no_drop. eapply toggleCursorVisibilityTo_offsets; eauto.
    - inv_bind Hp as [s n] E. inversion Hp; subst.
      apply createAltBuffer_offsets in E. destruct E as [E | E].
      + now apply same_offsets_no_drop.
      + eapply longer_no_drop; eauto.
    - congruence. }
  assert (Hsimple : forall st', perform programSettings op st = Ok st' ->
                                op <> RestorePreviousBuffer -> chain no_drop st [st']).
  { intros st' Hp Hop. cbn. split; [now apply Hone | exact I]. }
  destruct op; cbn [states_of] in H;
    try (inv_bind H as st' E; inversion H; subst; apply Hsimple;
         [reflexivity | discriminate]).
  clear Hone Hsimple.
  destruct (altBufferData st) as [| top rest] eqn:Halt.
  { inversion H; subst. cbn. split; [now apply same_offsets_no_drop | exact I]. }
  destruct (useCustomBufferBehavior programSettings) eqn:Hcustom.
  - inv_bind H as st1 E1. inv_bind H as replayed E2. inv_bind H as st' E3.
    inversion H; subst; clear H.
    pose proof (clear_offsets st true true st1 E1) as H1.
    set (st2 := mk (mainBufferData st1) (tl (altBufferData st1)) (console st1)) in *.
    destruct (replay_states_spec _ st2 replayed E2) as [Hr Hc].
    cbn [perform] in E3. unfold restorePreviousBuffer in E3.
    rewrite Halt, Hcustom, E1 in E3. cbn [bind] in E3. fold st2 in E3.
    rewrite Hr in E3. cbn [bind] in E3.
    assert (Hlast : offsets st' = offsets (last replayed st2)).
    { match type of E3 with context [if ?c then _ else _] => destruct c end.
      - cbn in E3. now inversion E3.
      - inv_bind E3 as [s4 n4] E4. cbn in E3. inversion E3; subst.
        inv_bind E4 as s5 E5. inversion E4; subst.
        eapply synchronizeCursorVisibility_offsets; eauto. }
    cbn [chain]. split; [now apply same_offsets_no_drop |]. split.
    + assert (Hlen : length (altBufferData st1) = length (altBufferData st)).
      { assert (Hl : length (offsets st1) = length (offsets st)) by now rewrite H1.
        unfold offsets, screens in Hl. cbn in Hl.
        rewrite !length_map, !length_rev in Hl. lia. }
      destruct (altBufferData st1) as [| top1 rest1] eqn:Halt1;
        [rewrite Halt in Hlen; discriminate |].
      apply shorter_no_drop with (more := [cursorScrollOffset top1]).
      unfold offsets, screens, st2. rewrite Halt1. cbn [tl altBufferData mainBufferData rev].
      rewrite app_comm_cons, map_app. reflexivity.
    + apply chain_app; [exact Hc |]. cbn. split; [| exact I].
      now apply same_offsets_no_drop.
  - inv_bind H as st' E. inversion H; subst; clear H.
    cbn [perform] in E. unfold restorePreviousBuffer in E.
    rewrite Halt, Hcustom in E. cbn in E. inversion E; subst; clear E.
    cbn. split; [| exact I].
    apply shorter_no_drop with (more := [cursorScrollOffset top]).
    unfold offsets, screens. rewrite Halt. cbn.
    rewrite app_comm_cons, map_app. reflexivity.
Qed.

Lemma run_chain :
  forall ops (st : @t host) trace,
    run programSettings ops st = Ok trace -> chain no_drop st trace.
Proof.
  induction ops as [| op ops IH]; intros st trace H; cbn [run] in H.
  - inversion H; subst. exact I.
  - inv_bind H as states E1. inv_bind H as later E2. inversion H; subst.
    apply chain_app; [eapply states_of_chain; eauto | now apply IH].
Qed.

(** Along a chain on which screen [i] is always there with an offset between
    0 and 32767, the offset never falls. *)
Lemma chain_no_drop_sorted :
  forall (i : nat) (l : list (@t host)) (st : @t host),
    chain no_drop st l ->
    (forall s, In s (st :: l) ->
               exists x, scroll_offset_of i s = Some x /\ 0 <= x <= SHRT_MAX) ->
    forall j k sj sk x y,
      (j <= k)%nat ->
      nth_error (st :: l) j = Some sj -> nth_error (st :: l) k = Some sk ->
      scroll_offset_of i sj = Some x -> scroll_offset_of i sk = Some y ->
      x <= y.
Proof.
  intros i l. induction l as [| s l IH]; intros st Hc Hall j k sj sk x y Hjk Hj Hk Hx Hy.
  - destruct j as [| j]; [| destruct j; discriminate].
    destruct k as [| k]; [| destruct k; discriminate].
    cbn in Hj, Hk. inversion Hj; inversion Hk; subst. rewrite Hx in Hy.
    inversion Hy. lia.
  - destruct Hc as [Hd Hc].
    assert (Hall' : forall s', In s' (s :: l) ->
                      exists x, scroll_offset_of i s' = Some x /\ 0 <= x <= SHRT_MAX).
    { intros s' Hin. apply Hall. now right. }
    destruct j as [| j].
    + cbn in Hj. inversion Hj; subst sj.
      destruct k as [| k].
      * cbn in Hk. inversion Hk; subst. rewrite Hx in Hy. inversion Hy. lia.
      * destruct (Hall' s (or_introl eq_refl)) as (z & Hz & Hzr).
        destruct (Hall st (or_introl eq_refl)) as (x' & Hx' & Hxr).
        rewrite Hx in Hx'. inversion Hx'; subst x'.
        assert (Hxz : x <= z) by (apply (Hd i x z); auto; lia).
        assert (Hzy : z <= y).
        { apply (IH s Hc Hall' O k s sk z y); auto. lia. }
        lia.
    + destruct k as [| k]; [lia |].
      apply (IH s Hc Hall' j k sj sk x y); auto. lia.
Qed.

(** C3, amended.  Take any sequence of operations on an engine and the
    states it goes through, one after each write to the console.  For a
    screen that is on the stack in all of them, with a scroll offset that
    stays between 0 and 32767 (it does not wrap around), the offset in a
    later state is never less than in an earlier one. *)
Theorem scroll_offset_of_a_screen_never_decreases :
  forall (ops : list Operation) (st : @t host) (trace : list (@t host)) (i : nat),
    run programSettings ops st = Ok trace ->
    (forall s, In s (st :: trace) ->
               exists x, scroll_offset_of i s = Some x /\ 0 <= x <= SHRT_MAX) ->
    forall j k sj sk x y,
      (j <= k)%nat ->
      nth_error (st :: trace) j = Some sj -> nth_error (st :: trace) k = Some sk ->
      scroll_offset_of i sj = Some x -> scroll_offset_of i sk = Some y ->
      x <= y.
Proof.
  intros ops st trace i Hrun. apply chain_no_drop_sorted.
  eapply run_chain; eauto.
Qed.

End Operations.

(** After a line feed that scrolled the window the scroll offset of the
    primary screen is 1, and [createAltBuffer] makes [getCursorScrollOffset]
    answer 0, the offset of the new screen.  And on one screen, with native
    buffers, 20000 scrolled lines and 20000 more take the offset from 20000 to
    40000 - 65536. *)
Lemma getCursorScrollOffset_falls :
  (run Samples.settings [Println false; CreateAltBuffer] Samples.bottom_row_engine
   = Ok [Samples.after_line_feed; Samples.after_line_feed_and_push]
   /\ getCursorScrollOffset Samples.settings Samples.after_line_feed = 1
   /\ getCursorScrollOffset Samples.settings Samples.after_line_feed_and_push = 0)
  /\
  (run Samples.native_settings
     [Print Samples.page_of_line_feeds false; Print Samples.page_of_line_feeds false]
     Samples.bottom_row_engine
   = Ok [Samples.after_one_page; Samples.after_two_pages]
   /\ altBufferData Samples.after_two_pages = []
   /\ getCursorScrollOffset Samples.native_settings Samples.after_one_page = 20000
   /\ getCursorScrollOffset Samples.native_settings Samples.after_two_pages = -25536).
Proof.
  split.
  - split; [vm_compute; reflexivity |]. split; vm_compute; reflexivity.
  - split; [vm_compute; reflexivity |]. split; [vm_compute; reflexivity |].
    split; vm_compute; reflexivity.
Qed.

Lemma scroll_offset_of_a_screen_never_decreases_witness :
  cursorScrollOffset (mainBufferData Samples.bottom_row_engine)
  <= cursorScrollOffset (mainBufferData Samples.after_two_line_feeds).
Proof.
  assert (Hrun : run Samples.settings [Println false; Println false]
                   Samples.bottom_row_engine
                 = Ok [Samples.after_line_feed; Samples.after_two_line_feeds])
    by (vm_compute; reflexivity).
  refine (scroll_offset_of_a_screen_never_decreases Samples.settings
            [Println false; Println false] Samples.bottom_row_engine
            [Samples.after_line_feed; Samples.after_two_line_feeds] 0 Hrun _
            0 2 Samples.bottom_row_engine Samples.after_two_line_feeds _ _ _
            eq_refl eq_refl eq_refl eq_refl).
  - intros s [<- | [<- | [<- | []]]]; eexists; (split; [reflexivity |]);
      vm_compute; split; discriminate.
  - lia.
Defined.

(** ** Arrow keys *)

Lemma to_size_t_id : forall x, 0 <= x <= SIZE_MAX -> to_size_t x = x.
Proof.
  unfold SIZE_MAX, to_size_t. intros x Hx. apply Z.mod_small. lia.
Qed.

Lemma vec_get_ok :
  forall (A : Type) (v : list A) (i : Z),
    0 <= i < vec_size v ->
    exists a, vec_get v i = Ok a /\ nth_error v (Z.to_nat i) = Some a.
Proof.
  intros A v i Hi. unfold vec_get, vec_size in *.
  assert (Hb : (0 <=? i) && (i <? Z.of_nat (length v)) = true).
  { apply andb_true_iff. split; [apply Z.leb_le | apply Z.ltb_lt]; lia. }
  rewrite Hb.
  destruct (nth_error v (Z.to_nat i)) as [a |] eqn:E.
  - exists a. auto.
  - apply nth_error_None in E. lia.
Qed.

Section ArrowKeys.

Context {C : Type} {io : ConsoleIO C}.

Import MenuOptionList.




End ArrowKeys.

Section Selection.

Context {C : Type} {io : ConsoleIO C}.

Import MenuOptionList.









End Selection.


(* ================================================================== *)
(** * Further properties *)

Lemma vec_size_app :
  forall (A : Type) (a b : list A), vec_size (a ++ b) = vec_size a + vec_size b.
Proof. intros. unfold vec_size. rewrite length_app. lia. Qed.

Lemma vec_size_nonneg : forall (A : Type) (a : list A), 0 <= vec_size a.
Proof. intros. unfold vec_size. lia. Qed.

Section EngineBuffers.

Context {host : Type} {win : WinConsole host}.
Variable programSettings : ProgramSettings.

Local Abbreviation current st := (getCurrentBufferData programSettings st false).

Lemma set_lines_same :
  forall bd, set_lines bd (contents bd) (contentsCursorData bd) = bd.
Proof. intros []. reflexivity. Qed.

Lemma update_current_same_lines :
  forall st : @t host,
    update_current
      (fun bd => set_lines bd (contents (current st)) (contentsCursorData (current st))) st
    = st.
Proof.
  intros [main alt con]. unfold update_current, getCurrentBufferData.
  rewrite andb_false_r. destruct alt as [| top rest]; cbn; now rewrite set_lines_same.
Qed.

Lemma writeToConsole_buffers' :
  forall (st : @t host) str n,
    buffers (writeToConsole programSettings st str n) = buffers st.
Proof.
  intros st str n. unfold writeToConsole. destruct (n =? 0); reflexivity.
Qed.

(** A write that is not recorded, of a string without a line feed, changes
    no buffer data. *)
Lemma print_untracked_buffers :
  forall (st : @t host) str,
    count_newlines (c_str str) = 0 ->
    exists st', print programSettings st str false = Ok st' /\ buffers st' = buffers st.
Proof.
  intros st str Hn. destruct (print_untracked programSettings st str) as [st' H].
  exists st'. split; [exact H |].
  apply print_inv in H. destruct H as (lines & cursorData & loc & Hc & Hsame & ->).
  destruct (Hsame eq_refl) as [-> ->]. rewrite update_current_same_lines.
  rewrite Hn in Hc. cbn in Hc. unfold write_and_track_scroll. rewrite Hc. cbn.
  apply writeToConsole_buffers'.
Qed.


(** X1.  A call of [print] that is not recorded ([addToBuffer] false)
    returns, and leaves the records of every screen -- lines, column indices
    and cursor flag -- as they were.  When the string has no line feed it
    changes nothing of the buffer data at all: only the console is written. *)
Theorem print_unrecorded_leaves_records :
  forall (st : @t host) (str : wstring),
    exists st',
      print programSettings st str false = Ok st'
      /\ records st' = records st
      /\ (count_newlines (c_str str) = 0 -> buffers st' = buffers st).
Proof.
  intros st str. destruct (print_untracked_records programSettings st str) as (st' & Hp & Hr).
  exists st'. split; [exact Hp |]. split; [exact Hr |].
  intros Hn. destruct (print_untracked_buffers st str Hn) as (st'' & Hp' & Hb).
  rewrite Hp in Hp'. inversion Hp'; subst st''. exact Hb.
Qed.

Lemma getCurrentBufferData_update_current :
  forall (f : BufferData -> BufferData) (st : @t host),
    current (update_current f st) = f (current st).
Proof.
  intros f [main alt con]. unfold update_current, getCurrentBufferData.
  rewrite andb_false_r. destruct alt; reflexivity.
Qed.

Lemma update_current_twice :
  forall (f g : BufferData -> BufferData) (st : @t host),
    update_current g (update_current f st) = update_current (fun bd => g (f bd)) st.
Proof. intros f g [main [| top rest] con]; reflexivity. Qed.

Lemma update_current_id :
  forall (f : BufferData -> BufferData) (st : @t host),
    (forall bd, f bd = bd) -> update_current f st = st.
Proof.
  intros f [main [| top rest] con] H; unfold update_current; cbn; now rewrite H.
Qed.

(** X2.  Saving a cursor position and restoring it at once is a round trip:
    [restoreSavedCursorPos] hands back the position saved last, takes it off
    the stack again, and leaves the engine as [setCursorPos] to that position
    leaves it. *)
Theorem saved_cursor_round_trip :
  forall (st : @t host) (c : COORD),
    restoreSavedCursorPos programSettings (fst (saveCursorPosAt st c))
    = (fst (setCursorPos programSettings st c), Some c).
Proof.
  intros st c. unfold saveCursorPosAt. cbn [fst]. unfold restoreSavedCursorPos.
  rewrite getCurrentBufferData_update_current. cbn [savedCursors set_savedCursors].
  destruct (savedCursors (current st) ++ [c]) as [| c0 cs] eqn:E.
  - now destruct (savedCursors (current st)).
  - assert (Hlast : last cs c0 = c).
    { change (last cs c0) with (last (c0 :: cs) c0) || idtac.
      transitivity (last (c0 :: cs) c0).
      - destruct cs; reflexivity.
      - rewrite <- E. apply last_last. }
    rewrite Hlast. rewrite update_current_twice.
    rewrite update_current_id; [reflexivity |].
    intros bd. cbn. rewrite removelast_last. destruct bd; reflexivity.
Qed.


Lemma setCursorPos_buffers :
  forall (st : @t host) (c : COORD),
    buffers (fst (setCursorPos programSettings st c)) = buffers st.
Proof.
  intros st c. unfold setCursorPos.
  destruct (SetConsoleCursorPosition (console st) (getBufferHandle programSettings st) c).
  reflexivity.
Qed.

Lemma sequence_without_line_feed :
  forall s : string,
    count_newlines (c_str (getVirtualTerminalSequence (L s))) = count_newlines (c_str (L s)).
Proof. reflexivity. Qed.


(** X3.  [clear] returns, in both modes, and touches the buffer data in one
    way only: with [clearBuffer] the lines and column indices of the current
    screen are emptied.  Origins, scroll offsets, saved cursors, cursor flags
    and all the other screens stay as they were. *)
Theorem clear_empties_current_screen_only :
  forall (st : @t host) (clearBuffer resetCursorPos : bool),
    exists st',
      clear programSettings st clearBuffer resetCursorPos = Ok st'
      /\ buffers st'
         = buffers (if clearBuffer
                    then update_current (fun bd => set_lines bd [] []) st
                    else st).
Proof.
  intros st clearBuffer resetCursorPos. unfold clear.
  match goal with |- exists st', print _ ?s ?str _ = _ /\ _ =>
    destruct (print_untracked_buffers s str eq_refl) as (st' & Hp & Hb)
  end.
  exists st'. split; [exact Hp |]. rewrite Hb.
  destruct resetCursorPos; [apply setCursorPos_buffers | reflexivity].
Qed.



(** The virtualized branch of [restorePreviousBuffer]: clear, pop, print the
    lines of the screen below again. *)
Lemma restorePreviousBuffer_virtualized :
  forall (st : @t host) (top : BufferData) (rest : list BufferData),
    useCustomBufferBehavior programSettings = true ->
    altBufferData st = top :: rest ->
    exists st',
      restorePreviousBuffer programSettings st = Ok (st', vec_size rest)
      /\ recorded (mainBufferData st') = recorded (mainBufferData st)
      /\ map recorded (altBufferData st') = map recorded rest.
Proof.
  intros st top rest Hcustom Halt. unfold restorePreviousBuffer. rewrite Halt, Hcustom.
  destruct (clear_top_records programSettings st top rest Halt)
    as (s1 & top1 & rest1 & -> & Halt1 & Hm1 & Hr1).
  cbn [bind]. rewrite Halt1. cbn [tl].
  set (s2 := mk (mainBufferData s1) rest1 (console s1)).
  destruct (replay_records programSettings
              (contents (getCurrentBufferData programSettings s2 false)) s2)
    as (s3 & -> & H3).
  cbn [bind].
  assert (Hs3 : recorded (mainBufferData s3) = recorded (mainBufferData st)
                /\ map recorded (altBufferData s3) = map recorded rest).
  { apply records_eq_inv in H3 as [Hm Ha]. cbn in Hm, Ha.
    rewrite Hm, Ha. split; [exact Hm1 | exact Hr1]. }
  assert (Hdone : forall s4 : @t host,
             records s4 = records s3 ->
             Ok (s4, getCurrentBufferNum s4) = Ok (s4, vec_size rest)
             /\ recorded (mainBufferData s4) = recorded (mainBufferData st)
             /\ map recorded (altBufferData s4) = map recorded rest).
  { intros s4 H4. apply records_eq_inv in H4 as [Hm Ha].
    destruct Hs3 as [Hm3 Ha3]. rewrite Hm, Ha. repeat split; try assumption.
    unfold getCurrentBufferNum, vec_size.
    rewrite Ha3 in Ha. apply (f_equal (@length _)) in Ha. rewrite !length_map in Ha.
    now rewrite Ha. }
  match goal with |- context [if ?c then _ else _] => destruct c end.
  - cbn [bind]. exists s3. destruct (Hdone s3 eq_refl) as (-> & Hm & Ha). auto.
  - destruct (synchronizeCursorVisibility_records programSettings s3
                (cursorIsVisible (getCurrentBufferData programSettings s3 false)))
      as (s4 & -> & H4).
    cbn [bind]. exists s4. destruct (Hdone s4 H4) as (-> & Hm & Ha). auto.
Qed.

(** The native branch: close the handle of the top screen and pop it. *)
Lemma restorePreviousBuffer_native :
  forall (st : @t host) (top : BufferData) (rest : list BufferData),
    useCustomBufferBehavior programSettings = false ->
    altBufferData st = top :: rest ->
    exists h,
      restorePreviousBuffer programSettings st
      = Ok (mk (mainBufferData st) rest h, vec_size rest).
Proof.
  intros st top rest Hnative Halt. unfold restorePreviousBuffer.
  rewrite Halt, Hnative. cbn [bind]. eexists. reflexivity.
Qed.


End EngineBuffers.


Lemma vec_get_nth :
  forall (A : Type) (v : list A) (i : Z) (d : A),
    0 <= i < vec_size v -> vec_get v i = Ok (nth (Z.to_nat i) v d).
Proof.
  intros A v i d Hi. destruct (vec_get_ok A v i Hi) as (a & -> & Hn).
  f_equal. symmetry. now apply nth_error_nth.
Qed.

Lemma vec_set_ok :
  forall (A : Type) (v : list A) (i : Z) (a : A),
    0 <= i < vec_size v -> vec_set v i a = Ok (list_set v (Z.to_nat i) a).
Proof.
  intros A v i a Hi. unfold vec_set, vec_size in *.
  assert (Hb : (0 <=? i) && (i <? Z.of_nat (length v)) = true).
  { apply andb_true_iff. split; [apply Z.leb_le | apply Z.ltb_lt]; lia. }
  now rewrite Hb.
Qed.

Lemma length_list_set :
  forall (A : Type) (v : list A) (n : nat) (a : A), length (list_set v n a) = length v.
Proof.
  intros A v. induction v as [| b v IH]; intros [| n] a; cbn; auto.
Qed.

Lemma nth_list_set_eq :
  forall (A : Type) (v : list A) (n : nat) (a d : A),
    (n < length v)%nat -> nth n (list_set v n a) d = a.
Proof.
  intros A v. induction v as [| b v IH]; intros [| n] a d H; cbn in *; try lia; auto.
  apply IH. lia.
Qed.

Lemma nth_list_set_neq :
  forall (A : Type) (v : list A) (n m : nat) (a d : A),
    n <> m -> nth m (list_set v n a) d = nth m v d.
Proof.
  intros A v. induction v as [| b v IH]; intros [| n] [| m] a d H; cbn; try congruence; auto.
Qed.

Lemma nth_app_repeat_default :
  forall (A : Type) (v : list A) (k n : nat) (d : A),
    nth n (v ++ repeat d k) d = nth n v d.
Proof.
  intros A v k n d. destruct (Nat.lt_ge_cases n (length v)) as [H | H].
  - now apply app_nth1.
  - rewrite app_nth2 by lia. rewrite (nth_overflow v) by lia.
    apply nth_repeat.
Qed.

Lemma columns_succ :
  forall n, 0 <= n -> columns (n + 1) = columns n ++ [n].
Proof.
  intros n Hn. unfold columns.
  replace (Z.to_nat (n + 1)) with (S (Z.to_nat n)) by lia.
  rewrite seq_S, map_app. cbn. f_equal. f_equal. lia.
Qed.

Lemma vec_size_columns : forall n, 0 <= n -> vec_size (columns n) = n.
Proof.
  intros n Hn. unfold vec_size, columns. rewrite length_map, length_seq. lia.
Qed.



Lemma pad_line_columns :
  forall (n : nat) (line : wstring),
    pad_line n line (columns (vec_size line))
    = (line ++ repeat SPACE n, columns (vec_size line + Z.of_nat n)).
Proof.
  induction n as [| n IH]; intro line; cbn [pad_line repeat].
  - rewrite app_nil_r, Z.add_0_r. reflexivity.
  - rewrite <- columns_succ by apply vec_size_nonneg.
    replace (vec_size line + 1) with (vec_size (line ++ [SPACE]))
      by (rewrite vec_size_app; reflexivity).
    rewrite IH. rewrite <- app_assoc. cbn [app]. f_equal.
    rewrite vec_size_app. cbn. f_equal. lia.
Qed.

(** An ordinary character written at or after the end of a line without
    escape sequences: the line is padded with spaces up to the cursor and
    the character appended. *)
Lemma store_char_at_end :
  forall startY c loc bd,
    let cur := currentCursorPos loc in
    let r := to_short (Y cur - startY) in
    let line := nth (Z.to_nat r) (contents bd) [] in
    c <> NEWLINE ->
    atEndOfBuffer loc <> Some false ->
    0 <= r ->
    vec_size (contents bd) = vec_size (contentsCursorData bd) ->
    nth (Z.to_nat r) (contentsCursorData bd) [] = columns (vec_size line) ->
    vec_size line <= X cur <= 32767 ->
    exists bd',
      store_char startY c false loc bd = Ok (bd', true)
      /\ vec_size (contents bd') = vec_size (contentsCursorData bd')
      /\ nth (Z.to_nat r) (contents bd') []
         = line ++ repeat SPACE (Z.to_nat (X cur - vec_size line)) ++ [c]
      /\ nth (Z.to_nat r) (contentsCursorData bd') [] = columns (X cur + 1)
      /\ (forall i, i <> Z.to_nat r ->
            nth i (contents bd') [] = nth i (contents bd) []
            /\ nth i (contentsCursorData bd') [] = nth i (contentsCursorData bd) []).
Proof.
  intros startY c loc bd cur r line Hc Hend Hr Hsizes Hcp Hx.
  unfold store_char. fold cur. fold r.
  unfold grow_rows. assert (Hr' : (r <? 0) = false) by (apply Z.ltb_ge; lia).
  rewrite Hr'. cbn [bind].
  set (n := Z.to_nat (r + 1 - vec_size (contents bd))).
  cbn [contents contentsCursorData set_lines].
  assert (Hlen1 : r < vec_size (contents bd ++ repeat [] n)).
  { rewrite vec_size_app. unfold vec_size at 2. rewrite repeat_length. lia. }
  assert (Hlen2 : r < vec_size (contentsCursorData bd ++ repeat [] n)).
  { rewrite vec_size_app. unfold vec_size at 2. rewrite repeat_length. lia. }
  pose proof (vec_size_nonneg _ line) as Hline0.
  assert (Hatend : match atEndOfBuffer loc with
                   | Some b => b
                   | None => vec_size (columns (vec_size line)) <=? to_size_t (X cur + 1)
                   end = true).
  { rewrite vec_size_columns by apply vec_size_nonneg.
    destruct (atEndOfBuffer loc) as [[|] |]; [reflexivity | congruence |].
    apply Z.leb_le. rewrite to_size_t_id by (unfold SIZE_MAX; lia). lia. }
  assert (Hx0 : (X cur <? 0) = false).
  { apply Z.ltb_ge. pose proof (vec_size_nonneg _ line). lia. }
  assert (Hnl : (c =? NEWLINE) = false) by (apply Z.eqb_neq; exact Hc).
  assert (Hn1 : (Z.to_nat r < length (contents bd ++ repeat [] n))%nat)
    by (unfold vec_size in Hlen1; lia).
  assert (Hn2 : (Z.to_nat r < length (contentsCursorData bd ++ repeat [] n))%nat)
    by (unfold vec_size in Hlen2; lia).
  eexists. split.
  { rewrite (vec_get_nth wstring _ r []) by lia. cbn [bind].
    rewrite (vec_get_nth (list Z) _ r []) by lia. cbn [bind].
    rewrite !nth_app_repeat_default.
    change (@nth (list wchar_t) (Z.to_nat r) (contents bd) []) with line. rewrite Hcp.
    rewrite Hatend.
    unfold pad_columns. rewrite Hx0. rewrite pad_line_columns.
    replace (vec_size line + Z.of_nat (Z.to_nat (X cur - vec_size line))) with (X cur) by lia.
    rewrite vec_size_columns by (pose proof (vec_size_nonneg _ line); lia).
    replace (Z.to_nat (X cur - X cur)) with O by lia. cbn [pad_cursor bind].
    unfold append_char. rewrite Hnl. cbn [bind].
    rewrite !vec_set_ok by lia. cbn [bind]. reflexivity. }
  cbn [contents contentsCursorData set_lines].
  split.
  { unfold vec_size. rewrite !length_list_set, !length_app, !repeat_length.
    unfold vec_size in Hsizes. lia. }
  split.
  { rewrite nth_list_set_eq by exact Hn1. rewrite <- app_assoc. reflexivity. }
  split.
  { rewrite nth_list_set_eq by exact Hn2.
    rewrite vec_size_app. unfold vec_size at 2. rewrite repeat_length.
    replace (vec_size line + Z.of_nat (Z.to_nat (X cur - vec_size line))) with (X cur) by lia.
    symmetry. apply columns_succ. lia. }
  intros i Hi. rewrite !nth_list_set_neq by congruence.
  rewrite !nth_app_repeat_default. split; reflexivity.
Qed.

Lemma scan_sequence_ordinary :
  forall c suffix loc,
    c <> VIRTUAL_TERMINAL_SEQUENCE_ESCAPE ->
    isDetectedTerminalSequence loc = false ->
    scan_sequence c suffix loc = (false, termSeqEndPos loc).
Proof.
  intros c suffix loc Hc Hd. unfold scan_sequence. rewrite Hd. cbn.
  apply Z.eqb_neq in Hc. now rewrite Hc.
Qed.

(** One iteration of the loop on an ordinary character at the end of a line. *)
Lemma print_char_at_end :
  forall startY W c suffix loc bd,
    let cur := currentCursorPos loc in
    let r := to_short (Y cur - startY) in
    let line := nth (Z.to_nat r) (contents bd) [] in
    ordinary c ->
    isDetectedTerminalSequence loc = false ->
    atEndOfBuffer loc <> Some false ->
    0 <= r ->
    vec_size (contents bd) = vec_size (contentsCursorData bd) ->
    nth (Z.to_nat r) (contentsCursorData bd) [] = columns (vec_size line) ->
    vec_size line <= X cur ->
    X cur + 1 < W -> W <= 32767 ->
    exists bd' loc',
      print_char true startY W c suffix (bd, loc) = Ok (bd', loc')
      /\ currentCursorPos loc' = mkCOORD (X cur + 1) (Y cur)
      /\ isDetectedTerminalSequence loc' = false
      /\ atEndOfBuffer loc' = Some true
      /\ newlineCount loc' = newlineCount loc
      /\ vec_size (contents bd') = vec_size (contentsCursorData bd')
      /\ nth (Z.to_nat r) (contents bd') []
         = line ++ repeat SPACE (Z.to_nat (X cur - vec_size line)) ++ [c]
      /\ nth (Z.to_nat r) (contentsCursorData bd') [] = columns (X cur + 1)
      /\ (forall i, i <> Z.to_nat r ->
            nth i (contents bd') [] = nth i (contents bd) []
            /\ nth i (contentsCursorData bd') [] = nth i (contentsCursorData bd) []).
Proof.
  intros startY W c suffix loc bd cur r line (Hnul & Hnl & Hesc) Hd Hend Hr Hsizes Hcp Hx HW HW'.
  pose proof (vec_size_nonneg _ line) as Hline0.
  subst cur r line.
  destruct (store_char_at_end startY c loc bd Hnl Hend Hr Hsizes Hcp)
    as (bd' & Hs & Hsz & Hrow & Hcols & Hothers); [lia |].
  unfold print_char. rewrite (scan_sequence_ordinary c suffix loc Hesc Hd).
  rewrite Hs. cbn [bind]. unfold advance_cursor.
  assert (E1 : (c =? NEWLINE) = false) by (now apply Z.eqb_neq).
  rewrite E1. rewrite (to_short_id (X (currentCursorPos loc) + 1)) by lia.
  assert (E2 : (X (currentCursorPos loc) + 1 =? W) = false) by (apply Z.eqb_neq; lia).
  rewrite E2. cbn [bind].
  eexists. eexists. split; [reflexivity |]. cbn.
  repeat split; try assumption; apply Hothers; assumption.
Qed.

Lemma print_loop_plain :
  forall startY W s c loc bd,
    let cur := currentCursorPos loc in
    let r := to_short (Y cur - startY) in
    let line := nth (Z.to_nat r) (contents bd) [] in
    Forall ordinary (c :: s) ->
    isDetectedTerminalSequence loc = false ->
    atEndOfBuffer loc <> Some false ->
    0 <= r ->
    vec_size (contents bd) = vec_size (contentsCursorData bd) ->
    nth (Z.to_nat r) (contentsCursorData bd) [] = columns (vec_size line) ->
    vec_size line <= X cur ->
    X cur + vec_size (c :: s) < W -> W <= 32767 ->
    exists bd' loc',
      print_loop true startY W (c :: s) (bd, loc) = Ok (bd', loc')
      /\ newlineCount loc' = newlineCount loc
      /\ nth (Z.to_nat r) (contents bd') []
         = line ++ repeat SPACE (Z.to_nat (X cur - vec_size line)) ++ c :: s
      /\ nth (Z.to_nat r) (contentsCursorData bd') []
         = columns (X cur + vec_size (c :: s))
      /\ (forall i, i <> Z.to_nat r ->
            nth i (contents bd') [] = nth i (contents bd) []
            /\ nth i (contentsCursorData bd') [] = nth i (contentsCursorData bd) []).
Proof.
  intros startY W s. induction s as [| c' s IH];
    intros c loc bd cur r line Hord Hd Hend Hr Hsizes Hcp Hx HW HW'.
  - inversion Hord as [| ? ? Hc _]; subst. subst cur r line.
    destruct (print_char_at_end startY W c [c] loc bd Hc Hd Hend Hr Hsizes Hcp Hx)
      as (bd' & loc' & Hp & _ & _ & _ & Hn & _ & Hrow & Hcols & Hothers);
      [cbn in HW; lia | exact HW' |].
    cbn [print_loop]. rewrite Hp. cbn [bind].
    exists bd', loc'. repeat split; try assumption; apply Hothers; assumption.
  - inversion Hord as [| ? ? Hc Hrest]; subst. subst cur r line.
    set (cur := currentCursorPos loc) in *.
    set (r := to_short (Y cur - startY)) in *.
    set (line := nth (Z.to_nat r) (contents bd) []) in *.
    pose proof (vec_size_nonneg _ line) as Hline0.
    assert (HWs : X cur + 1 + vec_size (c' :: s) < W).
    { unfold vec_size in *. cbn [length] in *. lia. }
    pose proof (vec_size_nonneg _ (c' :: s)) as Hs0.
    destruct (print_char_at_end startY W c (c :: c' :: s) loc bd Hc Hd Hend Hr Hsizes Hcp Hx)
      as (bd1 & loc1 & Hp & Hcur1 & Hd1 & Hend1 & Hn1 & Hsz1 & Hrow1 & Hcols1 & Hothers1);
      [fold cur; lia | exact HW' |].
    cbn [print_loop]. rewrite Hp. cbn [bind].
    fold cur in Hcur1, Hrow1, Hcols1, Hothers1.
    fold r in Hrow1, Hcols1, Hothers1. fold line in Hrow1.
    assert (Hr1 : to_short (Y (currentCursorPos loc1) - startY) = r).
    { rewrite Hcur1. reflexivity. }
    assert (Hlen1 : vec_size (nth (Z.to_nat r) (contents bd1) []) = X cur + 1).
    { rewrite Hrow1. rewrite !vec_size_app. unfold vec_size in *.
      rewrite repeat_length. cbn [length]. lia. }
    specialize (IH c' loc1 bd1). cbv zeta in IH.
    rewrite Hr1, Hcur1 in IH. cbn [X Y] in IH. rewrite Hlen1 in IH.
    destruct IH as (bd' & loc' & Hp' & Hn' & Hrow' & Hcols' & Hothers');
      try assumption; try lia.
    { rewrite Hend1. discriminate. }
    exists bd', loc'. split; [exact Hp' |]. split; [congruence |]. split.
    { rewrite Hrow', Hrow1. replace (Z.to_nat (X cur + 1 - (X cur + 1))) with O by lia.
      cbn [repeat app]. rewrite <- !app_assoc. reflexivity. }
    split.
    { rewrite Hcols'. f_equal. unfold vec_size. cbn [length]. lia. }
    intros i Hi. destruct (Hothers' i Hi) as [-> ->]. apply Hothers1. exact Hi.
Qed.

Lemma c_str_ordinary : forall s, Forall ordinary s -> c_str s = s.
Proof.
  induction s as [| c s IH]; intro H; [reflexivity |].
  inversion H as [| ? ? (Hnul & _) Hs]; subst. cbn [c_str].
  apply Z.eqb_neq in Hnul. rewrite Hnul. now rewrite IH.
Qed.

Section PlainText.

Context {host : Type} {win : WinConsole host}.
Variable programSettings : ProgramSettings.

Local Abbreviation current st := (getCurrentBufferData programSettings st false).

(** X6.  Recording plain text.  Take a string [s] of ordinary characters (no
    terminator, line feed or escape), a cursor on row [r] of the screen, at or
    beyond the end of the line recorded for that row, with the text fitting
    before the last column of the window, and a line that holds no escape
    sequence yet (its column index is [0; 1; ...]).  Then a recorded [print]
    of [s] returns; the line becomes the old line, padded with spaces up to
    the cursor column, followed by [s]; its column index stays [0; 1; ...];
    and no other row of the line store changes. *)
Theorem print_records_plain_text :
  forall (st : @t host) (s : wstring),
    let bd := current st in
    let cursor := getCursorPos programSettings st in
    let r := to_short (Y cursor
                       - Y (cursorStartPos (getCurrentBufferData programSettings st true))) in
    let line := nth (Z.to_nat r) (contents bd) [] in
    s <> [] ->
    Forall ordinary s ->
    0 <= r ->
    vec_size (contents bd) = vec_size (contentsCursorData bd) ->
    nth (Z.to_nat r) (contentsCursorData bd) [] = columns (vec_size line) ->
    vec_size line <= X cursor ->
    X cursor + vec_size s < to_short (GetMaximumWindowSizeX (console st) (handle bd)) ->
    exists st',
      print programSettings st s true = Ok st'
      /\ nth (Z.to_nat r) (contents (current st')) []
         = line ++ repeat SPACE (Z.to_nat (X cursor - vec_size line)) ++ s
      /\ nth (Z.to_nat r) (contentsCursorData (current st')) []
         = columns (X cursor + vec_size s)
      /\ (forall i, i <> Z.to_nat r ->
            nth i (contents (current st')) [] = nth i (contents bd) []
            /\ nth i (contentsCursorData (current st')) []
               = nth i (contentsCursorData bd) []).
Proof.
  intros st s bd cursor r line Hne Hord Hr Hsizes Hcp Hx HW.
  destruct s as [| c s]; [congruence |].
  unfold print. rewrite (c_str_ordinary _ Hord).
  fold bd. fold cursor.
  set (W := to_short (GetMaximumWindowSizeX (console st) (handle bd))) in *.
  set (startY := Y (cursorStartPos (getCurrentBufferData programSettings st true))) in *.
  destruct (print_loop_plain startY W s c (initLocals cursor) bd Hord eq_refl)
    as (bd' & loc' & Hp & Hn & Hrow & Hcols & Hothers);
    try assumption.
  { cbn. discriminate. }
  { unfold W. pose proof (to_short_range (GetMaximumWindowSizeX (console st) (handle bd))).
    lia. }
  rewrite Hp. cbn [bind]. eexists. split; [reflexivity |].
  assert (Hcur : current (write_and_track_scroll programSettings
                            (update_current (fun _ => bd') st) (c :: s) loc') = bd').
  { unfold write_and_track_scroll. rewrite Hn. cbn [initLocals newlineCount].
    cbn [Z.gtb Z.compare].
    unfold writeToConsole.
    destruct (strLength loc' =? 0); destruct st as [main [| top rest] con];
      unfold update_current, getCurrentBufferData; rewrite ?andb_false_r; reflexivity. }
  rewrite Hcur. cbn [initLocals currentCursorPos] in *.
  repeat split; try assumption; apply Hothers; assumption.
Qed.

End PlainText.

Lemma print_records_plain_text_witness :
  exists st',
    print Samples.settings (Samples.engine_at (mkCOORD 3 0)) (L "AB") true = Ok st'
    /\ contents (getCurrentBufferData Samples.settings st' false) = [L "   AB"]
    /\ contentsCursorData (getCurrentBufferData Samples.settings st' false)
       = [[0; 1; 2; 3; 4]].
Proof.
  destruct (print_records_plain_text Samples.settings (Samples.engine_at (mkCOORD 3 0))
              (L "AB"))
    as (st' & Hp & _).
  - discriminate.
  - repeat constructor; discriminate.
  - vm_compute. discriminate.
  - reflexivity.
  - reflexivity.
  - vm_compute. discriminate.
  - vm_compute. reflexivity.
  - exists st'. split; [exact Hp |].
    assert (E : print Samples.settings (Samples.engine_at (mkCOORD 3 0)) (L "AB") true
                = Ok (Samples.or_else
                        (print Samples.settings (Samples.engine_at (mkCOORD 3 0))
                           (L "AB") true)
                        (Samples.engine_at (mkCOORD 3 0))))
      by (vm_compute; reflexivity).
    rewrite E in Hp. inversion Hp; subst st'. split; vm_compute; reflexivity.
Defined.

(* ------------------------------------------------------------------ *)

(** No character of a match is a line feed. *)
Lemma regex_search_no_line_feed :
  forall (s : wstring) (len : Z),
    regex_search s = Some len ->
    Forall (fun x => x <> NEWLINE) (firstn (Z.to_nat len) s).
Proof.
  intros s len H. unfold regex_search in H.
  destruct (rmatch TERMINAL_SEQUENCE_REGEX s (fun rest => Some rest)) as [rest |] eqn:E;
    [| discriminate].
  inversion H; subst len; clear H.
  destruct (rmatch_consumed NEWLINE TERMINAL_SEQUENCE_REGEX
              s (fun rest => Some rest) rest eq_refl E)
    as (pre & s' & -> & Hpre & Hk & _).
  inversion Hk; subst s'.
  rewrite vec_size_app.
  replace (Z.to_nat (vec_size pre + vec_size rest - vec_size rest))
    with (length pre + 0)%nat by (unfold vec_size; lia).
  rewrite firstn_app_2. cbn. now rewrite app_nil_r.
Qed.

(** A match is the escape character and characters that are neither an escape
    nor a line feed. *)
Lemma matched_sequence_shape :
  forall (seq rest : wstring),
    regex_search (seq ++ rest) = Some (vec_size seq) ->
    exists seq',
      seq = VIRTUAL_TERMINAL_SEQUENCE_ESCAPE :: seq'
      /\ Forall (fun x => x <> VIRTUAL_TERMINAL_SEQUENCE_ESCAPE /\ x <> NEWLINE) seq'.
Proof.
  intros seq rest H.
  pose proof (regex_search_no_line_feed _ _ H) as Hnl.
  apply regex_search_match in H. destruct H as (s' & Hs & Hlen & Hesc).
  destruct seq as [| x seq'].
  - unfold vec_size in Hlen. cbn in Hlen. lia.
  - cbn [app] in Hs. inversion Hs; subst x s'. exists seq'. split; [reflexivity |].
    replace (Z.to_nat (vec_size (VIRTUAL_TERMINAL_SEQUENCE_ESCAPE :: seq') - 1))
      with (length seq' + 0)%nat in Hesc by (unfold vec_size; cbn [length]; lia).
    rewrite firstn_app_2 in Hesc. cbn in Hesc. rewrite app_nil_r in Hesc.
    replace (Z.to_nat (vec_size (VIRTUAL_TERMINAL_SEQUENCE_ESCAPE :: seq')))
      with (length (VIRTUAL_TERMINAL_SEQUENCE_ESCAPE :: seq') + 0)%nat in Hnl
      by (unfold vec_size; lia).
    change (VIRTUAL_TERMINAL_SEQUENCE_ESCAPE :: seq' ++ rest)
      with ((VIRTUAL_TERMINAL_SEQUENCE_ESCAPE :: seq') ++ rest) in Hnl.
    rewrite firstn_app_2 in Hnl. cbn [firstn] in Hnl. rewrite app_nil_r in Hnl.
    inversion Hnl as [| ? ? _ Hnl']; subst.
    rewrite Forall_forall in *. intros x Hx. split; auto.
Qed.

(** Inside a detected sequence an iteration moves no cursor. *)
Lemma print_char_inside_sequence :
  forall startY W c suffix bd loc bd' loc',
    c <> NEWLINE ->
    fst (scan_sequence c suffix loc) = true ->
    print_char true startY W c suffix (bd, loc) = Ok (bd', loc') ->
    currentCursorPos loc' = currentCursorPos loc
    /\ isDetectedTerminalSequence loc' = true
    /\ termSeqEndPos loc' = snd (scan_sequence c suffix loc)
    /\ strPos loc' = strPos loc + 1
    /\ atEndOfBuffer loc' <> None.
Proof.
  intros startY W c suffix bd loc bd' loc' Hc Hscan H.
  pose proof (print_char_locals _ _ _ _ _ _ _ _ _ H) as Hl. cbv zeta in Hl.
  destruct Hl as (Hd & He & Hp & _ & _ & Hadv).
  rewrite Hscan in Hadv, Hd. unfold advance_cursor in Hadv.
  apply Z.eqb_neq in Hc. rewrite Hc in Hadv. inversion Hadv as [[Hcur Hlen]].
  repeat split; try assumption.
  unfold print_char in H.
  destruct (scan_sequence c suffix loc) as [detected endPos].
  inv_bind H as [[[bd1 cur1] seqLen1] atEnd1] E.
  inv_bind E as [bd2 atEnd] E'.
  destruct (advance_cursor W c detected (currentCursorPos loc) (termSeqLength loc)).
  inversion E; subst. inversion H; subst. cbn. discriminate.
Qed.


Lemma vec_get_inv :
  forall (A : Type) (v : list A) (i : Z) (a d : A),
    vec_get v i = Ok a -> 0 <= i < vec_size v /\ a = nth (Z.to_nat i) v d.
Proof.
  intros A v i a d H. unfold vec_get in H.
  destruct ((0 <=? i) && (i <? Z.of_nat (length v))) eqn:E; [| discriminate].
  apply andb_true_iff in E as [E1 E2]. apply Z.leb_le in E1. apply Z.ltb_lt in E2.
  destruct (nth_error v (Z.to_nat i)) eqn:En; [| discriminate].
  inversion H; subst. split; [unfold vec_size; lia |].
  symmetry. now apply nth_error_nth.
Qed.

Lemma vec_set_inv :
  forall (A : Type) (v : list A) (i : Z) (a : A) (v' : list A),
    vec_set v i a = Ok v' -> 0 <= i < vec_size v /\ v' = list_set v (Z.to_nat i) a.
Proof.
  intros A v i a v' H. unfold vec_set in H.
  destruct ((0 <=? i) && (i <? Z.of_nat (length v))) eqn:E; [| discriminate].
  apply andb_true_iff in E as [E1 E2]. apply Z.leb_le in E1. apply Z.ltb_lt in E2.
  inversion H; subst. split; [unfold vec_size; lia | reflexivity].
Qed.

Lemma pad_line_length :
  forall (n : nat) (line : wstring) (cp : list Z),
    length (fst (pad_line n line cp)) = (length line + n)%nat
    /\ length (snd (pad_line n line cp)) = (length cp + n)%nat.
Proof.
  induction n as [| n IH]; intros line cp; cbn [pad_line fst snd]; [lia |].
  destruct (IH (line ++ [SPACE]) (cp ++ [vec_size line])) as [H1 H2].
  rewrite H1, H2, !length_app. cbn. lia.
Qed.

Lemma pad_cursor_length :
  forall (n : nat) (cp : list Z), length (pad_cursor n cp) = (length cp + n)%nat.
Proof.
  induction n as [| n IH]; intro cp; cbn [pad_cursor]; [lia |].
  rewrite IH, length_app. cbn. lia.
Qed.

(** Padding a line up to the cursor reaches the cursor, and padding again
    does nothing, whatever has been appended to the line since. *)
Lemma pad_columns_again :
  forall (line : wstring) (cp : list Z) (x : Z) (line1 : wstring) (cp1 : list Z)
         (more : wstring),
    pad_columns line cp x = Ok (line1, cp1) ->
    pad_columns (line1 ++ more) cp1 x = Ok (line1 ++ more, cp1).
Proof.
  intros line cp x line1 cp1 more H. unfold pad_columns in *.
  destruct (x <? 0) eqn:Ex; [discriminate |]. apply Z.ltb_ge in Ex.
  destruct (pad_line (Z.to_nat (x - vec_size line)) line cp) as [l c] eqn:Ep.
  inversion H; subst line1 cp1; clear H.
  pose proof (pad_line_length (Z.to_nat (x - vec_size line)) line cp) as [Hl Hc].
  rewrite Ep in Hl, Hc. cbn [fst snd] in Hl, Hc.
  pose proof (pad_cursor_length (Z.to_nat (x - vec_size c)) c) as Hpc.
  assert (H1 : Z.to_nat (x - vec_size (l ++ more)) = O).
  { rewrite vec_size_app. unfold vec_size in *. lia. }
  rewrite H1. cbn [pad_line].
  assert (H2 : Z.to_nat (x - vec_size (pad_cursor (Z.to_nat (x - vec_size c)) c)) = O).
  { unfold vec_size in *. lia. }
  rewrite H2. reflexivity.
Qed.

(** A character of a detected sequence written at the end of a line: the
    line is padded up to the cursor and takes the character; its column index
    takes nothing. *)
Lemma store_char_inside_sequence :
  forall startY c loc bd bd' atEnd,
    let r := Z.to_nat (to_short (Y (currentCursorPos loc) - startY)) in
    c <> NEWLINE ->
    at_end_of_buffer startY loc bd = true ->
    store_char startY c true loc bd = Ok (bd', atEnd) ->
    atEnd = true
    /\ exists line cp,
         pad_columns (nth r (contents bd) []) (nth r (contentsCursorData bd) [])
           (X (currentCursorPos loc)) = Ok (line, cp)
         /\ nth r (contents bd') [] = line ++ [c]
         /\ nth r (contentsCursorData bd') [] = cp.
Proof.
  intros startY c loc bd bd' atEnd r Hc Hend H. unfold store_char in H.
  inv_bind H as bd1 E1. inv_bind H as line0 E2. inv_bind H as cp0 E3.
  inv_bind H as [line1 cp1] E4. unfold grow_rows in E1.
  destruct (to_short (Y (currentCursorPos loc) - startY) <? 0); [discriminate |].
  inversion E1; subst bd1; clear E1. cbn [contents contentsCursorData set_lines] in *.
  apply (vec_get_inv _ _ _ _ []) in E2 as [Hr2 ->].
  apply (vec_get_inv _ _ _ _ []) in E3 as [Hr3 ->].
  rewrite !nth_app_repeat_default in *. fold r in H, E4.
  unfold at_end_of_buffer in Hend. fold r in Hend. rewrite Hend in H.
  unfold append_char in H. apply Z.eqb_neq in Hc. rewrite Hc in H. cbn [bind] in H.
  inv_bind H as contents' E6. inv_bind H as cursorData' E7.
  apply vec_set_inv in E6 as [_ ->]. apply vec_set_inv in E7 as [_ ->].
  inversion H; subst; clear H. split; [reflexivity |].
  exists line1, cp1. split; [exact E4 |]. cbn [contents contentsCursorData set_lines].
  split; apply nth_list_set_eq; subst r; apply Nat2Z.inj_lt;
    (rewrite Z2Nat.id; [| lia]).
  - exact (proj2 Hr2).
  - exact (proj2 Hr3).
Qed.

Lemma print_char_inside_sequence_at_end :
  forall startY W c suffix bd loc bd' loc',
    let r := Z.to_nat (to_short (Y (currentCursorPos loc) - startY)) in
    c <> NEWLINE ->
    fst (scan_sequence c suffix loc) = true ->
    at_end_of_buffer startY loc bd = true ->
    print_char true startY W c suffix (bd, loc) = Ok (bd', loc') ->
    atEndOfBuffer loc' = Some true
    /\ exists line cp,
         pad_columns (nth r (contents bd) []) (nth r (contentsCursorData bd) [])
           (X (currentCursorPos loc)) = Ok (line, cp)
         /\ nth r (contents bd') [] = line ++ [c]
         /\ nth r (contentsCursorData bd') [] = cp.
Proof.
  intros startY W c suffix bd loc bd' loc' r Hc Hscan Hend H.
  unfold print_char in H.
  destruct (scan_sequence c suffix loc) as [detected endPos]. cbn [fst] in Hscan.
  subst detected.
  inv_bind H as [[[bd1 cur1] seqLen1] atEnd1] E.
  inv_bind E as [bd2 atEnd] E'.
  destruct (advance_cursor W c true (currentCursorPos loc) (termSeqLength loc)).
  inversion E; subst. inversion H; subst. cbn [atEndOfBuffer].
  destruct (store_char_inside_sequence _ _ _ _ _ _ Hc Hend E') as (-> & Hrow).
  split; [reflexivity | exact Hrow].
Qed.

Lemma scan_sequence_inside :
  forall c suffix loc,
    c <> VIRTUAL_TERMINAL_SEQUENCE_ESCAPE ->
    isDetectedTerminalSequence loc = true ->
    strPos loc <= termSeqEndPos loc ->
    scan_sequence c suffix loc = (true, termSeqEndPos loc).
Proof.
  intros c suffix loc Hc Hd Hpos. unfold scan_sequence. rewrite Hd.
  assert (E : (strPos loc >? termSeqEndPos loc) = false).
  { destruct (strPos loc >? termSeqEndPos loc) eqn:E; [| reflexivity].
    apply Z.gtb_lt in E. lia. }
  rewrite E. cbn. apply Z.eqb_neq in Hc. now rewrite Hc.
Qed.

(** The iterations over the rest of a detected sequence. *)
Lemma print_prefix_inside_sequence :
  forall startY W seq' rest bd loc bd' loc',
    Forall (fun x => x <> VIRTUAL_TERMINAL_SEQUENCE_ESCAPE /\ x <> NEWLINE) seq' ->
    isDetectedTerminalSequence loc = true ->
    strPos loc + vec_size seq' - 1 <= termSeqEndPos loc ->
    print_prefix true startY W seq' rest (bd, loc) = Ok (bd', loc') ->
    currentCursorPos loc' = currentCursorPos loc
    /\ (atEndOfBuffer loc = Some true ->
        let r := Z.to_nat (to_short (Y (currentCursorPos loc) - startY)) in
        forall line cp acc,
          (forall more, pad_columns (line ++ more) cp (X (currentCursorPos loc))
                        = Ok (line ++ more, cp)) ->
          nth r (contents bd) [] = line ++ acc ->
          nth r (contentsCursorData bd) [] = cp ->
          nth r (contents bd') [] = line ++ acc ++ seq'
          /\ nth r (contentsCursorData bd') [] = cp).
Proof.
  intros startY W seq'. induction seq' as [| c seq' IH];
    intros rest bd loc bd' loc' Hall Hd Hpos H; cbn [print_prefix] in H.
  - inversion H; subst. split; [reflexivity |].
    intros _ r line cp acc _ Hrow Hcp. rewrite app_nil_r. auto.
  - inversion Hall as [| ? ? [Hesc Hnl] Hall']; subst.
    inv_bind H as [bd1 loc1] E.
    assert (Hpos0 : strPos loc <= termSeqEndPos loc).
    { pose proof (vec_size_nonneg _ seq'). unfold vec_size in *. cbn [length] in Hpos. lia. }
    pose proof (scan_sequence_inside c ((c :: seq') ++ rest) loc Hesc Hd Hpos0) as Hscan.
    assert (Hscan1 : fst (scan_sequence c ((c :: seq') ++ rest) loc) = true)
      by (now rewrite Hscan).
    destruct (print_char_inside_sequence _ _ _ _ _ _ _ _ Hnl Hscan1 E)
      as (Hcur1 & Hd1 & Hend1 & Hpos1 & _).
    rewrite Hscan in Hend1. cbn [snd] in Hend1.
    assert (Hpos' : strPos loc1 + vec_size seq' - 1 <= termSeqEndPos loc1).
    { rewrite Hpos1, Hend1. unfold vec_size in *. cbn [length] in Hpos. lia. }
    destruct (IH rest bd1 loc1 bd' loc' Hall' Hd1 Hpos' H) as [Hcur Hrows].
    split; [congruence |].
    intros Hat r line cp acc Hpad Hrow Hcp.
    assert (Hend : at_end_of_buffer startY loc bd = true).
    { unfold at_end_of_buffer. now rewrite Hat. }
    destruct (print_char_inside_sequence_at_end _ _ _ _ _ _ _ _ Hnl Hscan1 Hend E)
      as (Hat1 & line1 & cp1 & Hp1 & Hrow1 & Hcp1).
    fold r in Hp1, Hrow1, Hcp1. rewrite Hrow, Hcp, Hpad in Hp1.
    inversion Hp1 as [[Hl1 Hc1]]. rewrite <- Hl1 in Hrow1. rewrite <- Hc1 in Hcp1.
    specialize (Hrows Hat1). cbv zeta in Hrows. rewrite Hcur1 in Hrows. fold r in Hrows.
    destruct (Hrows line cp (acc ++ [c]) Hpad) as [Hr' Hc'];
      [now rewrite Hrow1, <- app_assoc | exact Hcp1 |].
    split; [| congruence]. rewrite Hr', <- !app_assoc. reflexivity.
Qed.

(** X7.  A detected escape sequence takes no column.  When the scanner
    matches the whole of [seq] at the head of what is left to print, the
    iterations of the loop of [print] over [seq], recorded, leave the
    simulated cursor where it was; and when the text goes to the end of its
    line, the characters of [seq] are appended to the line (after the padding
    up to the cursor column) while the column index of the line gets no new
    entry. *)
Theorem detected_sequence_takes_no_column :
  forall startY W seq rest bd loc bd' loc',
    regex_search (seq ++ rest) = Some (vec_size seq) ->
    print_prefix true startY W seq rest (bd, loc) = Ok (bd', loc') ->
    currentCursorPos loc' = currentCursorPos loc
    /\ (at_end_of_buffer startY loc bd = true ->
        let r := Z.to_nat (to_short (Y (currentCursorPos loc) - startY)) in
        exists line cp,
          pad_columns (nth r (contents bd) []) (nth r (contentsCursorData bd) [])
            (X (currentCursorPos loc)) = Ok (line, cp)
          /\ nth r (contents bd') [] = line ++ seq
          /\ nth r (contentsCursorData bd') [] = cp).
Proof.
  intros startY W seq rest bd loc bd' loc' Hm H.
  pose proof Hm as Hshape. apply matched_sequence_shape in Hshape.
  destruct Hshape as (seq' & -> & Hall).
  cbn [print_prefix] in H. inv_bind H as [bd1 loc1] E.
  assert (Hscan : scan_sequence VIRTUAL_TERMINAL_SEQUENCE_ESCAPE
                    ((VIRTUAL_TERMINAL_SEQUENCE_ESCAPE :: seq') ++ rest) loc
                  = (true, strPos loc + vec_size (VIRTUAL_TERMINAL_SEQUENCE_ESCAPE :: seq') - 1)).
  { unfold scan_sequence. rewrite Z.eqb_refl, Hm. reflexivity. }
  assert (Hscan1 : fst (scan_sequence VIRTUAL_TERMINAL_SEQUENCE_ESCAPE
                          ((VIRTUAL_TERMINAL_SEQUENCE_ESCAPE :: seq') ++ rest) loc) = true)
    by (now rewrite Hscan).
  assert (Hnl : VIRTUAL_TERMINAL_SEQUENCE_ESCAPE <> NEWLINE) by discriminate.
  destruct (print_char_inside_sequence _ _ _ _ _ _ _ _ Hnl Hscan1 E)
    as (Hcur1 & Hd1 & Hend1 & Hpos1 & _).
  rewrite Hscan in Hend1. cbn [snd] in Hend1.
  assert (Hpos' : strPos loc1 + vec_size seq' - 1 <= termSeqEndPos loc1).
  { rewrite Hpos1, Hend1. unfold vec_size. cbn [length]. lia. }
  destruct (print_prefix_inside_sequence _ _ _ _ _ _ _ _ Hall Hd1 Hpos' H) as [Hcur Hrows].
  split; [congruence |].
  intros Hend r.
  destruct (print_char_inside_sequence_at_end _ _ _ _ _ _ _ _ Hnl Hscan1 Hend E)
    as (Hat1 & line & cp & Hp & Hrow1 & Hcp1).
  fold r in Hp, Hrow1, Hcp1.
  exists line, cp. split; [exact Hp |].
  specialize (Hrows Hat1). cbv zeta in Hrows. rewrite Hcur1 in Hrows. fold r in Hrows.
  destruct (Hrows line cp [VIRTUAL_TERMINAL_SEQUENCE_ESCAPE]
              (fun more => pad_columns_again _ _ _ _ _ more Hp) Hrow1 Hcp1) as [Hr' Hc'].
  split; [| exact Hc']. rewrite Hr'. reflexivity.
Qed.

Lemma detected_sequence_takes_no_column_witness :
  currentCursorPos (snd Scenarios.after_grey) = mkCOORD 3 0
  /\ nth 0 (contents (fst Scenarios.after_grey)) [] = L "   " ++ Scenarios.grey
  /\ nth 0 (contentsCursorData (fst Scenarios.after_grey)) [] = [0; 1; 2].
Proof.
  destruct (detected_sequence_takes_no_column 0 80 Scenarios.grey []
              (newBufferData 7) (initLocals (mkCOORD 3 0))
              (fst Scenarios.after_grey) (snd Scenarios.after_grey))
    as [Hc Hrow].
  - vm_compute. reflexivity.
  - vm_compute. reflexivity.
  - split; [exact Hc |].
    destruct (Hrow eq_refl) as (line & cp & Hpad & Hl & Hcp).
    vm_compute in Hpad. inversion Hpad; subst line cp. split; assumption.
Defined.

Section DestructorProperties.

Context {host : Type} {win : WinConsole host}.
Variable programSettings : ProgramSettings.

Lemma restore_all_native :
  forall (alt : list BufferData) (fuel : nat) (main : BufferData) (h : host),
    useCustomBufferBehavior programSettings = false ->
    (length alt <= fuel)%nat ->
    exists h', restore_all programSettings fuel (mk main alt h) = Some (Ok (mk main [] h')).
Proof.
  induction alt as [| top rest IH]; intros fuel main h Hnative Hfuel.
  - exists h. destruct fuel; reflexivity.
  - destruct fuel as [| fuel]; [cbn in Hfuel; lia |].
    cbn [restore_all altBufferData]. unfold restorePreviousBuffer.
    cbn [altBufferData]. rewrite Hnative. cbn [bind].
    unfold set_console. cbn [mainBufferData altBufferData console].
    apply IH; [assumption | cbn in Hfuel; lia].
Qed.

(** X8.  The destructor with native buffers.  Its loop ends after one
    iteration for each alternate screen, and leaves no alternate screen and
    the main screen's data untouched; then the cursor is made visible.  When
    the cursor of the main screen is visible already the engine left is
    exactly the main screen, no alternate screens, and the console. *)
Theorem destructor_closes_native_alternate_screens :
  forall (fuel : nat) (st : @t host),
    useCustomBufferBehavior programSettings = false ->
    (length (altBufferData st) <= fuel)%nat ->
    exists h,
      let st1 := mk (mainBufferData st) [] h in
      destructor programSettings fuel st
      = Some (toggleCursorVisibilityTo programSettings st1 true)
      /\ (cursorIsVisible (mainBufferData st) = true ->
          destructor programSettings fuel st = Some (Ok st1)).
Proof.
  intros fuel [main alt h0] Hnative Hfuel. cbn [altBufferData mainBufferData] in *.
  destruct (restore_all_native alt fuel main h0 Hnative Hfuel) as (h & Hr).
  exists h. cbv zeta. unfold destructor. rewrite Hnative. cbn [negb]. rewrite Hr.
  split; [reflexivity |]. intros Hvisible.
  unfold toggleCursorVisibilityTo, getCurrentBufferData.
  cbn [altBufferData mainBufferData]. rewrite andb_false_r, Hvisible. reflexivity.
Qed.

End DestructorProperties.

Lemma destructor_closes_native_alternate_screens_witness :
  exists h,
    destructor Samples.native_settings 2 Scenarios.two_alternates
    = Some (Ok (mk (newBufferData 7) [] h)).
Proof.
  destruct (destructor_closes_native_alternate_screens Samples.native_settings 2%nat
              Scenarios.two_alternates eq_refl (le_n 2)) as (h & _ & H).
  exists h. exact (H eq_refl).
Defined.

Section ExitHandlerProperties.

Context {host : Type} {win : WinConsole host}.
Variable programSettings : ProgramSettings.

(** X9.  The exit handler, in both modes.  With at most 65535 alternate
    screens on the stack, its loop over [restorePreviousBuffer] ends after one
    iteration for each of them, raises nothing, and leaves an engine with no
    alternate screen and with the records of the main screen as they were. *)
Theorem exit_handler_restores_main_screen :
  forall (fuel : nat) (st : @t host),
    vec_size (altBufferData st) <= 65535 ->
    (length (altBufferData st) <= fuel)%nat ->
    exists st',
      clear_alternate_buffers programSettings fuel st = Some (Ok st')
      /\ altBufferData st' = []
      /\ recorded (mainBufferData st') = recorded (mainBufferData st).
Proof.
  induction fuel as [| fuel IH]; intros st Hmax Hfuel.
  - destruct (altBufferData st) as [| top rest] eqn:Halt; [| cbn in Hfuel; lia].
    exists st. cbn [clear_alternate_buffers]. unfold getCurrentBufferNum.
    rewrite Halt. repeat split; auto.
  - cbn [clear_alternate_buffers]. unfold getCurrentBufferNum.
    destruct (altBufferData st) as [| top rest] eqn:Halt.
    + exists st. repeat split; auto.
    + assert (Hn : to_ushort (vec_size (top :: rest)) = vec_size (top :: rest)).
      { unfold to_ushort. apply Z.mod_small. unfold vec_size in *. lia. }
      rewrite Hn.
      assert (Hpos : (vec_size (top :: rest) >? 0) = true).
      { apply Z.gtb_lt. unfold vec_size. cbn [length]. lia. }
      rewrite Hpos.
      assert (Hrest : vec_size rest <= 65535 /\ (length rest <= fuel)%nat).
      { unfold vec_size in *. cbn [length] in *. lia. }
      destruct (useCustomBufferBehavior programSettings) eqn:Hcustom.
      * destruct (restorePreviousBuffer_virtualized programSettings st top rest Hcustom Halt)
          as (s1 & -> & Hm & Ha).
        assert (Hlen : length (altBufferData s1) = length rest).
        { apply (f_equal (@length _)) in Ha. now rewrite !length_map in Ha. }
        destruct (IH s1) as (st' & Hr & Hempty & Hmain).
        -- unfold vec_size in *. rewrite Hlen. lia.
        -- rewrite Hlen. lia.
        -- exists st'. split; [exact Hr |]. split; [exact Hempty |]. congruence.
      * destruct (restorePreviousBuffer_native programSettings st top rest Hcustom Halt)
          as (h & ->).
        destruct (IH (mk (mainBufferData st) rest h)) as (st' & Hr & Hempty & Hmain).
        -- cbn [altBufferData]. lia.
        -- cbn [altBufferData]. lia.
        -- exists st'. split; [exact Hr |]. split; [exact Hempty | exact Hmain].
Qed.

End ExitHandlerProperties.

Lemma exit_handler_restores_main_screen_witness :
  exists st',
    clear_alternate_buffers Samples.settings 2 Scenarios.two_alternates = Some (Ok st')
    /\ altBufferData st' = [].
Proof.
  destruct (exit_handler_restores_main_screen Samples.settings 2
              Scenarios.two_alternates)
    as (st' & Hr & Hempty & _).
  - vm_compute. discriminate.
  - apply le_n.
  - exists st'. split; assumption.
Defined.

Section Hotkeys.

Context {C : Type} {io : ConsoleIO C}.

Import MenuOptionList.


Lemma hotkey_loop_none :
  forall (opts : list MenuOption.t) (i : Z) (keyChar : wchar_t),
    Forall (fun o => answers_to keyChar o = false) opts ->
    Console.hotkey_loop opts i keyChar = None.
Proof.
  induction opts as [| b opts IH]; intros i keyChar H; cbn [Console.hotkey_loop];
    [reflexivity |].
  inversion H as [| ? ? Hb Hrest]; subst. unfold answers_to in Hb.
  rewrite (IH (i + 1) keyChar Hrest).
  destruct (MenuOption.hotkey b) as [h |]; [rewrite Hb |]; reflexivity.
Qed.

Lemma is_character_key_tests :
  forall key,
    is_character_key key = true ->
    (wVirtualKeyCode key =? VK_DOWN) || (wVirtualKeyCode key =? VK_UP) = false
    /\ (49 <=? wVirtualKeyCode key) && (wVirtualKeyCode key <=? 57) = false.
Proof.
  intros key H. unfold is_character_key in H. apply andb_true_iff in H as [H1 H2].
  apply negb_true_iff in H1. apply negb_true_iff in H2. auto.
Qed.

(** A key that selects nothing: no arrow, no digit, and no enabled option
    with its character as hotkey. *)
Lemma select_by_key_unmatched :
  forall (key : WinConsoleInputKey) (m : MenuOptionList.t) (prev : Z),
    is_character_key key = true ->
    Forall (fun o => answers_to (towlower (UnicodeChar key)) o = false) (options m) ->
    Console.select_by_key key m prev = Ok (prev, (false, false)).
Proof.
  intros key m prev Hk Hnone. unfold Console.select_by_key.
  destruct (is_character_key_tests key Hk) as [-> ->].
  destruct (negb (UnicodeChar key =? NUL)); [| reflexivity].
  now rewrite hotkey_loop_none.
Qed.

(** X10.  A key that is no arrow and no digit from 1 to 9, and whose
    character (in lower case) is the hotkey of no enabled option, is not
    handled by the navigation action: the list, the console and the current
    selection come back unchanged, with (false, false), so the next action
    sees the key. *)
Theorem unmatched_key_is_left_to_the_next_action :
  forall (key : WinConsoleInputKey) (m : MenuOptionList.t) (con : C)
         (currentSelectionNum : option Z),
    is_character_key key = true ->
    Forall (fun o => answers_to (towlower (UnicodeChar key)) o = false) (options m) ->
    Console.DEFAULT_NAVIGATION_ACTIONS key m con currentSelectionNum
    = Ok (m, con, currentSelectionNum, (false, false)).
Proof.
  intros key m con cur Hk Hnone. unfold Console.DEFAULT_NAVIGATION_ACTIONS.
  rewrite select_by_key_unmatched by assumption. cbn [bind].
  now rewrite Z.eqb_refl.
Qed.















Lemma selection_loop_stopped :
  forall (fuel : nat) (actions : list Console.Action) (maxWaitTime : Z)
         (m : MenuOptionList.t) (con : C) (sel : option Z)
         (key : option WinConsoleInputKey) (stop : Console.InputProcessingResult),
    snd stop = true ->
    Console.selection_loop fuel actions maxWaitTime m con sel key stop
    = Some (Ok (m, con, sel)).
Proof.
  intros fuel actions maxWaitTime m con sel key stop Hstop.
  destruct fuel; cbn [Console.selection_loop]; unfold Console.keep_waiting;
    rewrite Hstop; reflexivity.
Qed.

(** X16.  Escape cancels.  With the default actions and no status message
    staged, when the first key that arrives is Escape, and its character is
    the hotkey of no enabled option, [waitForSelection] returns at once with
    no selection; options and selected option are what they were. *)
Theorem escape_key_returns_no_selection :
  forall (fuel : nat) (m : MenuOptionList.t) (con con1 : C) (maxWaitTime : Z)
         (key : WinConsoleInputKey),
    statusMessage m = [] ->
    Console.waitForValidInput m con maxWaitTime true = (con1, Some key) ->
    wVirtualKeyCode key = VK_ESCAPE ->
    Forall (fun o => answers_to (towlower (UnicodeChar key)) o = false) (options m) ->
    exists m' con',
      Console.waitForSelection (S fuel) Console.DEFAULT_ACTIONS m con maxWaitTime
      = Some (Ok (m', con', None))
      /\ options m' = options m
      /\ selectedOptionNum m' = selectedOptionNum m.
Proof.
  intros fuel m con con1 maxWaitTime key Hmsg Hkey Hesc Hnone.
  unfold Console.waitForSelection, Console.printMenuOptionStatusMessage.
  rewrite Hmsg, Hkey. cbn [Console.selection_loop].
  unfold Console.keep_waiting at 1. rewrite Hesc. cbn [snd negb andb Z.eqb VK_ESCAPE VK_RETURN].
  change (27 =? 13) with false. cbn [negb].
  unfold Console.DEFAULT_ACTIONS. cbn [Console.run_actions].
  assert (Hchar : is_character_key key = true)
    by (unfold is_character_key; now rewrite Hesc).
  unfold Console.DEFAULT_NAVIGATION_ACTIONS.
  rewrite select_by_key_unmatched by assumption. cbn [bind].
  match goal with |- context [?a =? ?a] => rewrite (Z.eqb_refl a) end.
  cbn [bind fst snd orb]. unfold Console.DEFAULT_ESCAPE_ACTION.
  rewrite Hesc, Z.eqb_refl. cbn [bind fst snd orb].
  unfold Console.printMenuOptionStatusMessage. rewrite Hmsg.
  destruct (hasActiveStatusMessage m) eqn:Hactive.
  - destruct (con_time con1) as [con' now].
    unfold hasExpiredStatusMessage.
    unfold hasActiveStatusMessage in Hactive. rewrite Hactive.
    destruct (now - statusMessageIssueTime m >? STATUS_MESSAGE_LIFETIME);
      rewrite selection_loop_stopped by reflexivity;
      eexists; eexists; split; try reflexivity; split; reflexivity.
  - rewrite selection_loop_stopped by reflexivity.
    eexists. eexists. split; [reflexivity |]. split; reflexivity.
Qed.

End Hotkeys.

Lemma unmatched_key_is_left_to_the_next_action_witness :
  Console.DEFAULT_NAVIGATION_ACTIONS (mkKey 88 120) Samples.one_quit_two tt (Some 0)
  = Ok (Samples.one_quit_two, tt, Some 0, (false, false)).
Proof.
  apply (unmatched_key_is_left_to_the_next_action (mkKey 88 120) Samples.one_quit_two tt
           (Some 0)).
  - reflexivity.
  - repeat constructor.
Defined.






Lemma escape_key_returns_no_selection_witness :
  exists m' con',
    Console.waitForSelection 1 Console.DEFAULT_ACTIONS Samples.one_quit_two
      [Scenarios.escape_key] 1000
    = Some (Ok (m', con', None)).
Proof.
  destruct (escape_key_returns_no_selection 0 Samples.one_quit_two [Scenarios.escape_key]
              [] 1000 Scenarios.escape_key)
    as (m' & con' & Hr & _).
  - reflexivity.
  - reflexivity.
  - reflexivity.
  - repeat constructor.
  - exists m', con'. exact Hr.
Defined.

Section Truncation.

Import Utils.

(** X17.  [truncateString] with a limit of at least 3 returns at most
    [maxLength] characters: the string itself when it fits, otherwise its
    first [maxLength - 3] characters and an ellipsis, [maxLength] characters
    in all.  With a limit below 3 the subtraction wraps around and a string
    longer than the limit comes back whole with an ellipsis added, longer
    than it was. *)
Theorem truncateString_length :
  forall (str : wstring) (maxLength : Z),
    0 <= maxLength <= SIZE_MAX ->
    (3 <= maxLength ->
     vec_size (truncateString str maxLength) <= maxLength
     /\ (maxLength < vec_size str ->
         truncateString str maxLength
         = firstn (Z.to_nat (maxLength - 3)) str ++ L "..."
         /\ vec_size (truncateString str maxLength) = maxLength))
    /\ (maxLength < 3 -> maxLength < vec_size str <= SIZE_MAX - 3 ->
        truncateString str maxLength = str ++ L "...").
Proof.
  intros str maxLength Hm. unfold truncateString, wstring_prefix, SIZE_MAX in *. split.
  - intros H3. rewrite to_size_t_id by (unfold SIZE_MAX; lia).
    destruct (vec_size str <=? maxLength) eqn:E.
    + apply Z.leb_le in E. split; [exact E | lia].
    + apply Z.leb_gt in E.
      assert (Hlen : vec_size (firstn (Z.to_nat (maxLength - 3)) str ++ L "...") = maxLength).
      { rewrite vec_size_app. unfold vec_size in *. rewrite length_firstn. cbn. lia. }
      split; [lia | intros _; split; [reflexivity | exact Hlen]].
  - intros H3 Hs.
    assert (E : (vec_size str <=? maxLength) = false) by (apply Z.leb_gt; lia).
    rewrite E. f_equal. apply firstn_all2. unfold to_size_t.
    replace ((maxLength - 3) mod 18446744073709551616)
      with (maxLength - 3 + 18446744073709551616).
    + unfold vec_size in *. lia.
    + apply Z.mod_unique with (q := -1); lia.
Qed.


Lemma first_segment_split :
  forall s : wstring,
    exists first tail,
      s = first ++ tail
      /\ no_separator first
      /\ vec_size first = first_segment_length s
      /\ (tail = [] \/ is_separator (hd NUL tail) = true).
Proof.
  induction s as [| c s IH].
  - exists [], []. repeat split; auto. constructor.
  - cbn [first_segment_length]. destruct (is_separator c) eqn:E.
    + exists [], (c :: s). repeat split; auto. constructor.
    + destruct IH as (first & tail & -> & Hf & Hlen & Ht).
      exists (c :: first), tail. repeat split; auto.
      * constructor; assumption.
      * unfold vec_size in *. cbn [length]. lia.
Qed.

Lemma erase_until_fits_spec :
  forall (pre rest : wstring) (maxLength : Z),
    let left := erase_until_fits pre rest maxLength in
    exists erased,
      rest = erased ++ left
      /\ (rest <> [] -> erased <> [])
      /\ (left <> [] ->
          is_separator (hd NUL left) = true
          /\ vec_size (pre ++ left) <= to_size_t (maxLength - 3)).
Proof.
  intros pre rest maxLength. induction rest as [| c rest IH]; cbn [erase_until_fits].
  - exists []. repeat split; auto; congruence.
  - destruct (is_separator (hd NUL rest)
              && (vec_size (pre ++ rest) <=? to_size_t (maxLength - 3))) eqn:E.
    + exists [c]. repeat split; auto; try discriminate.
      * apply andb_true_iff in E. tauto.
      * apply andb_true_iff in E as [_ E]. now apply Z.leb_le.
    + cbv zeta in IH. destruct IH as (erased & Hr & _ & Hl).
      exists (c :: erased). repeat split; try discriminate.
      * cbn [app]. now rewrite <- Hr.
      * now apply Hl.
      * now apply Hl.
Qed.

Lemma name_after_last_separator_spec :
  forall (backwards name r : wstring),
    name_after_last_separator backwards name = Ok r ->
    exists before sep mid,
      backwards = rev mid ++ sep :: before
      /\ is_separator sep = true
      /\ no_separator mid
      /\ r = mid ++ name.
Proof.
  induction backwards as [| c before IH]; intros name r H; cbn in H; [discriminate |].
  destruct (is_separator c) eqn:E.
  - inversion H; subst. exists before, c, []. repeat split; auto. constructor.
  - destruct (IH _ _ H) as (b & sep & mid & -> & Hs & Hm & ->).
    exists b, sep, (mid ++ [c]). repeat split; auto.
    + rewrite rev_app_distr. reflexivity.
    + apply Forall_app. split; [assumption | constructor; [assumption | constructor]].
    + now rewrite <- app_assoc.
Qed.

Lemma name_after_last_separator_fails :
  forall (backwards name : wstring),
    no_separator backwards ->
    name_after_last_separator backwards name = Raise OutOfBounds.
Proof.
  induction backwards as [| c before IH]; intros name H; cbn; [reflexivity |].
  inversion H as [| ? ? Hc Hb]; subst. rewrite Hc. now apply IH.
Qed.

Lemma name_after_last_separator_succeeds :
  forall (backwards name : wstring),
    ~ no_separator backwards ->
    exists r, name_after_last_separator backwards name = Ok r.
Proof.
  induction backwards as [| c before IH]; intros name H; cbn.
  - exfalso. apply H. constructor.
  - destruct (is_separator c) eqn:E; [eexists; reflexivity |].
    apply IH. intro Hb. apply H. constructor; assumption.
Qed.


(** X18.  What [truncatePathString] returns, for a limit of at least 3.
    Either the path fits and is returned as it is; or it is the first segment
    and its separator, an ellipsis in place of at least one erased character,
    and a tail of the path that starts with a separator, no longer than the
    limit in all; or it is an ellipsis followed by the name after the last
    separator, without that separator and whatever its length. *)
Theorem truncatePathString_result :
  forall (str : wstring) (maxLength : Z) (r : wstring),
    3 <= maxLength <= SIZE_MAX ->
    truncatePathString str maxLength = Ok r ->
    (vec_size str <= maxLength /\ r = str)
    \/ (maxLength < vec_size str
        /\ exists first sep erased tail,
             str = first ++ sep :: erased ++ tail
             /\ no_separator first
             /\ is_separator sep = true
             /\ erased <> []
             /\ is_separator (hd NUL tail) = true
             /\ r = first ++ sep :: L "..." ++ tail
             /\ vec_size r <= maxLength)
    \/ (maxLength < vec_size str
        /\ exists before sep name,
             str = before ++ sep :: name
             /\ is_separator sep = true
             /\ no_separator name
             /\ r = L "..." ++ name).
Proof.
  intros str maxLength r Hm H. unfold truncatePathString in H.
  destruct (vec_size str <=? maxLength) eqn:E.
  { apply Z.leb_le in E. inversion H; subst. left. auto. }
  apply Z.leb_gt in E. right.
  destruct (first_segment_split str) as (first & tail & Hstr & Hfirst & Hlen & Htail).
  rewrite <- Hlen in H.
  set (index := vec_size first + 1) in H.
  set (pre := firstn (Z.to_nat index) str) in H.
  set (rest := skipn (Z.to_nat index) str) in H.
  destruct (erase_until_fits_spec pre rest maxLength) as (erased & Hrest & Hne & Hleft).
  set (left_ := erase_until_fits pre rest maxLength) in *.
  assert (Hindex : index = vec_size pre \/ (tail = [] /\ left_ = [])).
  { destruct tail as [| sep tail'].
    - right. split; [reflexivity |]. rewrite app_nil_r in Hstr. subst first.
      assert (Hr : rest = []).
      { unfold rest. apply skipn_all2. unfold index, vec_size. lia. }
      unfold left_. rewrite Hr. reflexivity.
    - left. unfold pre, index, vec_size. rewrite length_firstn. subst str.
      rewrite length_app. cbn [length]. lia. }
  destruct (index <? vec_size (pre ++ left_)) eqn:Ei.
  - apply Z.ltb_lt in Ei. inversion H; subst r; clear H. left. split; [exact E |].
    destruct Hindex as [Hindex | [_ Hl]].
    2:{ rewrite Hl, app_nil_r in Ei. unfold pre, vec_size in Ei.
        rewrite length_firstn in Ei. unfold index, vec_size in Ei. lia. }
    assert (Hl : left_ <> []).
    { intro Hl. rewrite Hl, app_nil_r in Ei. lia. }
    destruct tail as [| sep tail'].
    { exfalso. rewrite app_nil_r in Hstr. subst first.
      unfold pre, index, vec_size in Hindex. rewrite length_firstn in Hindex. lia. }
    destruct Htail as [Ht | Ht]; [discriminate |]. cbn [hd] in Ht.
    assert (Hpre : pre = first ++ [sep]).
    { unfold pre, index. subst str.
      replace (Z.to_nat (vec_size first + 1)) with (length (first ++ [sep]) + 0)%nat
        by (rewrite length_app; unfold vec_size; cbn [length]; lia).
      change (first ++ sep :: tail') with (first ++ [sep] ++ tail').
      rewrite app_assoc, firstn_app_2. cbn. now rewrite app_nil_r. }
    assert (Hrest' : rest = tail').
    { unfold rest, index. subst str.
      replace (Z.to_nat (vec_size first + 1)) with (length (first ++ [sep]) + 0)%nat
        by (rewrite length_app; unfold vec_size; cbn [length]; lia).
      change (first ++ sep :: tail') with (first ++ [sep] ++ tail').
      rewrite app_assoc, Nat.add_0_r, skipn_app, skipn_all, Nat.sub_diag. reflexivity. }
    destruct (Hleft Hl) as [Hsep Hfit].
    rewrite to_size_t_id in Hfit by (unfold SIZE_MAX in *; lia).
    exists first, sep, erased, left_. repeat split; auto.
    + subst str. rewrite <- Hrest, Hrest'. reflexivity.
    + apply Hne. intro Hr. rewrite Hr in Hrest. symmetry in Hrest.
      apply app_eq_nil in Hrest. tauto.
    + rewrite Hpre, <- app_assoc. reflexivity.
    + rewrite Hpre, <- app_assoc. cbn [app].
      rewrite Hpre, vec_size_app in Hfit. rewrite vec_size_app.
      unfold vec_size in *. rewrite !length_app in *. cbn [length] in *. lia.
  - inv_bind H as name En. inversion H; subst r; clear H. right. split; [exact E |].
    apply name_after_last_separator_spec in En.
    destruct En as (before & sep & mid & Hrev & Hs & Hmid & ->).
    exists (rev before), sep, mid. rewrite app_nil_r. repeat split; auto.
    apply (f_equal (@rev _)) in Hrev. rewrite rev_involutive in Hrev.
    rewrite Hrev, rev_app_distr, rev_involutive. cbn [rev]. now rewrite <- app_assoc.
Qed.


Lemma first_segment_length_no_separator :
  forall s, no_separator s -> first_segment_length s = vec_size s.
Proof.
  induction s as [| c s IH]; intro H; [reflexivity |].
  inversion H as [| ? ? Hc Hs]; subst. cbn [first_segment_length]. rewrite Hc, IH by assumption.
  unfold vec_size. cbn [length]. lia.
Qed.

(** X19.  [truncatePathString] on a string longer than the limit needs a
    separator: when the string holds neither a backslash nor a slash, the
    backward search for one runs past the start of the string; with a
    separator the function returns a string. *)
Theorem truncatePathString_needs_separator :
  forall (str : wstring) (maxLength : Z),
    maxLength < vec_size str ->
    (no_separator str -> truncatePathString str maxLength = Raise OutOfBounds)
    /\ (~ no_separator str -> exists r, truncatePathString str maxLength = Ok r).
Proof.
  intros str maxLength Hlong.
  assert (E : (vec_size str <=? maxLength) = false) by (apply Z.leb_gt; lia).
  unfold truncatePathString. rewrite E. split.
  - intros Hno. rewrite (first_segment_length_no_separator _ Hno).
    assert (Hpre : firstn (Z.to_nat (vec_size str + 1)) str = str).
    { apply firstn_all2. unfold vec_size. lia. }
    assert (Hrest : skipn (Z.to_nat (vec_size str + 1)) str = []).
    { apply skipn_all2. unfold vec_size. lia. }
    rewrite Hpre, Hrest. cbn [erase_until_fits]. rewrite app_nil_r.
    assert (Ei : (vec_size str + 1 <? vec_size str) = false) by (apply Z.ltb_ge; lia).
    rewrite Ei. rewrite name_after_last_separator_fails; [reflexivity |].
    unfold no_separator in *. rewrite Forall_forall in *. intros c Hc.
    apply Hno. now apply in_rev.
  - intros Hsep. match goal with |- context [if ?c then _ else _] => destruct c end.
    + eexists. reflexivity.
    + destruct (name_after_last_separator_succeeds (rev str) []) as [name ->].
      * intro Hno. apply Hsep. unfold no_separator in *. rewrite Forall_forall in *.
        intros c Hc. apply Hno. now apply -> in_rev.
      * eexists. reflexivity.
Qed.

End Truncation.

Lemma truncateString_length_witness :
  Utils.truncateString (L "Hello, world") 8 = L "Hello..."
  /\ Utils.truncateString (L "Hello") 2 = L "Hello...".
Proof.
  split.
  - destruct (truncateString_length (L "Hello, world") 8) as [H _];
      [unfold SIZE_MAX; lia |].
    destruct H as [_ H]; [lia |].
    destruct H as [H _]; [vm_compute; reflexivity |]. exact H.
  - destruct (truncateString_length (L "Hello") 2) as [_ H];
      [unfold SIZE_MAX; lia |].
    apply H; [lia |]. unfold SIZE_MAX. vm_compute. split; [reflexivity | discriminate].
Defined.

Lemma truncatePathString_result_witness :
  exists first sep erased tail,
    L "C:/Users/someone/Documents/My Games/Terraria/config.json"
    = first ++ sep :: erased ++ tail
    /\ L "C:/.../Terraria/config.json" = first ++ sep :: L "..." ++ tail.
Proof.
  destruct (truncatePathString_result
              (L "C:/Users/someone/Documents/My Games/Terraria/config.json") 30
              (L "C:/.../Terraria/config.json"))
    as [[Hshort _] | [(_ & first & sep & erased & tail & Hstr & _ & _ & _ & _ & Hr & _)
                     | (_ & before & sep & name & Hstr & Hsep & Hname & Hr)]].
  - unfold SIZE_MAX. lia.
  - vm_compute. reflexivity.
  - exfalso. vm_compute in Hshort. apply Hshort. reflexivity.
  - exists first, sep, erased, tail. split; assumption.
  - exfalso. discriminate Hr.
Defined.

Lemma truncatePathString_needs_separator_witness :
  Utils.truncatePathString (L "configuration.json") 10 = Raise OutOfBounds
  /\ exists r, Utils.truncatePathString (L "C:/Users/config.json") 12 = Ok r.
Proof.
  split.
  - apply (truncatePathString_needs_separator (L "configuration.json") 10).
    + vm_compute. reflexivity.
    + unfold Utils.no_separator. repeat constructor.
  - apply (truncatePathString_needs_separator (L "C:/Users/config.json") 12).
    + vm_compute. reflexivity.
    + unfold Utils.no_separator. intro H.
      inversion H as [| c0 s0 _ Hs0]. inversion Hs0 as [| c1 s1 _ Hs1].
      inversion Hs1 as [| c2 s2 Hc _]. discriminate Hc.
Defined.

Section Arguments.

Import CommandLine.

Lemma wstring_eqb_eq : forall a b, wstring_eqb a b = true <-> a = b.
Proof.
  induction a as [| x a IH]; intros [| y b]; cbn; split; intro H;
    try reflexivity; try discriminate.
  - apply andb_true_iff in H as [Hx Ha]. apply Z.eqb_eq in Hx. apply IH in Ha.
    congruence.
  - inversion H; subst. rewrite Z.eqb_refl. cbn. now apply IH.
Qed.

(** What one argument does: each setting and flag has its own names, and an
    argument that bears none of them changes nothing. *)
Lemma apply_argument_spec :
  forall (arg : wstring) (flags : ProgramFlagsStruct) (s : ProgramSettingsStruct),
    apply_argument arg (Utils.stringToLowercase arg) (flags, s)
    = (mkFlags (helpMode flags) (versionMode flags)
         (clearProgramDataAtStart flags || names_long_option "--clear-program-data" arg),
       mkSettings
         (dryRun s || names_option "-d" "--dry-run" arg)
         (statelessMode s || names_option "-s" "--stateless" arg)
         (autoConfirmPrompts s || names_option "-y" "--yes" arg)
         (useCustomBufferBehavior s
          && negb (names_option "-b" "--disable-custom-buffer-behavior" arg))
         (debugMode s || names_long_option "--debug" arg)).
Proof.
  intros arg flags s. unfold apply_argument, names_option, names_long_option.
  remember (Utils.stringToLowercase arg) as lc eqn:Hlc.
  destruct flags as [h v c], s as [d st y b g]. cbn [helpMode versionMode
    clearProgramDataAtStart dryRun statelessMode autoConfirmPrompts
    useCustomBufferBehavior debugMode].
  destruct (wstring_eqb arg (L "-d")) eqn:A1;
    [apply wstring_eqb_eq in A1; subst arg; cbn in Hlc; subst lc; cbn;
     rewrite ?orb_true_r, ?orb_false_r, ?andb_true_r; reflexivity |].
  destruct (wstring_eqb arg (L "-s")) eqn:A2;
    [apply wstring_eqb_eq in A2; subst arg; cbn in Hlc; subst lc; cbn;
     rewrite ?orb_true_r, ?orb_false_r, ?andb_true_r; reflexivity |].
  destruct (wstring_eqb arg (L "-y")) eqn:A3;
    [apply wstring_eqb_eq in A3; subst arg; cbn in Hlc; subst lc; cbn;
     rewrite ?orb_true_r, ?orb_false_r, ?andb_true_r; reflexivity |].
  destruct (wstring_eqb arg (L "-b")) eqn:A4;
    [apply wstring_eqb_eq in A4; subst arg; cbn in Hlc; subst lc; cbn;
     rewrite ?orb_true_r, ?orb_false_r, ?andb_true_r, ?andb_false_r; reflexivity |].
  cbn [orb].
  destruct (wstring_eqb lc (L "--dry-run")) eqn:L1;
    [apply wstring_eqb_eq in L1; rewrite L1; cbn;
     rewrite ?orb_true_r, ?orb_false_r, ?andb_true_r; reflexivity |].
  destruct (wstring_eqb lc (L "--stateless")) eqn:L2;
    [apply wstring_eqb_eq in L2; rewrite L2; cbn;
     rewrite ?orb_true_r, ?orb_false_r, ?andb_true_r; reflexivity |].
  destruct (wstring_eqb lc (L "--yes")) eqn:L3;
    [apply wstring_eqb_eq in L3; rewrite L3; cbn;
     rewrite ?orb_true_r, ?orb_false_r, ?andb_true_r; reflexivity |].
  destruct (wstring_eqb lc (L "--disable-custom-buffer-behavior")) eqn:L4;
    [apply wstring_eqb_eq in L4; rewrite L4; cbn;
     rewrite ?orb_true_r, ?orb_false_r, ?andb_true_r, ?andb_false_r; reflexivity |].
  destruct (wstring_eqb lc (L "--clear-program-data")) eqn:L5;
    [apply wstring_eqb_eq in L5; rewrite L5; cbn;
     rewrite ?orb_true_r, ?orb_false_r, ?andb_true_r; reflexivity |].
  destruct (wstring_eqb lc (L "--debug")) eqn:L6;
    cbn; rewrite ?orb_true_r, ?orb_false_r, ?andb_true_r; reflexivity.
Qed.


Lemma process_arguments_later :
  forall (args : list wstring) (i : Z) (flags : ProgramFlagsStruct)
         (s : ProgramSettingsStruct),
    1 < i ->
    process_arguments i args (flags, s)
    = (mkFlags (helpMode flags) (versionMode flags)
         (clearProgramDataAtStart flags
          || existsb (names_long_option "--clear-program-data") args),
       mkSettings
         (dryRun s || existsb (names_option "-d" "--dry-run") args)
         (statelessMode s || existsb (names_option "-s" "--stateless") args)
         (autoConfirmPrompts s || existsb (names_option "-y" "--yes") args)
         (useCustomBufferBehavior s
          && negb (existsb (names_option "-b" "--disable-custom-buffer-behavior") args))
         (debugMode s || existsb (names_long_option "--debug") args)).
Proof.
  induction args as [| arg rest IH]; intros i flags s Hi; cbn [process_arguments existsb].
  - destruct flags, s; cbn. now rewrite !orb_false_r, andb_true_r.
  - assert (E : (i =? 1) = false) by (apply Z.eqb_neq; lia).
    rewrite E. cbn [andb]. rewrite apply_argument_spec, IH by lia. cbn.
    rewrite !orb_assoc, negb_orb, andb_assoc. reflexivity.
Qed.

(** X20.  The command line.  When the first argument asks for the help or the
    version, that flag alone is set and everything else keeps its default,
    whatever follows.  Otherwise each setting and flag depends only on
    whether one of its names is among the arguments, in any place and any
    number of times: the short name as written, the long name in any case. *)
Theorem command_line_by_membership :
  forall args : list wstring,
    parse_command_line args
    = match args with
      | first :: _ =>
          if is_help first (Utils.stringToLowercase first)
          then (mkFlags true false false, defaultSettings)
          else if is_version first (Utils.stringToLowercase first)
          then (mkFlags false true false, defaultSettings)
          else
            (mkFlags false false
               (existsb (names_long_option "--clear-program-data") args),
             mkSettings
               (existsb (names_option "-d" "--dry-run") args)
               (existsb (names_option "-s" "--stateless") args)
               (existsb (names_option "-y" "--yes") args)
               (negb (existsb (names_option "-b" "--disable-custom-buffer-behavior") args))
               (existsb (names_long_option "--debug") args))
      | [] => (noFlags, defaultSettings)
      end.
Proof.
  intros [| first rest]; [reflexivity |].
  unfold parse_command_line. cbn [process_arguments Z.eqb andb fst snd].
  change (1 =? 1) with true. cbn [andb].
  destruct (is_help first (Utils.stringToLowercase first)); [reflexivity |].
  destruct (is_version first (Utils.stringToLowercase first)); [reflexivity |].
  rewrite apply_argument_spec, process_arguments_later by lia.
  cbn. rewrite negb_orb. reflexivity.
Qed.

End Arguments.

Section ChangedValuesProperties.

Import ChangedValues.

Lemma wstring_eqb_neq : forall a b, wstring_eqb a b = false <-> a <> b.
Proof.
  intros a b. split.
  - intros H E. apply wstring_eqb_eq in E. congruence.
  - intros H. destruct (wstring_eqb a b) eqn:E; [| reflexivity].
    apply wstring_eqb_eq in E. contradiction.
Qed.

Lemma find_set_second :
  forall (m : ChangedValuesMap) (key newValue other : wstring),
    find (set_second m key newValue) other
    = if wstring_eqb key other
      then match find m key with
           | Some (first, _) => Some (first, newValue)
           | None => None
           end
      else find m other.
Proof.
  induction m as [| [k v] m IH]; intros key newValue other; cbn [set_second find].
  - now destruct (wstring_eqb key other).
  - destruct (wstring_eqb k key) eqn:Ek; cbn [find].
    + apply wstring_eqb_eq in Ek. subst k.
      destruct (wstring_eqb key other); [now destruct v | reflexivity].
    + rewrite IH. destruct (wstring_eqb k other) eqn:Eo; [| reflexivity].
      apply wstring_eqb_eq in Eo. subst other.
      apply wstring_eqb_neq in Ek.
      assert (E : wstring_eqb key k = false)
        by (apply wstring_eqb_neq; congruence).
      now rewrite E.
Qed.

Lemma find_erase :
  forall (m : ChangedValuesMap) (key other : wstring),
    unique_keys m ->
    find (erase m key) other = if wstring_eqb key other then None else find m other.
Proof.
  induction m as [| [k v] m IH]; intros key other Hu; cbn [erase find].
  - now destruct (wstring_eqb key other).
  - destruct Hu as [Hk Hu]. destruct (wstring_eqb k key) eqn:Ek; cbn [find].
    + apply wstring_eqb_eq in Ek. subst k.
      destruct (wstring_eqb key other) eqn:Eo; [| reflexivity].
      apply wstring_eqb_eq in Eo. now subst other.
    + rewrite IH by assumption. destruct (wstring_eqb k other) eqn:Eo; [| reflexivity].
      apply wstring_eqb_eq in Eo. subst other.
      apply wstring_eqb_neq in Ek.
      assert (E : wstring_eqb key k = false)
        by (apply wstring_eqb_neq; congruence).
      now rewrite E.
Qed.

Lemma find_set_second_none :
  forall (m : ChangedValuesMap) (key newValue other : wstring),
    find m other = None -> find (set_second m key newValue) other = None.
Proof.
  intros m key newValue other H. rewrite find_set_second.
  destruct (wstring_eqb key other) eqn:E; [| exact H].
  apply wstring_eqb_eq in E. subst other. now rewrite H.
Qed.

Lemma unique_keys_set_second :
  forall (m : ChangedValuesMap) (key newValue : wstring),
    unique_keys m -> unique_keys (set_second m key newValue).
Proof.
  induction m as [| [k v] m IH]; intros key newValue Hu; cbn [set_second]; [exact I |].
  destruct Hu as [Hk Hu]. destruct (wstring_eqb k key); cbn [unique_keys].
  - auto.
  - split; [now apply find_set_second_none | now apply IH].
Qed.

Lemma find_erase_none :
  forall (m : ChangedValuesMap) (key other : wstring),
    find m other = None -> find (erase m key) other = None.
Proof.
  induction m as [| [k v] m IH]; intros key other H; cbn [erase find] in *; [reflexivity |].
  destruct (wstring_eqb k other) eqn:Eo; [discriminate |].
  destruct (wstring_eqb k key); cbn [find]; [exact H |].
  rewrite Eo. now apply IH.
Qed.

Lemma unique_keys_erase :
  forall (m : ChangedValuesMap) (key : wstring),
    unique_keys m -> unique_keys (erase m key).
Proof.
  induction m as [| [k v] m IH]; intros key Hu; cbn [erase]; [exact I |].
  destruct Hu as [Hk Hu]. destruct (wstring_eqb k key); cbn [unique_keys]; [exact Hu |].
  split; [now apply find_erase_none | now apply IH].
Qed.

(** What one change does to the map, seen through [find]. *)
Lemma record_change_find :
  forall (m : ChangedValuesMap) (key oldValue newValue other : wstring),
    unique_keys m -> newValue <> [] ->
    unique_keys (record_change m key oldValue newValue)
    /\ find (record_change m key oldValue newValue) other
       = if wstring_eqb key other
         then match find m key with
              | None => Some (oldValue, newValue)
              | Some (first, _) =>
                  if wstring_eqb first newValue then None else Some (first, newValue)
              end
         else find m other.
Proof.
  intros m key oldValue newValue other Hu Hnew. unfold record_change, contains, subscript.
  destruct newValue as [| c newValue']; [congruence |]. cbn [empty negb].
  set (newValue := c :: newValue') in *.
  destruct (find m key) as [[first second] |] eqn:Ef; cbn [negb fst].
  - destruct (wstring_eqb first newValue) eqn:E; cbn [negb].
    + split; [now apply unique_keys_erase |]. now apply find_erase.
    + split; [now apply unique_keys_set_second |]. now rewrite find_set_second, Ef.
  - unfold emplace, contains. rewrite Ef. cbn [unique_keys find]. split; [auto |].
    destruct (wstring_eqb key other) eqn:E; reflexivity.
Qed.

Lemma wstring_eqb_refl : forall a, wstring_eqb a a = true.
Proof. intro a. now apply wstring_eqb_eq. Qed.

(** The entry of [key] when the value in the file is [current] and was
    [original] at first. *)
Lemma record_changes_find :
  forall (values : list wstring) (m : ChangedValuesMap) (key original current : wstring),
    unique_keys m ->
    find m key = (if wstring_eqb current original then None else Some (original, current)) ->
    all_changes current values ->
    let m' := record_changes m key current values in
    find m' key = (if wstring_eqb (last values current) original
                   then None else Some (original, last values current))
    /\ forall other, other <> key -> find m' other = find m other.
Proof.
  induction values as [| value later IH]; intros m key original current Hu Hfind Hall;
    cbn [record_changes last].
  - split; [exact Hfind | reflexivity].
  - destruct Hall as (Hne & Hdiff & Hall).
    set (m1 := record_change m key current value).
    assert (H1 : unique_keys m1
                 /\ find m1 key = (if wstring_eqb value original
                                   then None else Some (original, value))
                 /\ forall other, other <> key -> find m1 other = find m other).
    { destruct (record_change_find m key current value key Hu Hne) as [Hu1 Hk].
      split; [exact Hu1 |]. split.
      - fold m1 in Hk. rewrite Hk, wstring_eqb_refl, Hfind.
        destruct (wstring_eqb current original) eqn:Ec.
        + apply wstring_eqb_eq in Ec. subst current.
          assert (E : wstring_eqb value original = false)
            by (now apply wstring_eqb_neq).
          now rewrite E.
        + assert (E : wstring_eqb original value = wstring_eqb value original).
          { destruct (wstring_eqb value original) eqn:E.
            - apply wstring_eqb_eq in E. subst. apply wstring_eqb_refl.
            - apply wstring_eqb_neq. apply wstring_eqb_neq in E.
              congruence. }
          now rewrite E.
      - intros other Ho.
        destruct (record_change_find m key current value other Hu Hne) as [_ Hk'].
        fold m1 in Hk'. rewrite Hk'.
        assert (E : wstring_eqb key other = false)
          by (apply wstring_eqb_neq; congruence).
        now rewrite E. }
    destruct H1 as (Hu1 & Hk1 & Ho1).
    destruct (IH m1 key original value Hu1 Hk1 Hall) as [Hk Ho].
    cbv zeta in Hk, Ho.
    split.
    + destruct later as [| v l]; [exact Hk |].
      now rewrite (last_cons_default _ l v current value).
    + intros other Hne'. rewrite Ho by assumption. now apply Ho1.
Qed.

(** X21.  The map of changed values.  Let a property that has no entry be
    changed several times, each time to a value that is not empty and differs
    from the value before.  Then its entry is the value it had at first and
    the value it has now -- and there is no entry when these are the same:
    changing a value and changing it back leaves no trace.  The entries of
    the other properties are not touched. *)
Theorem changed_value_round_trip :
  forall (values : list wstring) (changedValues : ChangedValuesMap)
         (key original : wstring),
    unique_keys changedValues ->
    find changedValues key = None ->
    all_changes original values ->
    let final := last values original in
    let changedValues' := record_changes changedValues key original values in
    find changedValues' key
    = (if wstring_eqb final original then None else Some (original, final))
    /\ forall other, other <> key -> find changedValues' other = find changedValues other.
Proof.
  intros values m key original Hu Hfind Hall.
  apply record_changes_find; try assumption.
  now rewrite wstring_eqb_refl.
Qed.

End ChangedValuesProperties.

Lemma changed_value_round_trip_witness :
  ChangedValues.find
    (ChangedValues.record_changes [] (L "DisplayWidth") (L "1920") [L "2560"; L "1920"])
    (L "DisplayWidth")
  = None
  /\ ChangedValues.find
       (ChangedValues.record_changes [] (L "DisplayWidth") (L "1920") [L "2560"; L "3840"])
       (L "DisplayWidth")
     = Some (L "1920", L "3840").
Proof.
  split.
  - destruct (changed_value_round_trip [L "2560"; L "1920"] [] (L "DisplayWidth")
                (L "1920")) as [H _].
    + exact I.
    + reflexivity.
    + cbn. repeat split; discriminate.
    + exact H.
  - destruct (changed_value_round_trip [L "2560"; L "3840"] [] (L "DisplayWidth")
                (L "1920")) as [H _].
    + exact I.
    + reflexivity.
    + cbn. repeat split; discriminate.
    + exact H.
Defined.

Section InputQueue.

Import InputBuffer.

Context {host : Type} {queue : WinConsoleInputQueue host}.

Lemma vec_get_In :
  forall (A : Type) (v : list A) (i : Z) (a : A), vec_get v i = Ok a -> In a v.
Proof.
  intros A v i a H. unfold vec_get in H.
  destruct ((0 <=? i) && (i <? Z.of_nat (length v))); [| discriminate].
  destruct (nth_error v (Z.to_nat i)) eqn:E; [| discriminate].
  inversion H; subst. eapply nth_error_In; eauto.
Qed.

Lemma next_key_eq :
  forall (n : nat) (s : Statics),
    next_key n s
    = if inputBufPos s <? inputBufSize s then
        input <- vec_get (inputBuf s) (inputBufPos s) ;;
        if is_key_press input then
          Ok (set_inputBufPos s (to_DWORD (inputBufPos s + 1)), Some (KeyEvent input))
        else
          match n with
          | O => Raise BoundUsedUp
          | S n' => next_key n' (set_inputBufPos s (to_DWORD (inputBufPos s + 1)))
          end
      else Ok (s, None).
Proof. intros [| n] s; reflexivity. Qed.

Lemma to_DWORD_nonneg : forall x, 0 <= to_DWORD x.
Proof. intro x. unfold to_DWORD. apply Z.mod_pos_bound. lia. Qed.

Lemma next_key_result :
  forall (n : nat) (s s1 : Statics) (r : option WinConsoleInputKey),
    next_key n s = Ok (s1, r) ->
    inputBuf s1 = inputBuf s
    /\ inputBufSize s1 = inputBufSize s
    /\ inputBufIsEmpty s1 = inputBufIsEmpty s
    /\ (0 <= inputBufPos s -> 0 <= inputBufPos s1)
    /\ forall key, r = Some key ->
         exists input, In input (inputBuf s) /\ is_key_press input = true
                       /\ KeyEvent input = key.
Proof.
  induction n as [| n IH]; intros s s1 r H; rewrite next_key_eq in H;
    (destruct (inputBufPos s <? inputBufSize s);
     [| inversion H; subst; repeat split; auto; intros key Hk; discriminate]);
    inv_bind H as input E; destruct (is_key_press input) eqn:Ek.
  - inversion H; subst. cbn. repeat split; auto.
    + intros _. apply to_DWORD_nonneg.
    + intros key Hk. inversion Hk; subst. exists input. repeat split; auto.
      eapply vec_get_In; eauto.
  - discriminate.
  - inversion H; subst. cbn. repeat split; auto.
    + intros _. apply to_DWORD_nonneg.
    + intros key Hk. inversion Hk; subst. exists input. repeat split; auto.
      eapply vec_get_In; eauto.
  - apply IH in H. cbn in H. destruct H as (Hb & Hs & He & Hp & Hk).
    repeat split; auto. intros _. apply Hp. apply to_DWORD_nonneg.
Qed.

(** X22.  A key returned by [waitForInput] is the key of a record of the
    array that is a key event with the key going down: key releases and
    events of other devices are never returned. *)
Theorem waitForInput_returns_key_presses :
  forall (fuel : nat) (flushBuffer : bool) (maxWaitTime : Z) (s : Statics) (h : host)
         (s' : Statics) (h' : host) (key : WinConsoleInputKey),
    waitForInput fuel flushBuffer maxWaitTime s h = Some (Ok (s', h', Some key)) ->
    exists input,
      In input (inputBuf s') /\ is_key_press input = true /\ KeyEvent input = key.
Proof.
  assert (Hloop : forall fuel maxWaitTime s h s' h' key,
             wait_loop fuel maxWaitTime s h = Some (Ok (s', h', Some key)) ->
             exists input,
               In input (inputBuf s') /\ is_key_press input = true /\ KeyEvent input = key).
  { induction fuel as [| fuel IH]; intros maxWaitTime s h s' h' key H;
      cbn [wait_loop] in H; [discriminate |].
    destruct (negb (inputBufIsEmpty s)).
    - destruct (next_key (Z.to_nat (inputBufSize s - inputBufPos s)) s)
        as [[s1 [k |]] | f] eqn:E.
      + inversion H; subst.
        destruct (next_key_result _ _ _ _ E) as (Hb & _ & _ & _ & Hk).
        rewrite Hb. now apply Hk.
      + eapply IH; eauto.
      + discriminate.
    - destruct (GetNumberOfConsoleInputEvents h >? 0).
      + destruct (ReadConsoleInputW h MAX_INPUT_EVENT_BUFFER_SIZE) as [h1 records].
        eapply IH; eauto.
      + destruct (WaitForSingleObject h maxWaitTime) as [h1 [|]];
          [discriminate | eapply IH; eauto]. }
  intros fuel flushBuffer maxWaitTime s h s' h' key H. unfold waitForInput in H.
  destruct flushBuffer; eapply Hloop; eauto.
Qed.


Lemma vec_get_inside :
  forall (A : Type) (v : list A) (i : Z),
    0 <= i < vec_size v -> exists a, vec_get v i = Ok a.
Proof.
  intros A v i Hi. destruct (vec_get_ok A v i Hi) as (a & Ha & _). eauto.
Qed.

Lemma next_key_inside :
  forall (n : nat) (s : Statics),
    well_formed s ->
    (Z.to_nat (inputBufSize s - inputBufPos s) <= n)%nat ->
    exists s1 r, next_key n s = Ok (s1, r) /\ well_formed s1.
Proof.
  unfold well_formed, MAX_INPUT_EVENT_BUFFER_SIZE.
  induction n as [| n IH]; intros s (Hlen & Hpos & Hsize) Hn; rewrite next_key_eq.
  - destruct (inputBufPos s <? inputBufSize s) eqn:E.
    + apply Z.ltb_lt in E. lia.
    + eexists. eexists. split; [reflexivity |]. auto.
  - destruct (inputBufPos s <? inputBufSize s) eqn:E.
    + apply Z.ltb_lt in E.
      destruct (vec_get_inside _ (inputBuf s) (inputBufPos s)) as [input ->]; [lia |].
      cbn [bind].
      assert (Hd : to_DWORD (inputBufPos s + 1) = inputBufPos s + 1).
      { unfold to_DWORD. apply Z.mod_small. lia. }
      destruct (is_key_press input).
      * eexists. eexists. split; [reflexivity |]. cbn. rewrite Hd. repeat split; lia.
      * apply IH; cbn; rewrite Hd; [repeat split; lia | lia].
    + eexists. eexists. split; [reflexivity |]. auto.
Qed.

Lemma store_records_length :
  forall (buffer records : list WinConsoleInput),
    vec_size buffer = MAX_INPUT_EVENT_BUFFER_SIZE ->
    vec_size (store_records buffer MAX_INPUT_EVENT_BUFFER_SIZE records)
    = MAX_INPUT_EVENT_BUFFER_SIZE.
Proof.
  intros buffer records H. unfold store_records, vec_size, MAX_INPUT_EVENT_BUFFER_SIZE in *.
  rewrite length_app, length_skipn, length_firstn. lia.
Qed.

(** X23.  The array of [waitForInput] has ten records.  When a call starts
    with the position not negative and the size at most ten, it reads no
    record outside the array, whatever the console delivers, and leaves
    position and size like that for the next call. *)
Theorem waitForInput_stays_inside_the_array :
  forall (fuel : nat) (flushBuffer : bool) (maxWaitTime : Z) (s : Statics) (h : host)
         (r : Result (Statics * host * option WinConsoleInputKey)),
    well_formed s ->
    waitForInput fuel flushBuffer maxWaitTime s h = Some r ->
    exists s' h' key, r = Ok (s', h', key) /\ well_formed s'.
Proof.
  assert (Hloop : forall fuel maxWaitTime s h r,
             well_formed s ->
             wait_loop fuel maxWaitTime s h = Some r ->
             exists s' h' key, r = Ok (s', h', key) /\ well_formed s').
  { induction fuel as [| fuel IH]; intros maxWaitTime s h r Hwf H;
      cbn [wait_loop] in H; [discriminate |].
    destruct (negb (inputBufIsEmpty s)).
    - destruct (next_key_inside (Z.to_nat (inputBufSize s - inputBufPos s)) s Hwf
                  (Nat.le_refl _)) as (s1 & k & E & Hwf1).
      rewrite E in H. destruct k as [key |].
      + inversion H; subst. eauto.
      + eapply IH; [| exact H]. exact Hwf1.
    - destruct (GetNumberOfConsoleInputEvents h >? 0).
      + destruct (ReadConsoleInputW h MAX_INPUT_EVENT_BUFFER_SIZE) as [h1 records].
        eapply IH; [| exact H].
        destruct Hwf as (Hlen & _ & _). unfold well_formed. cbn.
        split; [now apply store_records_length |]. split; [lia |].
        unfold vec_size, MAX_INPUT_EVENT_BUFFER_SIZE. rewrite length_firstn. lia.
      + destruct (WaitForSingleObject h maxWaitTime) as [h1 [|]].
        * inversion H; subst. eauto.
        * eapply IH; eauto. }
  intros fuel flushBuffer maxWaitTime s h r Hwf H. unfold waitForInput in H.
  destruct flushBuffer; (eapply Hloop; [| exact H]); exact Hwf.
Qed.


Lemma vec_get_middle :
  forall (A : Type) (before : list A) (a : A) (after : list A),
    vec_get (before ++ a :: after) (vec_size before) = Ok a.
Proof.
  intros A before a after. unfold vec_get, vec_size.
  assert (Hb : (0 <=? Z.of_nat (length before))
               && (Z.of_nat (length before) <? Z.of_nat (length (before ++ a :: after)))
               = true).
  { apply andb_true_iff. split; [apply Z.leb_le | apply Z.ltb_lt].
    - lia.
    - rewrite length_app. cbn [length]. lia. }
  rewrite Hb, Nat2Z.id, nth_error_app2, Nat.sub_diag by lia. reflexivity.
Qed.

Lemma next_key_skips :
  forall (skipped : list WinConsoleInput) (n : nat) (s : Statics)
         (before : list WinConsoleInput) (input : WinConsoleInput)
         (later : list WinConsoleInput),
    inputBufSize s <= MAX_INPUT_EVENT_BUFFER_SIZE ->
    inputBuf s = before ++ skipped ++ input :: later ->
    inputBufPos s = vec_size before ->
    vec_size before + vec_size skipped < inputBufSize s ->
    (length skipped <= n)%nat ->
    Forall (fun r => is_key_press r = false) skipped ->
    is_key_press input = true ->
    next_key n s
    = Ok (set_inputBufPos s (vec_size before + vec_size skipped + 1),
          Some (KeyEvent input)).
Proof.
  unfold MAX_INPUT_EVENT_BUFFER_SIZE.
  induction skipped as [| x skipped IH];
    intros n s before input later Hsize Hbuf Hpos Hin Hn Hskip Hkey;
    rewrite next_key_eq.
  - cbn [app] in Hbuf. unfold vec_size in Hin at 2. cbn [length] in Hin.
    assert (E : (inputBufPos s <? inputBufSize s) = true) by (apply Z.ltb_lt; lia).
    rewrite E, Hbuf, Hpos, vec_get_middle. cbn [bind]. rewrite Hkey.
    pose proof (vec_size_nonneg _ before) as H0.
    unfold to_DWORD. rewrite Z.mod_small by lia.
    unfold vec_size at 3. cbn [length]. repeat f_equal. lia.
  - inversion Hskip as [| ? ? Hx Hskip']; subst.
    assert (Hlen : vec_size (x :: skipped) = vec_size skipped + 1)
      by (unfold vec_size; cbn [length]; lia).
    pose proof (vec_size_nonneg _ before) as H0.
    pose proof (vec_size_nonneg _ skipped) as H1.
    assert (E : (inputBufPos s <? inputBufSize s) = true) by (apply Z.ltb_lt; lia).
    cbn [app] in Hbuf.
    rewrite E, Hbuf, Hpos, vec_get_middle. cbn [bind]. rewrite Hx.
    destruct n as [| n]; [cbn [length] in Hn; lia |].
    assert (Hd : to_DWORD (vec_size before + 1) = vec_size before + 1).
    { unfold to_DWORD. apply Z.mod_small. lia. }
    rewrite Hd.
    rewrite (IH n (set_inputBufPos s (vec_size before + 1)) (before ++ [x]) input later);
      cbn [inputBuf inputBufSize inputBufPos set_inputBufPos]; try assumption.
    + rewrite vec_size_app, Hlen. unfold set_inputBufPos.
      cbn [inputBuf inputBufSize inputBufPos inputBufIsEmpty].
      replace (vec_size before + vec_size [x] + vec_size skipped + 1)
        with (vec_size before + (vec_size skipped + 1) + 1)
        by (unfold vec_size; cbn [length]; lia).
      reflexivity.
    + rewrite Hbuf, <- app_assoc. reflexivity.
    + rewrite vec_size_app. reflexivity.
    + rewrite vec_size_app. unfold vec_size at 2. cbn [length]. lia.
    + cbn [length] in Hn. lia.
Qed.

(** X24.  Records read earlier are served first.  When the array still holds
    a key press that has not been looked at, [waitForInput] without a flush
    returns the first such key, steps over the other records before it, moves
    the position just behind it, and does not touch the console. *)
Theorem waitForInput_serves_buffered_records :
  forall (fuel : nat) (maxWaitTime : Z) (s : Statics) (h : host)
         (before skipped : list WinConsoleInput) (input : WinConsoleInput)
         (later : list WinConsoleInput),
    inputBufIsEmpty s = false ->
    inputBufSize s <= MAX_INPUT_EVENT_BUFFER_SIZE ->
    inputBuf s = before ++ skipped ++ input :: later ->
    inputBufPos s = vec_size before ->
    vec_size before + vec_size skipped < inputBufSize s ->
    Forall (fun r => is_key_press r = false) skipped ->
    is_key_press input = true ->
    waitForInput (S fuel) false maxWaitTime s h
    = Some (Ok (set_inputBufPos s (vec_size before + vec_size skipped + 1), h,
                Some (KeyEvent input))).
Proof.
  intros fuel maxWaitTime s h before skipped input later He Hsize Hbuf Hpos Hin Hskip Hkey.
  unfold waitForInput. cbn [wait_loop]. rewrite He. cbn [negb].
  rewrite (next_key_skips skipped _ s before input later); try assumption; [reflexivity |].
  rewrite Hpos. unfold vec_size in *. lia.
Qed.

End InputQueue.

Lemma waitForInput_returns_key_presses_witness :
  exists s' h',
    InputBuffer.waitForInput 2 false 0 InputBuffer.initialStatics
      [Scenarios.mouse_event; Scenarios.key_down 65 97]
    = Some (Ok (s', h', Some (mkKey 65 97)))
    /\ exists input,
         In input (InputBuffer.inputBuf s') /\ InputBuffer.is_key_press input = true
         /\ InputBuffer.KeyEvent input = mkKey 65 97.
Proof.
  eexists. eexists. split; [vm_compute; reflexivity |].
  eapply (waitForInput_returns_key_presses 2 false 0 InputBuffer.initialStatics
           [Scenarios.mouse_event; Scenarios.key_down 65 97]).
  vm_compute. reflexivity.
Defined.

Lemma waitForInput_stays_inside_the_array_witness :
  exists s' h' key,
    Scenarios.first_key = Ok (s', h', key) /\ InputBuffer.well_formed s'.
Proof.
  apply (waitForInput_stays_inside_the_array 2 false 0 InputBuffer.initialStatics
           [Scenarios.mouse_event; Scenarios.key_down 65 97]).
  - unfold InputBuffer.well_formed. vm_compute. repeat split; discriminate.
  - vm_compute. reflexivity.
Defined.

Lemma waitForInput_serves_buffered_records_witness :
  InputBuffer.waitForInput 1 false 0 Scenarios.three_buffered []
  = Some (Ok (InputBuffer.set_inputBufPos Scenarios.three_buffered 2, [],
              Some (mkKey 65 97))).
Proof.
  apply (waitForInput_serves_buffered_records 0 0 Scenarios.three_buffered []
           [] [Scenarios.mouse_event] (Scenarios.key_down 65 97)
           (Scenarios.key_down 66 98
            :: repeat (InputBuffer.mkInput 0 false (mkKey 0 0)) 7)).
  - reflexivity.
  - vm_compute. discriminate.
  - reflexivity.
  - reflexivity.
  - vm_compute. reflexivity.
  - repeat constructor.
  - reflexivity.
Defined.
